(** * PIXELCRM-IA: the HOMELIOR rule engine ([src/homelior_rules.py])

  A shallow embedding of [_normalize], [_parse_date], [_find_date_any],
  [_find_doc_by_name] and [analyze_homelior], together with the parts of
  the Python runtime they call: [str] methods, [unicodedata], [re],
  [float] and [datetime.strptime]; and of their surroundings:
  [validate_fields] ([src/rules.py]), [validate_dossier]
  ([src/validator.py]), [_build_docs_summary] ([src/ai_checker.py]) and
  [_nettoie_ien] ([src/pixelcrm_client.py]).

  Python strings are sequences of Unicode code points; floats are IEEE 754
  binary64 values, taken from the Standard Library's [SpecFloat]. *)

From Stdlib Require Import List NArith ZArith Bool Ascii String Lia.
From Stdlib Require Import SpecFloat Sorted.
Import ListNotations.

Set Implicit Arguments.

(** ** Python strings *)

Module Str.

Definition codepoint := N.
Definition str := list codepoint.

(** Source literals are UTF-8; [lit] decodes one into its code points. *)
Fixpoint utf8_decode (bs : list N) : str :=
  match bs with
  | [] => []
  | b0 :: t0 =>
    if (b0 <? 0x80)%N then b0 :: utf8_decode t0 else
    match t0 with
    | [] => []
    | b1 :: t1 =>
      if (b0 <? 0xE0)%N
      then ((b0 mod 0x20) * 0x40 + b1 mod 0x40)%N :: utf8_decode t1 else
      match t1 with
      | [] => []
      | b2 :: t2 =>
        if (b0 <? 0xF0)%N
        then ((b0 mod 0x10) * 0x1000 + (b1 mod 0x40) * 0x40 + b2 mod 0x40)%N
             :: utf8_decode t2 else
        match t2 with
        | [] => []
        | b3 :: t3 =>
          ((b0 mod 0x08) * 0x40000 + (b1 mod 0x40) * 0x1000
           + (b2 mod 0x40) * 0x40 + b3 mod 0x40)%N :: utf8_decode t3
        end
      end
    end
  end.

Definition lit (s : string) : str :=
  utf8_decode (map N_of_ascii (list_ascii_of_string s)).

Definition eqb (a b : str) : bool :=
  if list_eq_dec N.eq_dec a b then true else false.

(** [s.startswith(p)] *)
Fixpoint startswith (p s : str) : bool :=
  match p, s with
  | [], _ => true
  | a :: p', b :: s' => (a =? b)%N && startswith p' s'
  | _ :: _, [] => false
  end.

(** [sub in s] *)
Fixpoint contains (sub s : str) : bool :=
  startswith sub s ||
  match s with
  | [] => false
  | _ :: t => contains sub t
  end.

(** [s.replace(old, new)] for a one-character [old]. *)
Definition replace (old : codepoint) (new : str) (s : str) : str :=
  flat_map (fun c => if (c =? old)%N then new else [c]) s.

(** Truth value of a string: non-empty. *)
Definition truthy (s : str) : bool :=
  match s with [] => false | _ :: _ => true end.

End Str.

Import Str.

(** ** The Unicode character database

  CPython answers every per-character question from its Unicode tables,
  with the ASCII range decided by fixed code.  The tables for the
  characters above ASCII are a parameter of the development. *)

Class UnicodeData := {
(** full compatibility decomposition of a character (itself when none) *)
ucd_decomposition : codepoint -> str;
(** [unicodedata.combining]: canonical combining class *)
ucd_combining : codepoint -> N;
(** full lower-case mapping used by [str.lower] *)
ucd_lower : codepoint -> str;
(** simple lower-case mapping used by [re.IGNORECASE] *)
ucd_tolower : codepoint -> codepoint;
(** [str.isspace], also [\s] in [re] *)
ucd_isspace : codepoint -> bool;
(** decimal digit value: [\d] in [re], digits of [int] and [float] *)
ucd_decimal : codepoint -> option N;
(** [str.isalnum], the word characters of [\b] together with [_] *)
ucd_isalnum : codepoint -> bool;
(** Cased and Case_Ignorable, for the final-sigma rule of [str.lower] *)
ucd_iscased : codepoint -> bool;
ucd_iscaseignorable : codepoint -> bool
}.

Module Unicode.
Section WithData.
Context {U : UnicodeData}.

Definition is_ascii (c : codepoint) : bool := (c <? 128)%N.

Definition between (lo hi c : N) : bool := ((lo <=? c) && (c <=? hi))%N.

Definition ascii_upper (c : codepoint) : bool := between 65 90 c.
Definition ascii_lower (c : codepoint) : bool := between 97 122 c.
Definition ascii_digit (c : codepoint) : bool := between 48 57 c.

Definition ascii_tolower (c : codepoint) : codepoint :=
  if ascii_upper c then (c + 32)%N else c.

Definition decomposition (c : codepoint) : str :=
  if is_ascii c then [c] else ucd_decomposition c.

Definition combining (c : codepoint) : N :=
  if is_ascii c then 0%N else ucd_combining c.

Definition lower_full (c : codepoint) : str :=
  if is_ascii c then [ascii_tolower c] else ucd_lower c.

Definition tolower (c : codepoint) : codepoint :=
  if is_ascii c then ascii_tolower c else ucd_tolower c.

Definition isspace (c : codepoint) : bool :=
  if is_ascii c then between 9 13 c || between 28 32 c else ucd_isspace c.

Definition decimal (c : codepoint) : option N :=
  if is_ascii c then (if ascii_digit c then Some (c - 48)%N else None)
  else ucd_decimal c.

Definition isdecimal (c : codepoint) : bool :=
  match decimal c with Some _ => true | None => false end.

Definition isalnum (c : codepoint) : bool :=
  if is_ascii c then ascii_upper c || ascii_lower c || ascii_digit c
  else ucd_isalnum c.

Definition iscased (c : codepoint) : bool :=
  if is_ascii c then ascii_upper c || ascii_lower c else ucd_iscased c.

Definition iscaseignorable (c : codepoint) : bool :=
  if is_ascii c
  then existsb (N.eqb c) [0x27; 0x2E; 0x3A; 0x5E; 0x60]%N
  else ucd_iscaseignorable c.

(** *** [unicodedata.normalize("NFKD", s)] *)

(** Canonical ordering: a combining mark moves left over the marks of a
    strictly greater class that precede it. [acc] is the output so far,
    last character first. *)
Fixpoint insert_mark (c : codepoint) (acc : str) : str :=
  match acc with
  | p :: r =>
    if (combining c <? combining p)%N then p :: insert_mark c r
    else c :: acc
  | [] => [c]
  end.

Definition canonical_order (s : str) : str :=
  rev (fold_left
         (fun acc c =>
            if (combining c =? 0)%N then c :: acc else insert_mark c acc)
         s []).

Definition nfkd (s : str) : str :=
  canonical_order (flat_map decomposition s).

(** *** [str.lower] *)

Definition capital_sigma : codepoint := 0x3A3%N.
Definition small_sigma : codepoint := 0x3C3%N.
Definition small_final_sigma : codepoint := 0x3C2%N.

Fixpoint skip_ignorable (s : str) : option codepoint :=
  match s with
  | [] => None
  | c :: t => if iscaseignorable c then skip_ignorable t else Some c
  end.

(** [before] holds the characters to the left, nearest first. *)
Definition handle_capital_sigma (before after : str) : codepoint :=
  match skip_ignorable before with
  | Some c =>
    if iscased c then
      match skip_ignorable after with
      | None => small_final_sigma
      | Some c' => if iscased c' then small_sigma else small_final_sigma
      end
    else small_sigma
  | None => small_sigma
  end.

Fixpoint lower_from (before s : str) : str :=
  match s with
  | [] => []
  | c :: t =>
    (if (c =? capital_sigma)%N then [handle_capital_sigma before t]
     else lower_full c) ++ lower_from (c :: before) t
  end.

Definition lower (s : str) : str := lower_from [] s.

(** *** [str.strip] *)

Fixpoint lstrip (s : str) : str :=
  match s with
  | [] => []
  | c :: t => if isspace c then lstrip t else s
  end.

Definition rstrip (s : str) : str := rev (lstrip (rev s)).

Definition strip (s : str) : str := rstrip (lstrip s).

End WithData.
End Unicode.

Import Unicode.

(** ** Python's [re]: a backtracking matcher

  The fragment of the pattern language the source uses: literals, classes,
  [.], [\b], sequence, alternation, greedy and lazy bounded repetition and
  numbered groups.  The matcher is written in continuation-passing style and
  tries alternatives in the order of CPython's engine, so that the first
  match found is the match [re.search] reports. *)

Module Re.

(** Character classes, as written between brackets or as an escape. *)
Inductive cset :=
| CDigit                              (* \d *)
| CSpace                              (* \s *)
| COne (c : codepoint)
| CRange (lo hi : codepoint)
| CUnion (a b : cset)
| CNot (a : cset).

Inductive regex :=
| Eps
| Chr (c : codepoint)
| Cls (cs : cset)
| Dot                                 (* any character but a newline *)
| WordB                               (* \b *)
| Seq (a b : regex)
| Alt (a b : regex)
| Rep (greedy : bool) (lo : nat) (hi : option nat) (a : regex)
| Grp (n : nat) (a : regex).

Definition cat (l : list regex) : regex := fold_right Seq Eps l.

(** A literal run of characters. *)
Definition text (s : string) : regex := cat (map Chr (lit s)).

Definition star (a : regex) : regex := Rep true 0 None a.       (* a*   *)
Definition plus (a : regex) : regex := Rep true 1 None a.       (* a+   *)
Definition opt (a : regex) : regex := Rep true 0 (Some 1) a.    (* a?   *)
Definition times (n : nat) (a : regex) : regex := Rep true n (Some n) a.
Definition lazy_star (a : regex) : regex := Rep false 0 None a. (* a*?  *)

(** A position of the matcher: the character just before it, the text still
    to read, and the groups closed so far. *)
Record mstate := MState {
  m_prev : option codepoint;
  m_rest : str;
  m_groups : list (nat * str)
}.

Definition advance (x : codepoint) (t : str) (st : mstate) : mstate :=
  MState (Some x) t (m_groups st).

(** The text read between two positions of one match. *)
Definition taken (st st' : mstate) : str :=
  firstn (List.length (m_rest st) - List.length (m_rest st')) (m_rest st).

Definition set_group (n : nat) (w : str) (st : mstate) : mstate :=
  MState (m_prev st) (m_rest st) ((n, w) :: m_groups st).

Definition advanced (st st' : mstate) : bool :=
  (List.length (m_rest st') <? List.length (m_rest st))%nat.

(** [m.group(n)] *)
Fixpoint lookup (n : nat) (gs : list (nat * str)) : option str :=
  match gs with
  | [] => None
  | (i, w) :: r => if (i =? n)%nat then Some w else lookup n r
  end.

(** The extra characters [re.IGNORECASE] lets a lower-case letter match
    besides those lower-casing to it (dotless i, long s). *)
Definition casefix (c : codepoint) : list codepoint :=
  if (c =? 0x69)%N then [0x131%N]
  else if (c =? 0x73)%N then [0x17F%N]
  else [].

Section Matcher.
Context {U : UnicodeData}.

Fixpoint cset_mem (cs : cset) (x : codepoint) : bool :=
  match cs with
  | CDigit => isdecimal x
  | CSpace => isspace x
  | COne c => (x =? c)%N
  | CRange lo hi => between lo hi x
  | CUnion a b => cset_mem a x || cset_mem b x
  | CNot a => negb (cset_mem a x)
  end.

(** A word character: alphanumeric or the underscore. *)
Definition isword (c : codepoint) : bool := isalnum c || (c =? 0x5F)%N.

Definition at_boundary (st : mstate) : bool :=
  let before := match m_prev st with Some c => isword c | None => false end in
  let after := match m_rest st with c :: _ => isword c | [] => false end in
  xorb before after.

(** [ic] is the [re.IGNORECASE] flag.  It changes how a cased literal
    matches; the classes of the source's patterns hold no cased character
    and are left alone by it. *)
Variable ic : bool.

Definition chr_match (c x : codepoint) : bool :=
  if ic && iscased c
  then existsb (N.eqb (tolower x)) (tolower c :: casefix (tolower c))
  else (x =? c)%N.

Fixpoint rmatch (r : regex) (st : mstate) (k : mstate -> option mstate)
  {struct r} : option mstate :=
  match r with
  | Eps => k st
  | Chr c =>
    match m_rest st with
    | x :: t => if chr_match c x then k (advance x t st) else None
    | [] => None
    end
  | Cls cs =>
    match m_rest st with
    | x :: t => if cset_mem cs x then k (advance x t st) else None
    | [] => None
    end
  | Dot =>
    match m_rest st with
    | x :: t => if (x =? 10)%N then None else k (advance x t st)
    | [] => None
    end
  | WordB => if at_boundary st then k st else None
  | Seq a b => rmatch a st (fun st1 => rmatch b st1 k)
  | Alt a b =>
    match rmatch a st k with
    | Some m => Some m
    | None => rmatch b st k
    end
  | Grp n a => rmatch a st (fun st1 => k (set_group n (taken st st1) st1))
  | Rep greedy lo hi a =>
    (fix loop (fuel cnt : nat) (st0 : mstate) {struct fuel} : option mstate :=
       match fuel with
       | O => if (lo <=? cnt)%nat then k st0 else None
       | S fuel' =>
         if greedy then
           match rmatch a st0
                   (fun st1 => if advanced st0 st1
                               then loop fuel' (S cnt) st1 else None) with
           | Some m => Some m
           | None => if (lo <=? cnt)%nat then k st0 else None
           end
         else
           match (if (lo <=? cnt)%nat then k st0 else None) with
           | Some m => Some m
           | None =>
             rmatch a st0
               (fun st1 => if advanced st0 st1
                           then loop fuel' (S cnt) st1 else None)
           end
       end)
      (match hi with Some h => h | None => List.length (m_rest st) end) 0%nat st
  end.

(** [re.match]: a match starting at the position. *)
Definition match_here (r : regex) (prev : option codepoint) (s : str)
  : option mstate :=
  rmatch r (MState prev s []) (fun st => Some st).

(** [re.search]: the match at the leftmost position that has one. *)
Fixpoint search_from (r : regex) (prev : option codepoint) (s : str)
  : option mstate :=
  match match_here r prev s with
  | Some m => Some m
  | None =>
    match s with
    | [] => None
    | x :: t => search_from r (Some x) t
    end
  end.

Definition search (r : regex) (s : str) : option mstate :=
  search_from r None s.

Definition group (n : nat) (m : mstate) : str :=
  match lookup n (m_groups m) with Some w => w | None => [] end.

End Matcher.

(** [re.sub(r"\s+", " ", s)]: every maximal run of whitespace becomes one
    space.  [in_run] tells that the previous character was whitespace. *)
Fixpoint sub_spaces_from {U : UnicodeData} (in_run : bool) (s : str) : str :=
  match s with
  | [] => []
  | c :: t =>
    if isspace c
    then (if in_run then sub_spaces_from true t
          else 0x20%N :: sub_spaces_from true t)
    else c :: sub_spaces_from false t
  end.

Definition sub_spaces {U : UnicodeData} (s : str) : str :=
  sub_spaces_from false s.

End Re.

(** ** Exceptions

  A call that can raise returns a [result]; [try_except] is a [try] block
  with one [except] clause for the exceptions the handler accepts.  The
  raising calls of the source are [float] and [int] on a string,
  [strptime] and [date], which raise [ValueError]. *)

Module Exn.

Inductive exn := ValueError.

Inductive result (A : Type) :=
| Ok (a : A)
| Raise (e : exn).

Arguments Ok {A} a.
Arguments Raise {A} e.

Definition ret {A : Type} (a : A) : result A := Ok a.

Definition bind {A B : Type} (m : result A) (f : A -> result B) : result B :=
  match m with
  | Ok a => f a
  | Raise e => Raise e
  end.

(** [try: body  except ValueError: handler] *)
Definition try_except {A : Type} (body : result A) (handler : result A)
  : result A :=
  match body with
  | Ok a => Ok a
  | Raise ValueError => handler
  end.

(** [try: return body  except Exception: return None] *)
Definition or_none {A : Type} (body : result A) : option A :=
  match body with
  | Ok a => Some a
  | Raise _ => None
  end.

End Exn.

Import Exn.

Notation "x <- m ;; f" := (bind m (fun x => f))
  (at level 61, m at next level, right associativity).

Definition ch (a : ascii) : codepoint := N_of_ascii a.

(** ** Python's [float] and [int]

  [float(s)] on a string: CPython maps every decimal digit to its ASCII
  digit and every space to a blank, strips blanks, checks the underscores
  and reads a decimal literal, [inf], [infinity] or [nan], rounded to the
  nearest binary64 value. *)

Module PyNum.

Definition float := spec_float.

Definition prec : Z := 53.
Definition emax : Z := 1024.

Inductive literal :=
| Infinity
| NaN
| Decimal (int_part frac_part : list N) (exponent : Z).

(** The blanks of the C locale. *)
Definition c_isspace (c : N) : bool := between 9 13 c || (c =? 32)%N.

Fixpoint c_lstrip (s : list N) : list N :=
  match s with
  | [] => []
  | c :: t => if c_isspace c then c_lstrip t else s
  end.

Definition c_strip (s : list N) : list N :=
  rev (c_lstrip (rev (c_lstrip s))).

(** Underscores are allowed between two digits only; they are dropped. *)
Fixpoint drop_underscores (prev : N) (s : list N) : option (list N) :=
  match s with
  | [] => if (prev =? 95)%N then None else Some []
  | c :: t =>
    if (c =? 95)%N
    then (if ascii_digit prev then drop_underscores c t else None)
    else if (prev =? 95)%N && negb (ascii_digit c) then None
    else option_map (cons c) (drop_underscores c t)
  end.

(** The leading digits (as values) and what follows them. *)
Fixpoint span_digits (s : list N) : list N * list N :=
  match s with
  | [] => ([], [])
  | c :: t =>
    if ascii_digit c
    then let (ds, r) := span_digits t in ((c - 48)%N :: ds, r)
    else ([], s)
  end.

Definition take_sign (s : list N) : bool * list N :=
  match s with
  | c :: t =>
    if (c =? 45)%N then (true, t)
    else if (c =? 43)%N then (false, t)
    else (false, s)
  | [] => (false, [])
  end.

Definition digits_value (ds : list N) : N :=
  fold_left (fun a d => (10 * a + d)%N) ds 0%N.

(** What follows the mantissa: nothing, or [e], a sign and digits. *)
Definition parse_exponent (s : list N) : option Z :=
  match s with
  | [] => Some 0%Z
  | c :: t =>
    if (c =? 101)%N || (c =? 69)%N then
      let (neg, t') := take_sign t in
      let (ds, r) := span_digits t' in
      match ds, r with
      | _ :: _, [] =>
        let v := Z.of_N (digits_value ds) in
        Some (if neg then Z.opp v else v)
      | _, _ => None
      end
    else None
  end.

Definition parse_decimal (s : list N) : option literal :=
  let (ip, r1) := span_digits s in
  let (fp, r2) :=
    match r1 with
    | c :: t => if (c =? 46)%N then span_digits t else ([], r1)
    | [] => ([], r1)
    end in
  match ip ++ fp with
  | [] => None
  | _ :: _ =>
    match parse_exponent r2 with
    | Some e => Some (Decimal ip fp e)
    | None => None
    end
  end.

Definition parse_literal (s : list N) : option (bool * literal) :=
  let (neg, body) := take_sign s in
  match parse_decimal body with
  | Some l => Some (neg, l)
  | None =>
    let low := map ascii_tolower body in
    if Str.eqb low (lit "inf") || Str.eqb low (lit "infinity")
    then Some (neg, Infinity)
    else if Str.eqb low (lit "nan") then Some (neg, NaN)
    else None
  end.

(** The binary64 value nearest to [m * 10^e], ties to even. *)
Definition decimal_value (neg : bool) (m : N) (e : Z) : float :=
  match m with
  | N0 => S754_zero neg
  | Npos p =>
    match e with
    | Zneg k =>
      SFdiv prec emax (S754_finite neg p 0)
            (S754_finite false (Pos.pow 10 k) 0)
    | Z0 => binary_round prec emax neg p 0
    | Zpos k => binary_round prec emax neg (p * Pos.pow 10 k) 0
    end
  end.

Definition literal_value (neg : bool) (l : literal) : float :=
  match l with
  | Infinity => S754_infinity neg
  | NaN => S754_nan
  | Decimal ip fp e =>
    decimal_value neg (digits_value (ip ++ fp))
                  (e - Z.of_nat (List.length fp))
  end.

Section WithData.
Context {U : UnicodeData}.

(** Decimal digits and spaces to ASCII; the first character that is neither
    ends the text with a question mark. *)
Fixpoint to_ascii (s : str) : list N :=
  match s with
  | [] => []
  | c :: t =>
    if (c <? 127)%N then c :: to_ascii t
    else if isspace c then 32%N :: to_ascii t
    else match decimal c with
         | Some v => (48 + v)%N :: to_ascii t
         | None => [63%N]
         end
  end.

Definition py_float (s : str) : result float :=
  match drop_underscores 0 (c_strip (to_ascii s)) with
  | Some a =>
    match parse_literal a with
    | Some (neg, l) => Ok (literal_value neg l)
    | None => Raise ValueError
    end
  | None => Raise ValueError
  end.

(** [int(s)] in base ten, through the same transformation. *)
Definition py_int (s : str) : result Z :=
  let (neg, body) := take_sign (c_strip (to_ascii s)) in
  match drop_underscores 0 body with
  | Some b =>
    let (ds, r) := span_digits b in
    match ds, r with
    | _ :: _, [] =>
      let v := Z.of_N (digits_value ds) in
      Ok (if neg then Z.opp v else v)
    | _, _ => Raise ValueError
    end
  | None => Raise ValueError
  end.

End WithData.

(** Arithmetic and comparisons of the source. *)
Definition sub (x y : float) : float := SFsub prec emax x y.
Definition abs (x : float) : float := SFabs x.
Definition ltb (x y : float) : bool := SFltb x y.
Definition leb (x y : float) : bool := SFleb x y.

(** The float literals of the source. *)
Definition f_0_01 : float := decimal_value false 1 (-2).
Definition f_42_0 : float := decimal_value false 420 (-1).
Definition f_43_0 : float := decimal_value false 430 (-1).

End PyNum.

(** ** Python's [datetime]: dates and [strptime] with ["%d/%m/%Y"] *)

Module PyDate.

Record date := Date { year : Z; month : Z; day : Z }.

Definition is_leap (y : Z) : bool :=
  ((y mod 4 =? 0) && (negb (y mod 100 =? 0) || (y mod 400 =? 0)))%Z.

Definition days_in_month (y m : Z) : Z :=
  if (m =? 2)%Z then (if is_leap y then 29 else 28)%Z
  else if ((m =? 4) || (m =? 6) || (m =? 9) || (m =? 11))%Z then 30%Z
  else 31%Z.

(** [date(year, month, day)] *)
Definition make_date (y m d : Z) : result date :=
  if ((1 <=? y) && (y <=? 9999) && (1 <=? m) && (m <=? 12)
      && (1 <=? d) && (d <=? days_in_month y m))%Z
  then Ok (Date y m d)
  else Raise ValueError.

Definition eqb (a b : date) : bool :=
  ((year a =? year b) && (month a =? month b) && (day a =? day b))%Z.

(** [a <= b] *)
Definition leb (a b : date) : bool :=
  ((year a <? year b)
   || ((year a =? year b)
       && ((month a <? month b)
           || ((month a =? month b) && (day a <=? day b)))))%Z.

Import Re.

(** The pattern [strptime] builds for ["%d/%m/%Y"]:
    [(?P<d>3[0-1]|[1-2]\d|0[1-9]|[1-9]| [1-9])/(?P<m>1[0-2]|0[1-9]|[1-9])/(?P<Y>\d\d\d\d)],
    with the groups numbered 1, 2 and 3. *)
Definition re_day : regex :=
  Grp 1 (Alt (cat [Chr (ch "3"); Cls (CRange (ch "0") (ch "1"))])
        (Alt (cat [Cls (CRange (ch "1") (ch "2")); Cls CDigit])
        (Alt (cat [Chr (ch "0"); Cls (CRange (ch "1") (ch "9"))])
        (Alt (Cls (CRange (ch "1") (ch "9")))
             (cat [Chr (ch " "); Cls (CRange (ch "1") (ch "9"))]))))).

Definition re_month : regex :=
  Grp 2 (Alt (cat [Chr (ch "1"); Cls (CRange (ch "0") (ch "2"))])
        (Alt (cat [Chr (ch "0"); Cls (CRange (ch "1") (ch "9"))])
             (Cls (CRange (ch "1") (ch "9"))))).

Definition re_year : regex :=
  Grp 3 (cat [Cls CDigit; Cls CDigit; Cls CDigit; Cls CDigit]).

Definition re_dmy : regex :=
  cat [re_day; Chr (ch "/"); re_month; Chr (ch "/"); re_year].

(** Decimal digits of a number, for [strftime]. *)
Fixpoint uint_digits (u : Decimal.uint) : str :=
  match u with
  | Decimal.Nil => []
  | Decimal.D0 r => 48%N :: uint_digits r
  | Decimal.D1 r => 49%N :: uint_digits r
  | Decimal.D2 r => 50%N :: uint_digits r
  | Decimal.D3 r => 51%N :: uint_digits r
  | Decimal.D4 r => 52%N :: uint_digits r
  | Decimal.D5 r => 53%N :: uint_digits r
  | Decimal.D6 r => 54%N :: uint_digits r
  | Decimal.D7 r => 55%N :: uint_digits r
  | Decimal.D8 r => 56%N :: uint_digits r
  | Decimal.D9 r => 57%N :: uint_digits r
  end.

Definition digits (z : Z) : str := uint_digits (N.to_uint (Z.to_N z)).

Definition two_digits (z : Z) : str :=
  if (z <? 10)%Z then 48%N :: digits z else digits z.

(** [d.strftime("%d/%m/%Y")], the year written as the C library of Linux
    writes it, without padding. *)
Definition strftime_dmy (d : date) : str :=
  two_digits (day d) ++ [ch "/"] ++ two_digits (month d) ++ [ch "/"]
  ++ digits (year d).

Section WithData.
Context {U : UnicodeData}.

(** [datetime.strptime(s, "%d/%m/%Y").date()]: the pattern must match at
    the start and leave nothing unread; the three fields go through [int]
    and the date must exist. *)
Definition strptime_dmy (s : str) : result date :=
  match match_here true re_dmy None s with
  | Some found =>
    match m_rest found with
    | [] =>
      y <- PyNum.py_int (group 3 found) ;;
      m <- PyNum.py_int (group 2 found) ;;
      d <- PyNum.py_int (group 1 found) ;;
      make_date y m d
    | _ :: _ => Raise ValueError
    end
  | None => Raise ValueError
  end.

End WithData.

End PyDate.

(** ** [src/models.py]: the case file *)

Record Dossier := {
  ien : str;
  delegataire : str;
  client_nom : str;
  (** [fields: Dict[str, str]] *)
  fields : list (str * str);
  pdf_files : list str
}.

(** [d.get(k)] *)
Fixpoint dict_get (k : str) (d : list (str * str)) : option str :=
  match d with
  | [] => None
  | (k', v) :: r => if Str.eqb k' k then Some v else dict_get k r
  end.

(** ** [src/homelior_rules.py] *)

Import Re PyNum PyDate.

(** *** The findings

  Every [problems.append(...)] of [analyze_homelior] appends one message;
  a [problem] names the message and carries the values formatted into it,
  and [message] gives its text. *)

Inductive problem :=
| DevisEnTete
| DevisTypeEclairage
| DevisPrixHorsPlage (price_str : str)
| DevisPrixIllisible
| DevisPrixAbsent
| DevisDateHorsFenetre (date_devis : date)
| DevisDateIndeterminee
| DevisResteAPayer
| DevisAbsent
| CadrePhraseAbsente
| CadreMontantDifferent (cadre_amount prime_str : str)
| CadreMontantIllisible
| CadreMontantInexploitable
| CadrePrimeIllisible (prime_str : str)
| CadreDateDifferente
| CadreDateAbsente
| CadreAbsent
| FactureResteAPayer
| FactureAbsente
| BlDateDifferente (date_bl date_facture : date)
| BlAbsent
| AhMentionIllisible
| AhAbsente
| AftDateFacture (le : str) (date_facture : date)
| AftDateBl (le : str) (date_bl : date)
| AftDateAbsente
| AftAbsente.

Definition message (p : problem) : str :=
  match p with
  | DevisEnTete =>
    lit "DEVIS : l'en-tête de type « DEVIS 2024-xxxxx » n'est pas retrouvé clairement."
  | DevisTypeEclairage =>
    lit "DEVIS : le type d'éclairage « Éclairage ambiance ou privé » "
    ++ lit "n'est pas retrouvé clairement dans les documents (devis / facture / AH)."
  | DevisPrixHorsPlage price_str =>
    lit "DEVIS : P.U TTC attendu ≈ 42,315 € pour 'mise en place de luminaires neufs', "
    ++ lit "trouvé " ++ price_str ++ lit "."
  | DevisPrixIllisible =>
    lit "DEVIS : impossible d'interpréter le P.U TTC pour 'mise en place de luminaires neufs'."
  | DevisPrixAbsent =>
    lit "DEVIS : aucun P.U TTC clair trouvé pour 'mise en place de luminaires neufs'."
  | DevisDateHorsFenetre date_devis =>
    lit "DEVIS : la date de devis " ++ strftime_dmy date_devis ++ lit " "
    ++ lit "n'est pas comprise entre le 01/01/2024 et le 28/02/2024."
  | DevisDateIndeterminee =>
    lit "DEVIS : impossible de déterminer clairement la date du devis "
    ++ lit "(attendue entre le 01/01/2024 et le 28/02/2024)."
  | DevisResteAPayer =>
    lit "DEVIS : la mention « Reste à payer 0,00 € » n'est pas retrouvée clairement."
  | DevisAbsent =>
    lit "DEVIS : aucun document dont le nom contient 'DEVIS' n'a été trouvé."
  | CadrePhraseAbsente =>
    lit "CADRE : la phrase « une prime d’un montant de ... euros » n'est pas retrouvée clairement."
  | CadreMontantDifferent cadre_amount prime_str =>
    lit "CADRE : le montant de prime (" ++ cadre_amount ++ lit ") "
    ++ lit "ne correspond pas à la prime CEE saisie (" ++ prime_str ++ lit ")."
  | CadreMontantIllisible =>
    lit "CADRE : impossible d'interpréter le montant de prime dans le cadre."
  | CadreMontantInexploitable =>
    lit "CADRE : la phrase avec le montant de prime n'est pas clairement exploitable."
  | CadrePrimeIllisible prime_str =>
    lit "CADRE : la prime CEE saisie « " ++ prime_str
    ++ lit " » n'est pas interprétable en montant numérique."
  | CadreDateDifferente =>
    lit "CADRE : la « Date de cette proposition » ne correspond pas à la date de devis."
  | CadreDateAbsente =>
    lit "CADRE : la mention « Date de cette proposition » n'a pas été retrouvée clairement."
  | CadreAbsent =>
    lit "CADRE : aucun document dont le nom contient 'CADRE' n'a été trouvé."
  | FactureResteAPayer =>
    lit "FACTURE : la mention « Reste à payer 0,00 € » n'est pas retrouvée clairement."
  | FactureAbsente =>
    lit "FACTURE : aucun document dont le nom contient 'FACTURE' n'a été trouvé."
  | BlDateDifferente date_bl date_facture =>
    lit "BON DE LIVRAISON : la date du BL (" ++ strftime_dmy date_bl ++ lit ") "
    ++ lit "est différente de la date de facture (" ++ strftime_dmy date_facture
    ++ lit ")."
  | BlAbsent =>
    lit "BON DE LIVRAISON : aucun document dont le nom contient 'BON DE LIVRAISON' n'a été trouvé."
  | AhMentionIllisible =>
    lit "AH : document présent mais la mention « attestation sur l'honneur » "
    ++ lit "n'est pas clairement lisible (OCR) – à vérifier manuellement."
  | AhAbsente =>
    lit "AH : aucune attestation sur l'honneur (AH) détectée dans les PDF (à vérifier manuellement)."
  | AftDateFacture le date_facture =>
    lit "AFT : la date « Le " ++ le ++ lit " » est différente "
    ++ lit "de la date de facture (" ++ strftime_dmy date_facture ++ lit ")."
  | AftDateBl le date_bl =>
    lit "AFT : la date « Le " ++ le ++ lit " » est différente "
    ++ lit "de la date du bon de livraison (" ++ strftime_dmy date_bl ++ lit ")."
  | AftDateAbsente =>
    lit "AFT : aucune date de type « Le : jj/mm/aaaa » n'a été trouvée clairement "
    ++ lit "en bas de l'attestation de fin de travaux."
  | AftAbsente =>
    lit "AFT : aucune attestation de fin de travaux (AFT) détectée dans les PDF (à vérifier manuellement)."
  end.

(** The returned dictionary [{"status": ..., "problems": ...}]. *)
Record verdict := Verdict {
  status : str;
  problems : list str
}.

(** *** The patterns of the source *)

Definition digit : regex := Cls CDigit.
Definition space : regex := Cls CSpace.

(** [\d{2}/\d{2}/\d{4}] *)
Definition re_date : regex :=
  cat [times 2 digit; Chr (ch "/"); times 2 digit; Chr (ch "/"); times 4 digit].

(** [\s*[:\-]?\s*] *)
Definition re_sep : regex :=
  cat [star space; opt (Cls (CUnion (COne (ch ":")) (COne (ch "-"))));
       star space].

(** [\d[\d\s]*[.,]\d{2}] *)
Definition re_amount : regex :=
  cat [digit; star (Cls (CUnion CDigit CSpace));
       Cls (CUnion (COne (ch ".")) (COne (ch ","))); times 2 digit].

(** [\b(\d{2}/\d{2}/\d{4})\b] *)
Definition re_date_any : regex := cat [WordB; Grp 1 re_date; WordB].

(** [date de cette proposition\s*[:\-]?\s*(\d{2}/\d{2}/\d{4})] *)
Definition re_date_proposition : regex :=
  cat [text "date de cette proposition"; re_sep; Grp 1 re_date].

(** [devis[^0-9]{0,30}(\d{2}/\d{2}/\d{4})] *)
Definition re_devis_du : regex :=
  cat [text "devis";
       Rep true 0 (Some 30) (Cls (CNot (CRange (ch "0") (ch "9"))));
       Grp 1 re_date].

(** [date de facture\s*[:\-]?\s*(\d{2}/\d{2}/\d{4})] *)
Definition re_date_facture : regex :=
  cat [text "date de facture"; re_sep; Grp 1 re_date].

(** [devis\s+2024[- ]?\d{4,}] *)
Definition re_entete_devis : regex :=
  cat [text "devis"; plus space; text "2024";
       opt (Cls (CUnion (COne (ch "-")) (COne (ch " "))));
       Rep true 4 None digit].

(** [mise en place de luminaires neufs.*?(\d[\d\s]*[.,]\d{2})] *)
Definition re_prix : regex :=
  cat [text "mise en place de luminaires neufs"; lazy_star Dot;
       Grp 1 re_amount].

(** [reste a payer\s*0\.0{2}] *)
Definition re_reste_a_payer : regex :=
  cat [text "reste a payer"; star space; Chr (ch "0"); Chr (ch ".");
       times 2 (Chr (ch "0"))].

(** [une prime d un montant de\s+(\d[\d\s]*[.,]\d{2})] *)
Definition re_prime : regex :=
  cat [text "une prime d un montant de"; plus space; Grp 1 re_amount].

(** [\ble\s*[:\-]?\s*(\d{2}/\d{2}/\d{4})] *)
Definition re_le : regex :=
  cat [WordB; text "le"; re_sep; Grp 1 re_date].

Definition nbsp : codepoint := 0xA0%N.

Section Homelior.
Context {U : UnicodeData}.

(** *** Generic helpers *)

Definition _normalize (s : str) : str :=
  if negb (truthy s) then []
  else
    let s := nfkd s in
    let s := filter (fun c => (combining c =? 0)%N) s in
    let s := lower s in
    let s := replace nbsp [ch " "] s in
    let s := sub_spaces s in
    strip s.

Definition _parse_date (s : str) : option date :=
  or_none (strptime_dmy s).

Definition _find_date_any (text : str) : option str :=
  match search false re_date_any text with
  | Some m => Some (group 1 m)
  | None => None
  end.

(** A classified document: file name, raw text, normalised text. *)
Definition document := (str * str * str)%type.

Definition doc_norm (d : document) : str := snd d.

(** [pdf_texts] in the order of the dictionary. *)
Fixpoint _find_doc_by_name (pdf_texts : list (str * str))
  (keywords : list str) : option document :=
  match pdf_texts with
  | [] => None
  | (name, content) :: rest =>
    let name_norm := lower name in
    if forallb (fun k => contains k name_norm) keywords
    then Some (name, content, _normalize content)
    else _find_doc_by_name rest keywords
  end.

(** [a or b] on two look-ups. *)
Definition or_else (a b : option document) : option document :=
  match a with
  | Some d => Some d
  | None => b
  end.

(** *** The main documents (lines 88 to 97) *)

Record documents := Documents {
  devis : option document;
  cadre : option document;
  facture : option document;
  bl : option document;
  ah : option document;
  aft : option document
}.

Definition main_documents (pdf_texts : list (str * str)) : documents :=
  {| devis := _find_doc_by_name pdf_texts [lit "devis"];
     cadre := _find_doc_by_name pdf_texts [lit "cadre"];
     facture := _find_doc_by_name pdf_texts [lit "facture"];
     bl := _find_doc_by_name pdf_texts [lit "bon"; lit "livraison"];
     ah := or_else (_find_doc_by_name pdf_texts [lit "ah"])
             (_find_doc_by_name pdf_texts [lit "attestation"; lit "honneur"]);
     aft := or_else (_find_doc_by_name pdf_texts [lit "aft"])
              (_find_doc_by_name pdf_texts [lit "fin"; lit "travaux"]) |}.

(** *** 1) Reference dates (lines 102 to 173) *)

Record dates := Dates {
  date_devis : option date;
  date_facture : option date;
  date_bl : option date
}.

(** The date a labelled pattern captures, when it matches and parses. *)
Definition captured_date (r : regex) (norm : str) : option date :=
  match search true r norm with
  | Some m => _parse_date (group 1 m)
  | None => None
  end.

(** The first [dd/mm/yyyy] of a text, when it parses. *)
Definition first_date (norm : str) : option date :=
  match _find_date_any norm with
  | Some s => _parse_date s
  | None => None
  end.

(** 1.a *)
Definition date_devis_cadre (cadre : option document) : option date :=
  match cadre with
  | Some d => captured_date re_date_proposition (doc_norm d)
  | None => None
  end.

(** 1.b, the quote date mentioned on the invoice: kept only when 1.a found
    none. *)
Definition date_devis_facture (facture : option document)
  (date_devis : option date) : option date :=
  match facture with
  | Some d =>
    match captured_date re_devis_du (doc_norm d), date_devis with
    | Some d2, None => Some d2
    | _, _ => date_devis
    end
  | None => date_devis
  end.

(** 1.b, the invoice date. *)
Definition date_facture_of (facture : option document) : option date :=
  match facture with
  | Some d =>
    match search true re_date_facture (doc_norm d) with
    | Some m_fact => _parse_date (group 1 m_fact)
    | None => first_date (doc_norm d)
    end
  | None => None
  end.

Definition candidats_devis_dates (cadre facture : option document)
  : list str :=
  match cadre with Some d => [doc_norm d] | None => [] end
  ++ match facture with Some d => [doc_norm d] | None => [] end.

(** 1.c: the loop over the candidate texts, left at the first date that
    parses. *)
Fixpoint first_candidate_date (candidats : list str) : option date :=
  match candidats with
  | [] => None
  | txt :: rest =>
    match first_date txt with
    | Some d => Some d
    | None => first_candidate_date rest
    end
  end.

Definition reference_dates (docs : documents) : dates :=
  let date_devis := date_devis_cadre (cadre docs) in
  let date_devis := date_devis_facture (facture docs) date_devis in
  let date_facture := date_facture_of (facture docs) in
  let date_devis :=
    match date_devis with
    | Some d => Some d
    | None =>
      first_candidate_date (candidats_devis_dates (cadre docs) (facture docs))
    end in
  let date_bl :=
    match bl docs with
    | Some d => first_date (doc_norm d)
    | None => None
    end in
  Dates date_devis date_facture date_bl.

(** *** 2) The quote (lines 178 to 264) *)

Definition found (m : option mstate) : bool :=
  match m with Some _ => true | None => false end.

Definition has_eclairage_ambiance_global (devis_norm : str)
  (facture ah : option document) : bool :=
  let targets :=
    [devis_norm]
    ++ match facture with Some d => [doc_norm d] | None => [] end
    ++ match ah with Some d => [doc_norm d] | None => [] end in
  existsb
    (fun txt =>
       (contains (lit "type d eclairage") txt
        || contains (lit "type d'eclairage") txt)
       && contains (lit "eclairage ambiance") txt
       && contains (lit "prive") txt)
    targets.

(** 2.c *)
Definition check_prix (devis_norm : str) : result (list problem) :=
  if contains (lit "mise en place de luminaires neufs") devis_norm then
    match search false re_prix devis_norm with
    | Some m_price =>
      let price_str := group 1 m_price in
      let price_norm :=
        replace (ch ",") [ch "."] (replace (ch " ") [] price_str) in
      try_except
        (price_val <- py_float price_norm ;;
         ret (if negb (PyNum.leb f_42_0 price_val
                       && PyNum.leb price_val f_43_0)
              then [DevisPrixHorsPlage price_str] else []))
        (ret [DevisPrixIllisible])
    | None => ret [DevisPrixAbsent]
    end
  else ret [].

(** 2.d *)
Definition check_date_devis (date_devis : option date) : list problem :=
  match date_devis with
  | Some d =>
    let debut := Date 2024 1 1 in
    let fin := Date 2024 2 28 in
    if negb (PyDate.leb debut d && PyDate.leb d fin)
    then [DevisDateHorsFenetre d] else []
  | None => [DevisDateIndeterminee]
  end.

(** 2.e and 4.b: the balance line, read after commas became dots. *)
Definition has_reste_a_payer (norm : str) : bool :=
  let norm_sp := replace nbsp [ch " "] norm in
  let norm_sp := replace (ch ",") [ch "."] norm_sp in
  let norm_sp := sub_spaces norm_sp in
  found (search false re_reste_a_payer norm_sp).

Definition rule_devis (docs : documents) (ds : dates)
  : result (list problem) :=
  match devis docs with
  | Some d =>
    let devis_norm := doc_norm d in
    let p_a :=
      if negb (found (search false re_entete_devis devis_norm))
      then [DevisEnTete] else [] in
    let p_b :=
      if negb (has_eclairage_ambiance_global devis_norm (facture docs)
                 (ah docs))
      then [DevisTypeEclairage] else [] in
    p_c <- check_prix devis_norm ;;
    let p_d := check_date_devis (date_devis ds) in
    let p_e :=
      if negb (has_reste_a_payer devis_norm) then [DevisResteAPayer]
      else [] in
    ret (p_a ++ p_b ++ p_c ++ p_d ++ p_e)
  | None => ret [DevisAbsent]
  end.

(** *** 3) The contribution frame (lines 269 to 335) *)

(** 3.a, once the phrase is there. *)
Definition check_prime (dossier : Dossier) (cadre_norm : str)
  : result (list problem) :=
  let prime_str :=
    strip (match dict_get (lit "Prime CEE") (fields dossier) with
           | Some v => v
           | None => []
           end) in
  if truthy prime_str then
    let prime_norm := replace nbsp [] (replace (ch " ") [] prime_str) in
    let prime_norm := replace (ch ",") [ch "."] prime_norm in
    try_except
      (prime_val <- py_float prime_norm ;;
       match search false re_prime cadre_norm with
       | Some m_prime =>
         let cadre_amount := group 1 m_prime in
         let cadre_amount_norm :=
           replace (ch ",") [ch "."]
             (replace nbsp [] (replace (ch " ") [] cadre_amount)) in
         try_except
           (cadre_val <- py_float cadre_amount_norm ;;
            ret (if PyNum.ltb f_0_01 (PyNum.abs (PyNum.sub cadre_val prime_val))
                 then [CadreMontantDifferent cadre_amount prime_str]
                 else []))
           (ret [CadreMontantIllisible])
       | None => ret [CadreMontantInexploitable]
       end)
      (ret [CadrePrimeIllisible prime_str])
  else ret [].

(** 3.b *)
Definition check_date_proposition (cadre_norm : str)
  (date_devis : option date) : list problem :=
  match search true re_date_proposition cadre_norm, date_devis with
  | Some m_prop, Some dd =>
    match _parse_date (group 1 m_prop) with
    | Some d_prop =>
      if negb (PyDate.eqb d_prop dd) then [CadreDateDifferente] else []
    | None => []
    end
  | Some _, None => []
  | None, _ => [CadreDateAbsente]
  end.

Definition rule_cadre (dossier : Dossier) (docs : documents) (ds : dates)
  : result (list problem) :=
  match cadre docs with
  | Some d =>
    let cadre_norm := doc_norm d in
    p_a <- (if negb (contains (lit "une prime d un montant de") cadre_norm)
            then ret [CadrePhraseAbsente]
            else check_prime dossier cadre_norm) ;;
    ret (p_a ++ check_date_proposition cadre_norm (date_devis ds))
  | None => ret [CadreAbsent]
  end.

(** *** 4) The invoice (lines 340 to 362) *)

Definition rule_facture (docs : documents) : list problem :=
  match facture docs with
  | Some d =>
    if negb (has_reste_a_payer (doc_norm d)) then [FactureResteAPayer]
    else []
  | None => [FactureAbsente]
  end.

(** *** 5) The delivery note (lines 367 to 377) *)

Definition rule_bl (docs : documents) (ds : dates) : list problem :=
  match bl docs with
  | Some _ =>
    match date_facture ds, date_bl ds with
    | Some df, Some db =>
      if negb (PyDate.eqb df db) then [BlDateDifferente db df] else []
    | _, _ => []
    end
  | None => [BlAbsent]
  end.

(** *** 6) The honour statement (lines 382 to 395) *)

Definition rule_ah (docs : documents) : list problem :=
  match ah docs with
  | Some d =>
    if negb (contains (lit "attestation sur l honneur") (doc_norm d))
       && negb (contains (lit "attestation sur l'honneur") (doc_norm d))
    then [AhMentionIllisible] else []
  | None => [AhAbsente]
  end.

(** *** 7) The completion certificate (lines 400 to 425) *)

Definition rule_aft (docs : documents) (ds : dates) : list problem :=
  match aft docs with
  | Some d =>
    match search false re_le (doc_norm d) with
    | Some m_aft =>
      match _parse_date (group 1 m_aft) with
      | Some d_aft =>
        match date_facture ds with
        | Some df =>
          if negb (PyDate.eqb d_aft df)
          then [AftDateFacture (group 1 m_aft) df] else []
        | None => []
        end
        ++ match date_bl ds with
           | Some db =>
             if negb (PyDate.eqb d_aft db)
             then [AftDateBl (group 1 m_aft) db] else []
           | None => []
           end
      | None => []
      end
    | None => [AftDateAbsente]
    end
  | None => [AftAbsente]
  end.

(** *** 8) The whole analysis *)

(** The findings in the order the source appends them. *)
Definition findings (dossier : Dossier) (pdf_texts : list (str * str))
  : result (list problem) :=
  let docs := main_documents pdf_texts in
  let ds := reference_dates docs in
  p2 <- rule_devis docs ds ;;
  p3 <- rule_cadre dossier docs ds ;;
  ret (p2 ++ p3 ++ rule_facture docs ++ rule_bl docs ds ++ rule_ah docs
       ++ rule_aft docs ds).

Definition analyze_homelior (dossier : Dossier)
  (pdf_texts : list (str * str)) : result verdict :=
  ps <- findings dossier pdf_texts ;;
  let problems := map message ps in
  let status :=
    if negb (match problems with [] => false | _ :: _ => true end)
    then lit "conforme" else lit "non_conforme" in
  ret (Verdict status problems).

End Homelior.

(** ** A Unicode database

  The entries of the Unicode Character Database (version 14.0) for Latin-1,
  the usual combining accents, the spaces, two further sets of decimal
  digits and a few letters and ligatures.  A code point without an entry
  has the properties of an unassigned one: no decomposition, class 0, no
  case, neither space, digit nor letter. *)

Module Latin.

Record entry := Entry {
  e_decomposition : str;
  e_combining : N;
  e_lower : str;
  e_tolower : codepoint;
  e_isspace : bool;
  e_decimal : option N;
  e_isalnum : bool;
  e_iscased : bool;
  e_iscaseignorable : bool
}.

Definition table : list (codepoint * entry) := [
  (0x85, Entry [0x85] 0 [0x85] 0x85 true None false false false);
  (0xA0, Entry [0x20] 0 [0xA0] 0xA0 true None false false false);
  (0xA8, Entry [0x20; 0x308] 0 [0xA8] 0xA8 false None false false true);
  (0xAA, Entry [0x61] 0 [0xAA] 0xAA false None true true false);
  (0xAD, Entry [0xAD] 0 [0xAD] 0xAD false None false false true);
  (0xAF, Entry [0x20; 0x304] 0 [0xAF] 0xAF false None false false true);
  (0xB2, Entry [0x32] 0 [0xB2] 0xB2 false None true false false);
  (0xB3, Entry [0x33] 0 [0xB3] 0xB3 false None true false false);
  (0xB4, Entry [0x20; 0x301] 0 [0xB4] 0xB4 false None false false true);
  (0xB5, Entry [0x3BC] 0 [0xB5] 0xB5 false None true true false);
  (0xB7, Entry [0xB7] 0 [0xB7] 0xB7 false None false false true);
  (0xB8, Entry [0x20; 0x327] 0 [0xB8] 0xB8 false None false false true);
  (0xB9, Entry [0x31] 0 [0xB9] 0xB9 false None true false false);
  (0xBA, Entry [0x6F] 0 [0xBA] 0xBA false None true true false);
  (0xBC, Entry [0x31; 0x2044; 0x34] 0 [0xBC] 0xBC false None true false false);
  (0xBD, Entry [0x31; 0x2044; 0x32] 0 [0xBD] 0xBD false None true false false);
  (0xBE, Entry [0x33; 0x2044; 0x34] 0 [0xBE] 0xBE false None true false false);
  (0xC0, Entry [0x41; 0x300] 0 [0xE0] 0xE0 false None true true false);
  (0xC1, Entry [0x41; 0x301] 0 [0xE1] 0xE1 false None true true false);
  (0xC2, Entry [0x41; 0x302] 0 [0xE2] 0xE2 false None true true false);
  (0xC3, Entry [0x41; 0x303] 0 [0xE3] 0xE3 false None true true false);
  (0xC4, Entry [0x41; 0x308] 0 [0xE4] 0xE4 false None true true false);
  (0xC5, Entry [0x41; 0x30A] 0 [0xE5] 0xE5 false None true true false);
  (0xC6, Entry [0xC6] 0 [0xE6] 0xE6 false None true true false);
  (0xC7, Entry [0x43; 0x327] 0 [0xE7] 0xE7 false None true true false);
  (0xC8, Entry [0x45; 0x300] 0 [0xE8] 0xE8 false None true true false);
  (0xC9, Entry [0x45; 0x301] 0 [0xE9] 0xE9 false None true true false);
  (0xCA, Entry [0x45; 0x302] 0 [0xEA] 0xEA false None true true false);
  (0xCB, Entry [0x45; 0x308] 0 [0xEB] 0xEB false None true true false);
  (0xCC, Entry [0x49; 0x300] 0 [0xEC] 0xEC false None true true false);
  (0xCD, Entry [0x49; 0x301] 0 [0xED] 0xED false None true true false);
  (0xCE, Entry [0x49; 0x302] 0 [0xEE] 0xEE false None true true false);
  (0xCF, Entry [0x49; 0x308] 0 [0xEF] 0xEF false None true true false);
  (0xD0, Entry [0xD0] 0 [0xF0] 0xF0 false None true true false);
  (0xD1, Entry [0x4E; 0x303] 0 [0xF1] 0xF1 false None true true false);
  (0xD2, Entry [0x4F; 0x300] 0 [0xF2] 0xF2 false None true true false);
  (0xD3, Entry [0x4F; 0x301] 0 [0xF3] 0xF3 false None true true false);
  (0xD4, Entry [0x4F; 0x302] 0 [0xF4] 0xF4 false None true true false);
  (0xD5, Entry [0x4F; 0x303] 0 [0xF5] 0xF5 false None true true false);
  (0xD6, Entry [0x4F; 0x308] 0 [0xF6] 0xF6 false None true true false);
  (0xD8, Entry [0xD8] 0 [0xF8] 0xF8 false None true true false);
  (0xD9, Entry [0x55; 0x300] 0 [0xF9] 0xF9 false None true true false);
  (0xDA, Entry [0x55; 0x301] 0 [0xFA] 0xFA false None true true false);
  (0xDB, Entry [0x55; 0x302] 0 [0xFB] 0xFB false None true true false);
  (0xDC, Entry [0x55; 0x308] 0 [0xFC] 0xFC false None true true false);
  (0xDD, Entry [0x59; 0x301] 0 [0xFD] 0xFD false None true true false);
  (0xDE, Entry [0xDE] 0 [0xFE] 0xFE false None true true false);
  (0xDF, Entry [0xDF] 0 [0xDF] 0xDF false None true true false);
  (0xE0, Entry [0x61; 0x300] 0 [0xE0] 0xE0 false None true true false);
  (0xE1, Entry [0x61; 0x301] 0 [0xE1] 0xE1 false None true true false);
  (0xE2, Entry [0x61; 0x302] 0 [0xE2] 0xE2 false None true true false);
  (0xE3, Entry [0x61; 0x303] 0 [0xE3] 0xE3 false None true true false);
  (0xE4, Entry [0x61; 0x308] 0 [0xE4] 0xE4 false None true true false);
  (0xE5, Entry [0x61; 0x30A] 0 [0xE5] 0xE5 false None true true false);
  (0xE6, Entry [0xE6] 0 [0xE6] 0xE6 false None true true false);
  (0xE7, Entry [0x63; 0x327] 0 [0xE7] 0xE7 false None true true false);
  (0xE8, Entry [0x65; 0x300] 0 [0xE8] 0xE8 false None true true false);
  (0xE9, Entry [0x65; 0x301] 0 [0xE9] 0xE9 false None true true false);
  (0xEA, Entry [0x65; 0x302] 0 [0xEA] 0xEA false None true true false);
  (0xEB, Entry [0x65; 0x308] 0 [0xEB] 0xEB false None true true false);
  (0xEC, Entry [0x69; 0x300] 0 [0xEC] 0xEC false None true true false);
  (0xED, Entry [0x69; 0x301] 0 [0xED] 0xED false None true true false);
  (0xEE, Entry [0x69; 0x302] 0 [0xEE] 0xEE false None true true false);
  (0xEF, Entry [0x69; 0x308] 0 [0xEF] 0xEF false None true true false);
  (0xF0, Entry [0xF0] 0 [0xF0] 0xF0 false None true true false);
  (0xF1, Entry [0x6E; 0x303] 0 [0xF1] 0xF1 false None true true false);
  (0xF2, Entry [0x6F; 0x300] 0 [0xF2] 0xF2 false None true true false);
  (0xF3, Entry [0x6F; 0x301] 0 [0xF3] 0xF3 false None true true false);
  (0xF4, Entry [0x6F; 0x302] 0 [0xF4] 0xF4 false None true true false);
  (0xF5, Entry [0x6F; 0x303] 0 [0xF5] 0xF5 false None true true false);
  (0xF6, Entry [0x6F; 0x308] 0 [0xF6] 0xF6 false None true true false);
  (0xF8, Entry [0xF8] 0 [0xF8] 0xF8 false None true true false);
  (0xF9, Entry [0x75; 0x300] 0 [0xF9] 0xF9 false None true true false);
  (0xFA, Entry [0x75; 0x301] 0 [0xFA] 0xFA false None true true false);
  (0xFB, Entry [0x75; 0x302] 0 [0xFB] 0xFB false None true true false);
  (0xFC, Entry [0x75; 0x308] 0 [0xFC] 0xFC false None true true false);
  (0xFD, Entry [0x79; 0x301] 0 [0xFD] 0xFD false None true true false);
  (0xFE, Entry [0xFE] 0 [0xFE] 0xFE false None true true false);
  (0xFF, Entry [0x79; 0x308] 0 [0xFF] 0xFF false None true true false);
  (0x130, Entry [0x49; 0x307] 0 [0x69; 0x307] 0x69 false None true true false);
  (0x131, Entry [0x131] 0 [0x131] 0x131 false None true true false);
  (0x152, Entry [0x152] 0 [0x153] 0x153 false None true true false);
  (0x153, Entry [0x153] 0 [0x153] 0x153 false None true true false);
  (0x178, Entry [0x59; 0x308] 0 [0xFF] 0xFF false None true true false);
  (0x17F, Entry [0x73] 0 [0x17F] 0x17F false None true true false);
  (0x300, Entry [0x300] 230 [0x300] 0x300 false None false false true);
  (0x301, Entry [0x301] 230 [0x301] 0x301 false None false false true);
  (0x302, Entry [0x302] 230 [0x302] 0x302 false None false false true);
  (0x303, Entry [0x303] 230 [0x303] 0x303 false None false false true);
  (0x304, Entry [0x304] 230 [0x304] 0x304 false None false false true);
  (0x305, Entry [0x305] 230 [0x305] 0x305 false None false false true);
  (0x306, Entry [0x306] 230 [0x306] 0x306 false None false false true);
  (0x307, Entry [0x307] 230 [0x307] 0x307 false None false false true);
  (0x308, Entry [0x308] 230 [0x308] 0x308 false None false false true);
  (0x309, Entry [0x309] 230 [0x309] 0x309 false None false false true);
  (0x30A, Entry [0x30A] 230 [0x30A] 0x30A false None false false true);
  (0x30B, Entry [0x30B] 230 [0x30B] 0x30B false None false false true);
  (0x30C, Entry [0x30C] 230 [0x30C] 0x30C false None false false true);
  (0x327, Entry [0x327] 202 [0x327] 0x327 false None false false true);
  (0x328, Entry [0x328] 202 [0x328] 0x328 false None false false true);
  (0x345, Entry [0x345] 240 [0x345] 0x345 false None false true true);
  (0x3A3, Entry [0x3A3] 0 [0x3C3] 0x3C3 false None true true false);
  (0x3C2, Entry [0x3C2] 0 [0x3C2] 0x3C2 false None true true false);
  (0x3C3, Entry [0x3C3] 0 [0x3C3] 0x3C3 false None true true false);
  (0x660, Entry [0x660] 0 [0x660] 0x660 false (Some 0) true false false);
  (0x661, Entry [0x661] 0 [0x661] 0x661 false (Some 1) true false false);
  (0x662, Entry [0x662] 0 [0x662] 0x662 false (Some 2) true false false);
  (0x663, Entry [0x663] 0 [0x663] 0x663 false (Some 3) true false false);
  (0x664, Entry [0x664] 0 [0x664] 0x664 false (Some 4) true false false);
  (0x665, Entry [0x665] 0 [0x665] 0x665 false (Some 5) true false false);
  (0x666, Entry [0x666] 0 [0x666] 0x666 false (Some 6) true false false);
  (0x667, Entry [0x667] 0 [0x667] 0x667 false (Some 7) true false false);
  (0x668, Entry [0x668] 0 [0x668] 0x668 false (Some 8) true false false);
  (0x669, Entry [0x669] 0 [0x669] 0x669 false (Some 9) true false false);
  (0x1680, Entry [0x1680] 0 [0x1680] 0x1680 true None false false false);
  (0x2000, Entry [0x20] 0 [0x2000] 0x2000 true None false false false);
  (0x2001, Entry [0x20] 0 [0x2001] 0x2001 true None false false false);
  (0x2002, Entry [0x20] 0 [0x2002] 0x2002 true None false false false);
  (0x2003, Entry [0x20] 0 [0x2003] 0x2003 true None false false false);
  (0x2004, Entry [0x20] 0 [0x2004] 0x2004 true None false false false);
  (0x2005, Entry [0x20] 0 [0x2005] 0x2005 true None false false false);
  (0x2006, Entry [0x20] 0 [0x2006] 0x2006 true None false false false);
  (0x2007, Entry [0x20] 0 [0x2007] 0x2007 true None false false false);
  (0x2008, Entry [0x20] 0 [0x2008] 0x2008 true None false false false);
  (0x2009, Entry [0x20] 0 [0x2009] 0x2009 true None false false false);
  (0x200A, Entry [0x20] 0 [0x200A] 0x200A true None false false false);
  (0x2018, Entry [0x2018] 0 [0x2018] 0x2018 false None false false true);
  (0x2019, Entry [0x2019] 0 [0x2019] 0x2019 false None false false true);
  (0x2028, Entry [0x2028] 0 [0x2028] 0x2028 true None false false false);
  (0x2029, Entry [0x2029] 0 [0x2029] 0x2029 true None false false false);
  (0x202F, Entry [0x20] 0 [0x202F] 0x202F true None false false false);
  (0x205F, Entry [0x20] 0 [0x205F] 0x205F true None false false false);
  (0x3000, Entry [0x20] 0 [0x3000] 0x3000 true None false false false);
  (0xFB01, Entry [0x66; 0x69] 0 [0xFB01] 0xFB01 false None true true false);
  (0xFB02, Entry [0x66; 0x6C] 0 [0xFB02] 0xFB02 false None true true false);
  (0xFF10, Entry [0x30] 0 [0xFF10] 0xFF10 false (Some 0) true false false);
  (0xFF11, Entry [0x31] 0 [0xFF11] 0xFF11 false (Some 1) true false false);
  (0xFF12, Entry [0x32] 0 [0xFF12] 0xFF12 false (Some 2) true false false);
  (0xFF13, Entry [0x33] 0 [0xFF13] 0xFF13 false (Some 3) true false false);
  (0xFF14, Entry [0x34] 0 [0xFF14] 0xFF14 false (Some 4) true false false);
  (0xFF15, Entry [0x35] 0 [0xFF15] 0xFF15 false (Some 5) true false false);
  (0xFF16, Entry [0x36] 0 [0xFF16] 0xFF16 false (Some 6) true false false);
  (0xFF17, Entry [0x37] 0 [0xFF17] 0xFF17 false (Some 7) true false false);
  (0xFF18, Entry [0x38] 0 [0xFF18] 0xFF18 false (Some 8) true false false);
  (0xFF19, Entry [0x39] 0 [0xFF19] 0xFF19 false (Some 9) true false false)
]%N.

Fixpoint find (c : codepoint) (t : list (codepoint * entry)) : option entry :=
  match t with
  | [] => None
  | (c', e) :: r => if (c' =? c)%N then Some e else find c r
  end.

Definition unassigned (c : codepoint) : entry :=
  Entry [c] 0 [c] c false None false false false.

Definition entry_of (c : codepoint) : entry :=
  match find c table with
  | Some e => e
  | None => unassigned c
  end.

#[export] Instance data : UnicodeData := {|
  ucd_decomposition c := e_decomposition (entry_of c);
  ucd_combining c := e_combining (entry_of c);
  ucd_lower c := e_lower (entry_of c);
  ucd_tolower c := e_tolower (entry_of c);
  ucd_isspace c := e_isspace (entry_of c);
  ucd_decimal c := e_decimal (entry_of c);
  ucd_isalnum c := e_isalnum (entry_of c);
  ucd_iscased c := e_iscased (entry_of c);
  ucd_iscaseignorable c := e_iscaseignorable (entry_of c)
|}.

End Latin.

(** ** The quote-date fallback chain, in the words of the specification

  Four steps, the first that yields a date wins: the labelled proposal
  date of the frame, the quote date quoted on the invoice, the first bare
  date of the frame, the first bare date of the invoice. *)

Section Chain.
Context {U : UnicodeData}.

Definition labelled_proposal_date (docs : documents) : option date :=
  match cadre docs with
  | Some d => captured_date re_date_proposition (doc_norm d)
  | None => None
  end.

Definition invoice_cross_reference (docs : documents) : option date :=
  match facture docs with
  | Some d => captured_date re_devis_du (doc_norm d)
  | None => None
  end.

Definition first_bare_date (doc : option document) : option date :=
  match doc with
  | Some d => first_date (doc_norm d)
  | None => None
  end.

Definition first_of (steps : list (option date)) : option date :=
  fold_right (fun step later =>
                match step with Some d => Some d | None => later end)
             None steps.

Definition quote_date_chain (docs : documents) : option date :=
  first_of [labelled_proposal_date docs;
            invoice_cross_reference docs;
            first_bare_date (cadre docs);
            first_bare_date (facture docs)].

End Chain.

(** Kinds of findings the claims speak of. *)
Definition is_amount_mismatch (p : problem) : bool :=
  match p with
  | CadreMontantDifferent _ _ => true
  | _ => false
  end.

Definition is_unit_price_problem (p : problem) : bool :=
  match p with
  | DevisPrixHorsPlage _ | DevisPrixIllisible | DevisPrixAbsent => true
  | _ => false
  end.

(** The same kinds, read on the messages of a verdict. *)
Definition is_amount_mismatch_message (msg : str) : Prop :=
  exists cadre_amount prime_str,
    msg = message (CadreMontantDifferent cadre_amount prime_str).

Definition is_unit_price_message (msg : str) : Prop :=
  exists p, is_unit_price_problem p = true /\ msg = message p.

(** The numbered section of [analyze_homelior] a finding comes from. *)
Definition section_of (p : problem) : nat :=
  match p with
  | DevisEnTete | DevisTypeEclairage | DevisPrixHorsPlage _
  | DevisPrixIllisible | DevisPrixAbsent | DevisDateHorsFenetre _
  | DevisDateIndeterminee | DevisResteAPayer | DevisAbsent => 2
  | CadrePhraseAbsente | CadreMontantDifferent _ _ | CadreMontantIllisible
  | CadreMontantInexploitable | CadrePrimeIllisible _ | CadreDateDifferente
  | CadreDateAbsente | CadreAbsent => 3
  | FactureResteAPayer | FactureAbsente => 4
  | BlDateDifferente _ _ | BlAbsent => 5
  | AhMentionIllisible | AhAbsente => 6
  | AftDateFacture _ _ | AftDateBl _ _ | AftDateAbsente | AftAbsente => 7
  end.

(** The messages the claims quote. *)
Definition msg_cadre_date_differente : str :=
  lit "CADRE : la « Date de cette proposition » ne correspond pas à la date de devis.".



(** ** What the properties ask of the Unicode database

  Facts of the Unicode Character Database that its tables hold: three on
  which idempotence of [_normalize] rests, one on which the reading of
  amounts rests. *)

Section Laws.
Context {U : UnicodeData}.

(** A character the first three steps of [_normalize] leave alone. *)
Definition stable (c : codepoint) : Prop :=
  decomposition c = [c] /\ combining c = 0%N /\ lower_full c = [c]
  /\ c <> capital_sigma.

Class UnicodeLaws : Prop := {
  (** a full decomposition is made of characters that decompose no
      further *)
  decomposition_full :
    forall c y, In y (decomposition c) -> decomposition y = [y];
  (** lower-casing a decomposed base character yields stable characters *)
  lower_stable :
    forall c y,
      decomposition c = [c] -> combining c = 0%N -> c <> capital_sigma ->
      In y (lower_full c) -> stable y;
  (** so are the two small sigmas *)
  sigma_stable : stable small_sigma /\ stable small_final_sigma;
  (** a decimal digit has a value from 0 to 9 *)
  decimal_below_ten :
    forall c v, decimal c = Some v -> (v < 10)%N
}.

(** Text in which every whitespace character is a lone ASCII space.
    [after_space] tells that the character before is a space. *)
Fixpoint collapsed_from (after_space : bool) (s : str) : Prop :=
  match s with
  | [] => True
  | c :: t =>
    if isspace c
    then c = ch " " /\ after_space = false /\ collapsed_from true t
    else collapsed_from false t
  end.

End Laws.

(** The laws, decided entry by entry on the table of [Latin]. *)
Module LatinCheck.
Import Latin.

Definition stableb (c : codepoint) : bool :=
  Str.eqb (decomposition c) [c] && (combining c =? 0)%N
  && Str.eqb (lower_full c) [c] && negb (c =? capital_sigma)%N.

Definition check_entry (ce : codepoint * entry) : bool :=
  let (c, e) := ce in
  forallb (fun y => Str.eqb (decomposition y) [y]) (e_decomposition e)
  && (if Str.eqb (e_decomposition e) [c] && (e_combining e =? 0)%N
         && negb (c =? capital_sigma)%N
      then forallb stableb (e_lower e) else true)
  && match e_decimal e with Some v => (v <? 10)%N | None => true end.

End LatinCheck.

(** ** The words of a pattern

  [accepts ic r w]: the pattern [r] can read exactly the word [w]
  (the assertions on the context, [\b], put aside).  It is what the matcher
  is proved sound against: the text a match has read is such a word. *)

Section Accepts.
Context {U : UnicodeData}.
Variable ic : bool.




End Accepts.

(** ** Example inputs *)

Definition verdict_of (r : result verdict) : verdict :=
  match r with
  | Ok v => v
  | Raise _ => Verdict [] []
  end.

(** A case file without fields, and one whose form gives the subsidy. *)
Definition dossier_vide : Dossier := Build_Dossier [] [] [] [] [].

Definition dossier_prime (prime : string) : Dossier :=
  Build_Dossier [] [] [] [(lit "Prime CEE", lit prime)] [].

(** A lone quote without any of the expected mentions. *)
Definition lot_devis_seul : list (str * str) :=
  [(lit "devis.pdf", lit "bonjour")].

(** A frame with a labelled proposal date and an invoice quoting another
    quote date. *)
Definition docs_deux_dates : documents :=
  Documents None
    (Some (lit "cadre.pdf", [],
           lit "date de cette proposition : 15/01/2024"))
    (Some (lit "facture.pdf", [], lit "devis du 16/01/2024"))
    None None None.

(** A frame that carries a labelled proposal date. *)
Definition lot_cadre_date : list (str * str) :=
  [(lit "cadre.pdf", lit "Date de cette proposition : 15/01/2024")].

Definition findings_of (r : result (list problem)) : list problem :=
  match r with
  | Ok ps => ps
  | Raise _ => []
  end.

(** Scenario C of the specification: the frame states 2538.91, the form
    2538,90. *)
Definition texte_prime_2538_91 : str :=
  lit "une prime d un montant de 2538.91 euros".

Definition lot_cadre_2538_91 : list (str * str) :=
  [(lit "cadre.pdf", texte_prime_2538_91)].

(** The same one cent apart, lower: the frame states 1.01, the form 1.00. *)
Definition lot_cadre_1_01 : list (str * str) :=
  [(lit "cadre.pdf", lit "une prime d un montant de 1.01 euros")].

(** File names for the classification. *)
Definition lot_attest_aft : list (str * str) :=
  [(lit "attest_aft.pdf", lit "attestation")].

Definition lot_ah_aft : list (str * str) :=
  [(lit "AH_AFT.pdf", lit "attestation")].

Definition match_of (r : option mstate) : mstate :=
  match r with
  | Some m => m
  | None => MState None [] []
  end.


(** ** Further example inputs *)

(** A page of blanks, as an empty scan gives. *)
Definition texte_blanc : str := [ch " "; 9%N; 10%N; ch " "; 13%N].

(** A complete lot, one file per role, in upload order. *)
Definition lot_complet : list (str * str) :=
  [(lit "DEVIS 2024.pdf",
    lit "DEVIS 2024-00123 Type d'éclairage : Éclairage ambiance ou privé Mise en place de luminaires neufs P.U TTC 42,32 Reste à payer 0,00 €");
   (lit "cadre de contribution.pdf",
    lit "une prime d un montant de 1 000,00 euros Date de cette proposition : 15/01/2024");
   (lit "FACTURE.pdf",
    lit "Date de facture : 20/03/2024 devis du 15/01/2024 Reste à payer 0,00 €");
   (lit "bon de livraison.pdf", lit "Livré le 20/03/2024");
   (lit "AH.pdf", lit "Attestation sur l'honneur");
   (lit "AFT.pdf", lit "Fait à Paris, Le : 20/03/2024")].

(** The window of 2.d, on the fields of a date. *)
Definition in_quote_window (d : date) : bool :=
  ((year d =? 2024)
   && ((month d =? 1) || ((month d =? 2) && (day d <=? 28))))%Z.

(** The heading the messages of a numbered section begin with. *)
Definition heading (k : nat) : str :=
  match k with
  | 2%nat => lit "DEVIS : "
  | 3%nat => lit "CADRE : "
  | 4%nat => lit "FACTURE : "
  | 5%nat => lit "BON DE LIVRAISON : "
  | 6%nat => lit "AH : "
  | _ => lit "AFT : "
  end.

(** Some file of the bundle has a name holding all the keywords: the test of
    the loop of [_find_doc_by_name]. *)
Definition named {U : UnicodeData} (keywords : list str)
  (pdf_texts : list (str * str)) : bool :=
  existsb (fun f => forallb (fun k => contains k (lower (fst f))) keywords)
          pdf_texts.

(** The form value 3.a reads: [(dossier.fields.get("Prime CEE") or "").strip()]. *)
Definition prime_saisie {U : UnicodeData} (dossier : Dossier) : str :=
  strip (match dict_get (lit "Prime CEE") (fields dossier) with
         | Some v => v
         | None => []
         end).

(** A case file with other fields around the subsidy. *)
Definition dossier_rempli : Dossier :=
  Build_Dossier (lit "IEN-1") (lit "HOMELIOR") (lit "Durand")
    [(lit "Adresse", lit "1 rue A"); (lit "Prime CEE", lit " 1 000,00 ")]
    [lit "devis.pdf"].

(** A lot in which every check of every document fails. *)
Definition lot_douze : list (str * str) :=
  [(lit "devis.pdf", lit "mise en place de luminaires neufs");
   (lit "cadre.pdf", lit "contribution");
   (lit "facture.pdf", lit "date de facture : 01/03/2024");
   (lit "bon de livraison.pdf", lit "02/03/2024");
   (lit "ah.pdf", lit "x");
   (lit "aft.pdf", lit "le 03/03/2024")].

(** The shape of a date the patterns capture: two digits, a slash, two
    digits, a slash, four digits. *)
Definition date_shape {U : UnicodeData} (w : str) : Prop :=
  exists d1 d2 m1 m2 y1 y2 y3 y4,
    w = [d1; d2; ch "/"; m1; m2; ch "/"; y1; y2; y3; y4] /\
    Forall (fun x => isdecimal x = true) [d1; d2; m1; m2; y1; y2; y3; y4].

(** ** Python dictionaries in insertion order

  A dictionary is the list of its items in insertion order.  [d[k] = v]
  overwrites the value of a key that is there, in place, and appends a new
  key at the end. *)

Fixpoint dget {A : Type} (k : str) (d : list (str * A)) : option A :=
  match d with
  | [] => None
  | (k', v) :: r => if Str.eqb k' k then Some v else dget k r
  end.

Fixpoint dset {A : Type} (k : str) (v : A) (d : list (str * A))
  : list (str * A) :=
  match d with
  | [] => [(k, v)]
  | (k', v') :: r =>
    if Str.eqb k' k then (k', v) :: r else (k', v') :: dset k v r
  end.

(** [bool(l)] on a list. *)
Definition nonempty {A : Type} (l : list A) : bool :=
  match l with [] => false | _ :: _ => true end.

(** ** [src/rules.py]

  [rules_cfg] is the content of [config/rules.json]: for each delegataire
  an object whose keys [required_fields] and [required_documents], when
  there, hold lists of strings. *)

Record rules := Rules {
  r_required_fields : option (list str);
  r_required_documents : option (list str)
}.

(** [r.get(key, [])] *)
Definition get_list (l : option (list str)) : list str :=
  match l with Some l => l | None => [] end.

(** [rules_cfg.get(deleg, {})] *)
Definition rules_get (deleg : str) (rules_cfg : list (str * rules)) : rules :=
  match dget deleg rules_cfg with
  | Some r => r
  | None => Rules None None
  end.

(** [not dossier.fields.get(f)] *)
Definition field_absent (dossier : Dossier) (f : str) : bool :=
  match dict_get f (fields dossier) with
  | Some v => negb (truthy v)
  | None => true
  end.

Record field_result := FieldResult {
  fr_status : str;
  fr_missing_fields : list str;
  fr_missing_documents : list str
}.

Definition validate_fields (dossier : Dossier)
  (rules_cfg : list (str * rules)) : field_result :=
  let deleg := delegataire dossier in
  let r := rules_get deleg rules_cfg in
  let required_fields := get_list (r_required_fields r) in
  let required_docs := get_list (r_required_documents r) in
  let missing_fields := filter (field_absent dossier) required_fields in
  let missing_docs :=
    filter (fun d => field_absent dossier (lit "DOC::" ++ d)) required_docs in
  let status :=
    if negb (nonempty missing_fields) && negb (nonempty missing_docs)
    then lit "conforme" else lit "non_conforme" in
  FieldResult status missing_fields missing_docs.

(** ** [src/ai_checker.py]: what the model is shown of each document *)

Definition _build_docs_summary (pdf_texts : list (str * str))
  : list (str * str) :=
  fold_left (fun summary item => dset (fst item) (firstn 1500 (snd item)) summary)
            pdf_texts [].

(** ** [src/validator.py] *)

(** An entry of [document_presence]. *)
Record presence := Presence {
  p_type : str;
  p_present : bool;
  p_example : option str
}.

(** The returned dictionary. *)
Record report := Report {
  rp_dossier : str;
  rp_delegataire : str;
  rp_status : str;
  rp_field_result : field_result;
  rp_pdf_result : verdict;
  rp_document_presence : list presence;
  rp_problems : list str;
  rp_main_reasons : list str
}.

(** [doc_labels.get(doc_type, doc_type)] *)
Definition doc_label (doc_type : str) : str :=
  if Str.eqb doc_type (lit "devis") then lit "Devis"
  else if Str.eqb doc_type (lit "facture") then lit "Facture"
  else if Str.eqb doc_type (lit "attestation_sur_honneur")
  then lit "Attestation sur l'honneur"
  else if Str.eqb doc_type (lit "attestation_fin_travaux")
  then lit "Attestation de fin de travaux"
  else if Str.eqb doc_type (lit "bon_livraison") then lit "Bon de livraison"
  else if Str.eqb doc_type (lit "cadre_contribution")
  then lit "Cadre de contribution"
  else doc_type.

(** [bool(detected_name)] *)
Definition detected (detected_name : option str) : bool :=
  match detected_name with
  | Some n => truthy n
  | None => false
  end.

(** One turn of the loop of step 4: the detected name and the messages
    appended to [uploaded_missing_docs]. *)
Definition detect_document (doc_type : str) (lower_names : list str)
  : option str * list str :=
  let report_missing (detected_name : option str) (msg : str) :=
    (detected_name, if negb (detected detected_name) then [msg] else []) in
  if Str.eqb doc_type (lit "devis") then
    report_missing
      (find (fun n => contains (lit "devis") n) lower_names)
      (lit "Document 'devis' non détecté dans les PDF déposés (nom de fichier sans 'devis').")
  else if Str.eqb doc_type (lit "facture") then
    report_missing
      (find (fun n => contains (lit "facture") n || contains (lit "fac_") n
                      || contains (lit "fs_") n) lower_names)
      (lit "Document 'facture' non détecté dans les PDF déposés.")
  else if Str.eqb doc_type (lit "attestation_sur_honneur") then
    report_missing
      (find (fun n => contains (lit "attest") n || contains (lit "aft") n
                      || contains (lit "attestation sur l'honneur") n)
            lower_names)
      (lit "Attestation sur l'honneur non détectée dans les PDF déposés "
       ++ lit "(attendu : nom contenant 'attest' ou 'aft').")
  else if Str.eqb doc_type (lit "attestation_fin_travaux") then
    report_missing
      (find (fun n => contains (lit "fin de travaux") n
                      || contains (lit "aft") n) lower_names)
      (lit "Attestation de fin de travaux non détectée dans les PDF déposés.")
  else if Str.eqb doc_type (lit "bon_livraison") then
    report_missing
      (find (fun n => contains (lit "bl") n || contains (lit "livraison") n)
            lower_names)
      (lit "Bon de livraison non détecté dans les PDF déposés (nom contenant 'bl' ou 'livraison' attendu).")
  else if Str.eqb doc_type (lit "cadre_contribution") then
    report_missing
      (find (fun n => contains (lit "cadre") n
                      || contains (lit "contribution") n) lower_names)
      (lit "Cadre de contribution non détecté dans les PDF déposés.")
  else (None, []).

Definition msg_aucun_pdf : str := lit "Aucun PDF fourni pour ce dossier.".

Definition msg_dossier_conforme : str :=
  lit "Dossier conforme : aucun écart majeur détecté.".

Definition msg_sans_detail : str :=
  lit "Dossier non conforme sans détail identifié.".

Section Validator.
Context {U : UnicodeData}.

(** What the function takes from its environment: [str.upper], the name of
    a path, the state of the file system, the text read from one file
    (the body of the loop of [extract_text_from_pdfs]), Python's [repr] of a
    list of strings, and the answer of the language model, which may end in
    an exception. *)
Variable upper : str -> str.
Variable path_name : str -> str.
Variable path_exists : str -> bool.
Variable st_size : str -> Z.
Variable read_pdf : str -> str.
Variable repr_list : list str -> str.
Variable check_pdfs_with_ai :
  Dossier -> rules -> list (str * str) -> result verdict.

(** [src/pdf_reader.py]: [texts[path.name] = text] for each path. *)
Definition extract_text_from_pdfs (pdf_paths : list str) : list (str * str) :=
  fold_left (fun texts path => dset (path_name path) (read_pdf path) texts)
            pdf_paths [].

(** 3.a *)
Definition tech_problem (name_to_path : list (str * str))
  (item : str * str) : list str :=
  let (name, text) := item in
  let path := dget name name_to_path in
  if negb (truthy text) then
    if match path with
       | Some p => path_exists p && (0 <? st_size p)%Z
       | None => false
       end
    then [lit "Le fichier PDF '" ++ name
          ++ lit "' ne contient pas de texte exploitable "
          ++ lit "(probablement un scan / une image). Certains contrôles devront être faits manuellement."]
    else [lit "Le fichier PDF '" ++ name ++ lit "' est vide ou illisible."]
  else [].

(** 5 *)
Definition pdf_analysis (dossier : Dossier) (deleg_rules : rules)
  (pdf_texts : list (str * str)) : result verdict :=
  if nonempty pdf_texts then
    if Str.eqb (upper (delegataire dossier)) (lit "HOMELIOR")
    then analyze_homelior dossier pdf_texts
    else check_pdfs_with_ai dossier deleg_rules pdf_texts
  else ret (Verdict (lit "non_conforme") [msg_aucun_pdf]).

(** 3: the texts, and the problems of 3.a. *)
Definition pdf_texts_of (dossier : Dossier) : list (str * str) :=
  if nonempty (pdf_files dossier)
  then extract_text_from_pdfs (pdf_files dossier) else [].

Definition tech_problems_of (dossier : Dossier) : list str :=
  let name_to_path :=
    fold_left (fun m p => dset (path_name p) p m) (pdf_files dossier) [] in
  flat_map (tech_problem name_to_path) (pdf_texts_of dossier).

(** 4: the loop over the required documents. *)
Definition lower_names_of (dossier : Dossier) : list str :=
  map (fun p => lower (path_name p)) (pdf_files dossier).

Definition uploaded_missing_docs_of (deleg_rules : rules)
  (dossier : Dossier) : list str :=
  flat_map
    (fun doc_type =>
       snd (detect_document doc_type (lower_names_of dossier)))
    (get_list (r_required_documents deleg_rules)).

Definition document_presence_of (deleg_rules : rules)
  (dossier : Dossier) : list presence :=
  map (fun doc_type =>
         let detected_name :=
           fst (detect_document doc_type (lower_names_of dossier)) in
         Presence (doc_label doc_type) (detected detected_name)
                  detected_name)
      (get_list (r_required_documents deleg_rules)).

(** 6: [global_status] and [all_problems] are threaded through the four
    tests; the result is the status, the problems and the summary. *)
Definition aggregate (field_result : field_result)
  (tech_problems uploaded_missing_docs : list str) (pdf_result : verdict)
  : str * list str * list str :=
  let state := (lit "conforme", @nil str) in
  let state :=
    if negb (Str.eqb (fr_status field_result) (lit "conforme"))
    then (lit "non_conforme",
          snd state
          ++ [lit "Champs manquants: "
              ++ repr_list (fr_missing_fields field_result)]
          ++ [lit "Documents manquants (d'après CRM): "
              ++ repr_list (fr_missing_documents field_result)])
    else state in
  let state :=
    if nonempty tech_problems
    then (lit "non_conforme", snd state ++ tech_problems) else state in
  let state :=
    if nonempty uploaded_missing_docs
    then (lit "non_conforme", snd state ++ uploaded_missing_docs)
    else state in
  let state :=
    if negb (Str.eqb (status pdf_result) (lit "conforme"))
    then (lit "non_conforme", snd state ++ problems pdf_result)
    else state in
  let global_status := fst state in
  let all_problems := snd state in
  let summary_reasons :=
    if Str.eqb global_status (lit "conforme") then [msg_dossier_conforme]
    else if nonempty all_problems then firstn 5 all_problems
         else [msg_sans_detail] in
  (global_status, all_problems, summary_reasons).

(** [rules_cfg] is what [load_rules()] returned. *)
Definition validate_dossier (rules_cfg : list (str * rules))
  (dossier : Dossier) : result report :=
  let deleg_rules := rules_get (delegataire dossier) rules_cfg in
  let field_result := validate_fields dossier rules_cfg in
  let pdf_texts := pdf_texts_of dossier in
  let tech_problems := tech_problems_of dossier in
  let uploaded_missing_docs := uploaded_missing_docs_of deleg_rules dossier in
  let document_presence := document_presence_of deleg_rules dossier in
  pdf_result <- pdf_analysis dossier deleg_rules pdf_texts ;;
  let '(global_status, all_problems, summary_reasons) :=
    aggregate field_result tech_problems uploaded_missing_docs pdf_result in
  ret (Report (ien dossier) (delegataire dossier) global_status field_result
              pdf_result document_presence all_problems summary_reasons).

End Validator.

(** An environment for the examples: ASCII upper-casing, paths that are
    their own name, files that exist and hold a page, texts read from a
    table, and a language model that finds nothing. *)
Definition upper_ascii (s : str) : str :=
  map (fun c => if ascii_lower c then (c - 32)%N else c) s.

Definition lire (table : list (str * str)) (path : str) : str :=
  match dget path table with Some t => t | None => [] end.

Definition repr_simple (l : list str) : str :=
  lit "[" ++ List.concat (map (fun s => lit "'" ++ s ++ lit "', ") l) ++ lit "]".

Definition ia_conforme (d : Dossier) (r : rules) (t : list (str * str))
  : result verdict := Ok (Verdict (lit "conforme") []).

Definition ia_en_panne (d : Dossier) (r : rules) (t : list (str * str))
  : result verdict := Raise ValueError.

Definition valider (ia : Dossier -> rules -> list (str * str) -> result verdict)
  (table : list (str * str)) (rules_cfg : list (str * rules))
  (dossier : Dossier) : result report :=
  validate_dossier (U := Latin.data) upper_ascii (fun p => p)
    (fun _ => true) (fun _ => 1%Z) (lire table) repr_simple ia
    rules_cfg dossier.

Definition regles_homelior : list (str * rules) :=
  [(lit "HOMELIOR",
    Rules (Some [lit "Prime CEE"])
          (Some [lit "devis"; lit "attestation_sur_honneur";
                 lit "attestation_fin_travaux"; lit "plan"]))].

Definition dossier_homelior (files : list str) : Dossier :=
  Build_Dossier (lit "IEN-2024-1") (lit "HOMELIOR") (lit "Durand")
    [(lit "Prime CEE", lit "1 000,00"); (lit "DOC::devis", lit "oui");
     (lit "DOC::attestation_sur_honneur", lit "oui");
     (lit "DOC::attestation_fin_travaux", lit "oui");
     (lit "DOC::plan", lit "oui")]
    files.

Definition dossier_autre : Dossier :=
  Build_Dossier (lit "IEN-2024-2") (lit "Inconnu") (lit "Martin") []
    [lit "devis.pdf"].

(** Two scans, the second longer than what the model is shown. *)
Definition lot_long : list (str * str) :=
  [(lit "a.pdf", lit "court"); (lit "b.pdf", repeat (ch "x") 1600)].

Definition report_of (r : result report) : report :=
  match r with
  | Ok r => r
  | Raise _ =>
    Report [] [] [] (FieldResult [] [] []) (Verdict [] []) [] [] []
  end.

(** The complete lot, filed under HOMELIOR. *)
Definition cas_conforme : result report :=
  valider ia_en_panne lot_complet regles_homelior
          (dossier_homelior (map fst lot_complet)).

(** A case without any file. *)
Definition cas_sans_pdf : result report :=
  valider ia_en_panne [] regles_homelior (dossier_homelior []).

(** A quote and a completion certificate scanned as an image. *)
Definition cas_scan : result report :=
  valider ia_en_panne
          [(lit "devis.pdf", lit "bonjour"); (lit "aft.pdf", [])]
          regles_homelior
          (dossier_homelior [lit "devis.pdf"; lit "aft.pdf"]).

(** A delegataire the configuration does not know. *)
Definition cas_autre : result report :=
  valider ia_conforme [(lit "devis.pdf", lit "bonjour")] regles_homelior
          dossier_autre.

(** ** [src/pixelcrm_client.py]: the case number *)

(** [IEN-\d{4}-\d+]; group 0 is the whole match. *)
Definition re_ien : regex :=
  Grp 0 (cat [text "IEN-"; times 4 digit; Chr (ch "-"); plus digit]).

Definition _nettoie_ien {U : UnicodeData} (ien : str) : str :=
  let txt := strip ien in
  let txt :=
    if startswith (lit "n°") (lower txt) || startswith (lit "nº") (lower txt)
    then strip (skipn 2 txt) else txt in
  match search false re_ien txt with
  | Some m => group 0 m
  | None => txt
  end.

(** The shape of a case number: [IEN-], four digits, a dash, digits. *)
Definition ien_shape {U : UnicodeData} (w : str) : Prop :=
  exists y1 y2 y3 y4 d ds,
    w = lit "IEN-" ++ [y1; y2; y3; y4] ++ ch "-" :: d :: ds /\
    Forall (fun x => isdecimal x = true) (y1 :: y2 :: y3 :: y4 :: d :: ds).

(** * Properties *)

(** ** Running the analysis: no exception escapes *)

Section Totality.
Context {U : UnicodeData}.

Lemma try_except_ok {A : Type} (body handler : result A) :
  (exists a, handler = Ok a) -> exists a, try_except body handler = Ok a.
Proof.
  intros [h Hh]. destruct body as [a | []]; simpl.
  - now exists a.
  - now exists h.
Qed.

Lemma check_prix_ok (devis_norm : str) :
  exists ps, check_prix devis_norm = Ok ps.
Proof.
  unfold check_prix.
  destruct (contains _ devis_norm); [| now eexists].
  destruct (search false re_prix devis_norm); [| now eexists].
  apply try_except_ok. now eexists.
Qed.

Lemma check_prime_ok (dossier : Dossier) (cadre_norm : str) :
  exists ps, check_prime dossier cadre_norm = Ok ps.
Proof.
  unfold check_prime.
  destruct (truthy _); [| now eexists].
  apply try_except_ok. now eexists.
Qed.

Lemma rule_devis_ok (docs : documents) (ds : dates) :
  exists ps, rule_devis docs ds = Ok ps.
Proof.
  unfold rule_devis. destruct (devis docs) as [d |]; [| now eexists].
  destruct (check_prix_ok (doc_norm d)) as [pc ->]. simpl. now eexists.
Qed.

Lemma rule_cadre_ok (dossier : Dossier) (docs : documents) (ds : dates) :
  exists ps, rule_cadre dossier docs ds = Ok ps.
Proof.
  unfold rule_cadre. destruct (cadre docs) as [d |]; [| now eexists].
  destruct (negb _); simpl; [now eexists |].
  destruct (check_prime_ok dossier (doc_norm d)) as [pa ->]. simpl.
  now eexists.
Qed.

Lemma findings_ok (dossier : Dossier) (pdf_texts : list (str * str)) :
  exists ps, findings dossier pdf_texts = Ok ps.
Proof.
  unfold findings.
  destruct (rule_devis_ok (main_documents pdf_texts)
              (reference_dates (main_documents pdf_texts))) as [p2 ->].
  destruct (rule_cadre_ok dossier (main_documents pdf_texts)
              (reference_dates (main_documents pdf_texts))) as [p3 ->].
  simpl. now eexists.
Qed.

(** What [analyze_homelior] returns, read back from an [Ok] result. *)
Lemma analyze_inv (dossier : Dossier) (pdf_texts : list (str * str))
  (v : verdict) :
  analyze_homelior dossier pdf_texts = Ok v ->
  exists ps,
    findings dossier pdf_texts = Ok ps /\
    problems v = map message ps /\
    status v = match ps with
               | [] => lit "conforme"
               | _ :: _ => lit "non_conforme"
               end.
Proof.
  unfold analyze_homelior. intros H.
  destruct (findings dossier pdf_texts) as [ps | e]; simpl in H; [| discriminate].
  injection H as <-. exists ps. simpl. repeat split. now destruct ps.
Qed.

End Totality.


(** C1. The status of a returned verdict is ["conforme"] exactly when its
    list of problems is empty, and ["non_conforme"] exactly when it is
    not. *)
Theorem status_conforme_iff_no_problem {U : UnicodeData}
  (dossier : Dossier) (pdf_texts : list (str * str)) (v : verdict) :
  analyze_homelior dossier pdf_texts = Ok v ->
  (status v = lit "conforme" <-> problems v = []) /\
  (status v = lit "non_conforme" <-> problems v <> []).
Proof.
  intros H. destruct (analyze_inv _ _ H) as (ps & _ & Hp & Hs).
  rewrite Hp, Hs. destruct ps as [| p ps]; simpl; repeat split;
    intros; try easy; try (exfalso; vm_compute in *; congruence).
Qed.

Lemma status_conforme_iff_no_problem_witness :
  let v := verdict_of (analyze_homelior (U := Latin.data) dossier_vide
                         lot_devis_seul) in
  (status v = lit "conforme" <-> problems v = []) /\
  (status v = lit "non_conforme" <-> problems v <> []).
Proof.
  intro v.
  apply (status_conforme_iff_no_problem (U := Latin.data) dossier_vide
           lot_devis_seul).
  vm_compute. reflexivity.
Defined.

(** ** The reference dates *)

Section Dates.
Context {U : UnicodeData}.

Lemma date_devis_resolved (docs : documents) :
  date_devis (reference_dates docs) = quote_date_chain docs.
Proof.
  unfold reference_dates, quote_date_chain, first_of, labelled_proposal_date,
    invoice_cross_reference, first_bare_date, date_devis_cadre,
    date_devis_facture, candidats_devis_dates.
  simpl.
  destruct (cadre docs) as [c |], (facture docs) as [f |]; simpl;
    repeat match goal with
           | |- context [captured_date ?r ?t] => destruct (captured_date r t)
           | |- context [first_date ?t] => destruct (first_date t)
           end; reflexivity.
Qed.

(** A labelled proposal date that parses is the resolved quote date. *)
Lemma date_devis_of_label (docs : documents) (d : date) :
  labelled_proposal_date docs = Some d ->
  date_devis (reference_dates docs) = Some d.
Proof.
  intros H. rewrite date_devis_resolved. unfold quote_date_chain, first_of.
  simpl. now rewrite H.
Qed.

End Dates.

(** C4. The resolved quote date is the result of the four-step chain, the
    first step that yields a date winning; in particular a labelled proposal
    date [D1] on the frame wins over a different quote date [D2] quoted on
    the invoice. *)
Theorem quote_date_fallback_chain {U : UnicodeData} :
  (forall docs : documents,
      date_devis (reference_dates docs) = quote_date_chain docs) /\
  (forall (docs : documents) (D1 D2 : date),
      labelled_proposal_date docs = Some D1 ->
      invoice_cross_reference docs = Some D2 ->
      D1 <> D2 ->
      date_devis (reference_dates docs) = Some D1).
Proof.
  split.
  - apply date_devis_resolved.
  - intros docs D1 D2 H1 _ _. now apply date_devis_of_label.
Qed.

Lemma quote_date_fallback_chain_witness :
  date_devis (reference_dates (U := Latin.data) docs_deux_dates)
  = Some (Date 2024 1 15).
Proof.
  apply (proj2 (quote_date_fallback_chain (U := Latin.data)) docs_deux_dates
           (Date 2024 1 15) (Date 2024 1 16)).
  - vm_compute. reflexivity.
  - vm_compute. reflexivity.
  - discriminate.
Defined.

(** ** Where each finding comes from *)

Ltac break_match :=
  match goal with
  | |- context [match ?x with _ => _ end] => destruct x eqn:?
  | |- context [if ?x then _ else _] => destruct x eqn:?
  end.

Lemma Forall_app_intro {A : Type} (P : A -> Prop) (a b : list A) :
  Forall P a -> Forall P b -> Forall P (a ++ b).
Proof. intros Ha Hb. apply Forall_app. now split. Qed.

Section Origins.
Context {U : UnicodeData}.

Lemma check_prix_kinds (devis_norm : str) (ps : list problem) :
  check_prix devis_norm = Ok ps ->
  Forall (fun p => is_unit_price_problem p = true) ps.
Proof.
  unfold check_prix.
  destruct (contains _ devis_norm);
    [| intros H; injection H as <-; constructor].
  destruct (search false re_prix devis_norm) as [m |];
    [| intros H; injection H as <-; repeat constructor].
  destruct (py_float _) as [v | []]; simpl.
  - destruct (negb _); intros H; injection H as <-; repeat constructor.
  - intros H; injection H as <-; repeat constructor.
Qed.

Lemma check_prix_skipped (devis_norm : str) :
  contains (lit "mise en place de luminaires neufs") devis_norm = false ->
  check_prix devis_norm = Ok [].
Proof.
  unfold check_prix. now intros ->.
Qed.

Lemma rule_devis_section (docs : documents) (ds : dates)
  (ps : list problem) :
  rule_devis docs ds = Ok ps -> Forall (fun p => section_of p = 2) ps.
Proof.
  unfold rule_devis. destruct (devis docs) as [d |].
  - destruct (check_prix (doc_norm d)) as [pc | e] eqn:Hc; simpl;
      [| discriminate].
    intros H. injection H as <-.
    apply check_prix_kinds in Hc.
    apply Forall_app_intro; [| apply Forall_app_intro;
      [| apply Forall_app_intro; [| apply Forall_app_intro]]].
    + destruct (negb _); repeat constructor.
    + destruct (negb _); repeat constructor.
    + eapply Forall_impl; [| exact Hc]. intros p. now destruct p.
    + unfold check_date_devis. destruct (date_devis ds); [| repeat constructor].
      destruct (negb _); repeat constructor.
    + destruct (negb _); repeat constructor.
  - intros H. injection H as <-. repeat constructor.
Qed.

Lemma check_prime_section (dossier : Dossier) (cadre_norm : str)
  (ps : list problem) :
  check_prime dossier cadre_norm = Ok ps ->
  Forall (fun p => section_of p = 3 /\ p <> CadreDateDifferente) ps.
Proof.
  unfold check_prime.
  destruct (truthy _); [| intros H; injection H as <-; constructor].
  destruct (py_float _) as [prime_val | []]; simpl;
    [| intros H; injection H as <-; repeat constructor; discriminate].
  destruct (search false re_prime cadre_norm) as [m |]; simpl;
    [| intros H; injection H as <-; repeat constructor; discriminate].
  destruct (py_float _) as [cadre_val | []]; simpl;
    [| intros H; injection H as <-; repeat constructor; discriminate].
  destruct (PyNum.ltb _ _); intros H; injection H as <-;
    repeat constructor; discriminate.
Qed.

Lemma check_date_proposition_section (cadre_norm : str)
  (dd : option date) :
  Forall (fun p => section_of p = 3)
         (check_date_proposition cadre_norm dd).
Proof.
  unfold check_date_proposition.
  repeat break_match; repeat constructor.
Qed.

Lemma rule_cadre_section (dossier : Dossier) (docs : documents) (ds : dates)
  (ps : list problem) :
  rule_cadre dossier docs ds = Ok ps ->
  Forall (fun p => section_of p = 3) ps.
Proof.
  unfold rule_cadre. destruct (cadre docs) as [d |].
  - destruct (negb _); simpl.
    + intros H. injection H as <-. constructor; [reflexivity |].
      apply check_date_proposition_section.
    + destruct (check_prime dossier (doc_norm d)) as [pa | e] eqn:Hp; simpl;
        [| discriminate].
      intros H. injection H as <-. apply Forall_app_intro.
      * eapply Forall_impl; [| exact (check_prime_section _ _ Hp)].
        now intros p [Hs _].
      * apply check_date_proposition_section.
  - intros H. injection H as <-. repeat constructor.
Qed.

Lemma rule_facture_section (docs : documents) :
  Forall (fun p => section_of p = 4) (rule_facture docs).
Proof. unfold rule_facture. repeat break_match; repeat constructor. Qed.

Lemma rule_bl_section (docs : documents) (ds : dates) :
  Forall (fun p => section_of p = 5) (rule_bl docs ds).
Proof. unfold rule_bl. repeat break_match; repeat constructor. Qed.

Lemma rule_ah_section (docs : documents) :
  Forall (fun p => section_of p = 6) (rule_ah docs).
Proof. unfold rule_ah. repeat break_match; repeat constructor. Qed.

Lemma rule_aft_section (docs : documents) (ds : dates) :
  Forall (fun p => section_of p = 7) (rule_aft docs ds).
Proof.
  unfold rule_aft.
  destruct (aft docs) as [d |]; [| repeat constructor].
  destruct (search false re_le (doc_norm d)) as [m |]; [| repeat constructor].
  destruct (_parse_date (group 1 m)) as [d_aft |]; [| constructor].
  apply Forall_app_intro.
  - destruct (date_facture ds); [| constructor].
    destruct (negb _); repeat constructor.
  - destruct (date_bl ds); [| constructor].
    destruct (negb _); repeat constructor.
Qed.

(** The findings, section by section. *)
Lemma findings_inv (dossier : Dossier) (pdf_texts : list (str * str))
  (ps : list problem) :
  findings dossier pdf_texts = Ok ps ->
  let docs := main_documents pdf_texts in
  let ds := reference_dates docs in
  exists p2 p3,
    rule_devis docs ds = Ok p2 /\
    rule_cadre dossier docs ds = Ok p3 /\
    ps = p2 ++ p3 ++ rule_facture docs ++ rule_bl docs ds ++ rule_ah docs
         ++ rule_aft docs ds.
Proof.
  intros H. cbv zeta. unfold findings in H.
  destruct (rule_devis (main_documents pdf_texts) _) as [p2 | e];
    [| discriminate].
  destruct (rule_cadre dossier (main_documents pdf_texts) _) as [p3 | e];
    [| discriminate].
  unfold bind, ret in H. injection H as <-. now exists p2, p3.
Qed.

(** A finding of section 2 is a finding of the quote rule, one of section 3
    a finding of the frame rule. *)
Lemma findings_of_section (dossier : Dossier) (pdf_texts : list (str * str))
  (ps : list problem) (p : problem) :
  findings dossier pdf_texts = Ok ps -> In p ps ->
  let docs := main_documents pdf_texts in
  let ds := reference_dates docs in
  (section_of p = 2 ->
   exists p2, rule_devis docs ds = Ok p2 /\ In p p2) /\
  (section_of p = 3 ->
   exists p3, rule_cadre dossier docs ds = Ok p3 /\ In p p3).
Proof.
  intros H Hin docs ds.
  destruct (findings_inv _ _ H) as (p2 & p3 & H2 & H3 & ->).
  cbv zeta in H2, H3. fold docs in H2, H3, Hin. fold ds in H2, H3, Hin.
  pose proof (rule_devis_section _ _ H2) as S2.
  pose proof (rule_cadre_section _ _ _ H3) as S3.
  pose proof (rule_facture_section docs) as S4.
  pose proof (rule_bl_section docs ds) as S5.
  pose proof (rule_ah_section docs) as S6.
  pose proof (rule_aft_section docs ds) as S7.
  rewrite Forall_forall in S2, S3, S4, S5, S6, S7.
  repeat (apply in_app_or in Hin; destruct Hin as [Hin | Hin]);
    split; intros Hs;
    try (exists p2; now split); try (exists p3; now split);
    exfalso;
    first [ apply S2 in Hin | apply S3 in Hin | apply S4 in Hin
          | apply S5 in Hin | apply S6 in Hin | apply S7 in Hin ];
    congruence.
Qed.

End Origins.

(** ** Reading a message back *)

Ltac other_message H := exfalso; vm_compute in H; discriminate H.

Lemma message_cadre_date_differente (p : problem) :
  message p = msg_cadre_date_differente -> p = CadreDateDifferente.
Proof. destruct p; intros H; try reflexivity; other_message H. Qed.



Lemma message_unit_price (p q : problem) :
  is_unit_price_problem q = true -> message p = message q ->
  is_unit_price_problem p = true.
Proof.
  destruct q; try discriminate; intros _;
    destruct p; intros H; try reflexivity; other_message H.
Qed.

Lemma message_amount_mismatch (p : problem) (a b : str) :
  message p = message (CadreMontantDifferent a b) ->
  is_amount_mismatch p = true.
Proof. destruct p; intros H; try reflexivity; other_message H. Qed.

(** ** The proposal date of the frame against the quote date *)

Lemma date_eqb_refl (d : date) : PyDate.eqb d d = true.
Proof. unfold PyDate.eqb. now rewrite !Z.eqb_refl. Qed.

Section ProposalDate.
Context {U : UnicodeData}.

(** 3.b reads the pattern of 1.a on the same text: when it matches and the
    date parses, that date already is the quote date. *)
Lemma check_date_proposition_agrees (docs : documents) (d : document) :
  cadre docs = Some d ->
  ~ In CadreDateDifferente
      (check_date_proposition (doc_norm d)
         (date_devis (reference_dates docs))).
Proof.
  intros Hc. unfold check_date_proposition.
  destruct (search true re_date_proposition (doc_norm d)) as [m |] eqn:Hs.
  - destruct (date_devis (reference_dates docs)) as [dd |] eqn:Hd;
      [| intros []].
    destruct (_parse_date (group 1 m)) as [d_prop |] eqn:Hp; [| intros []].
    assert (Hl : labelled_proposal_date docs = Some d_prop).
    { unfold labelled_proposal_date, captured_date. now rewrite Hc, Hs. }
    apply date_devis_of_label in Hl. rewrite Hd in Hl. injection Hl as ->.
    rewrite date_eqb_refl. intros [].
  - destruct (date_devis (reference_dates docs)); intros [H | []];
      discriminate H.
Qed.

Lemma rule_cadre_no_date_differente (dossier : Dossier) (docs : documents)
  (ps : list problem) :
  rule_cadre dossier docs (reference_dates docs) = Ok ps ->
  ~ In CadreDateDifferente ps.
Proof.
  unfold rule_cadre. destruct (cadre docs) as [d |] eqn:Hc.
  - destruct (negb _).
    + unfold bind, ret. intros H. injection H as <-.
      intros [H | H]; [discriminate H |].
      now apply (check_date_proposition_agrees _ Hc) in H.
    + destruct (check_prime dossier (doc_norm d)) as [pa | e] eqn:Hp;
        [| discriminate].
      unfold bind, ret. intros H. injection H as <-. intros Hin.
      apply in_app_or in Hin. destruct Hin as [Hin | Hin].
      * pose proof (check_prime_section _ _ Hp) as S.
        rewrite Forall_forall in S. now destruct (S _ Hin).
      * now apply (check_date_proposition_agrees _ Hc) in Hin.
  - intros H. injection H as <-. intros [H | []]. discriminate H.
Qed.

End ProposalDate.

(** C6. The message "CADRE : la « Date de cette proposition » ne correspond
    pas à la date de devis." is in no returned verdict: when the labelled
    proposal date of the frame matches and parses, the quote date has been
    set to that very date. *)
Theorem date_proposition_mismatch_never_reported {U : UnicodeData}
  (dossier : Dossier) (pdf_texts : list (str * str)) (v : verdict) :
  analyze_homelior dossier pdf_texts = Ok v ->
  ~ In msg_cadre_date_differente (problems v).
Proof.
  intros H Hin.
  destruct (analyze_inv _ _ H) as (ps & Hf & Hp & _).
  rewrite Hp in Hin. apply in_map_iff in Hin. destruct Hin as (p & Hm & Hin).
  apply message_cadre_date_differente in Hm. subst p.
  destruct (findings_of_section _ _ _ Hf Hin) as [_ H3].
  destruct (H3 eq_refl) as (p3 & Hr & Hin3).
  exact (rule_cadre_no_date_differente _ _ Hr Hin3).
Qed.

Lemma date_proposition_mismatch_never_reported_witness :
  ~ In msg_cadre_date_differente
      (problems (verdict_of (analyze_homelior (U := Latin.data) dossier_vide
                               lot_cadre_date))).
Proof.
  apply (date_proposition_mismatch_never_reported (U := Latin.data)
           dossier_vide lot_cadre_date).
  vm_compute. reflexivity.
Defined.

(** Without the phrase of 2.c the findings hold no unit-price finding. *)
Lemma unit_price_findings_skipped {U : UnicodeData}
  (dossier : Dossier) (pdf_texts : list (str * str)) (d : document)
  (ps : list problem) :
  devis (main_documents pdf_texts) = Some d ->
  contains (lit "mise en place de luminaires neufs") (doc_norm d) = false ->
  findings dossier pdf_texts = Ok ps ->
  forall p, In p ps -> is_unit_price_problem p = false.
Proof.
  intros Hd Hc Hf p Hin.
  destruct (is_unit_price_problem p) eqn:Hk; [exfalso | reflexivity].
  destruct (findings_of_section _ _ _ Hf Hin) as [H2 _].
  destruct H2 as (p2 & Hr & Hin2); [now destruct p |].
  unfold rule_devis in Hr. rewrite Hd in Hr.
  rewrite (check_prix_skipped _ Hc) in Hr. unfold bind, ret in Hr.
  injection Hr as <-.
  revert Hk. apply not_true_iff_false.
  eapply Forall_forall with (P := fun q => is_unit_price_problem q = false);
    [| exact Hin2].
  change ([] ++ ?l) with l.
  apply Forall_app_intro; [| apply Forall_app_intro;
    [| apply Forall_app_intro]].
  - break_match; repeat constructor.
  - break_match; repeat constructor.
  - unfold check_date_devis. repeat break_match; repeat constructor.
  - break_match; repeat constructor.
Qed.

(** C10. When the quote is there and its normalised text lacks the phrase
    "mise en place de luminaires neufs", the verdict holds no unit-price
    problem: neither the missing price, nor the unreadable one, nor the one
    outside of [42.0, 43.0]. *)
Theorem unit_price_check_skipped {U : UnicodeData}
  (dossier : Dossier) (pdf_texts : list (str * str)) (d : document)
  (v : verdict) :
  devis (main_documents pdf_texts) = Some d ->
  contains (lit "mise en place de luminaires neufs") (doc_norm d) = false ->
  analyze_homelior dossier pdf_texts = Ok v ->
  Forall (fun msg => ~ is_unit_price_message msg) (problems v).
Proof.
  intros Hd Hc H. destruct (analyze_inv _ _ H) as (ps & Hf & Hp & _).
  rewrite Hp. apply Forall_forall. intros msg Hin (q & Hq & ->).
  apply in_map_iff in Hin. destruct Hin as (p & Hm & Hin).
  apply message_unit_price in Hm; [| exact Hq].
  pose proof (@unit_price_findings_skipped U dossier pdf_texts d ps Hd Hc Hf
                p Hin) as F.
  congruence.
Qed.

Lemma unit_price_check_skipped_witness :
  Forall (fun msg => ~ is_unit_price_message msg)
    (problems (verdict_of (analyze_homelior (U := Latin.data) dossier_vide
                             lot_devis_seul))).
Proof.
  apply (unit_price_check_skipped (U := Latin.data) dossier_vide
           lot_devis_seul
           (d := (lit "devis.pdf", lit "bonjour", lit "bonjour")));
    vm_compute; reflexivity.
Defined.

(** ** Classification by file name *)

(** C5, as stated, fails: a lone file whose name holds "attest" and "aft"
    is bound to the completion certificate only, the honour statement
    being looked up under "ah" or under "attestation" and "honneur". *)
Lemma attest_aft_not_both_roles :
  contains (lit "attest") (lit "attest_aft.pdf") = true /\
  contains (lit "aft") (lit "attest_aft.pdf") = true /\
  lot_attest_aft = [(lit "attest_aft.pdf", lit "attestation")] /\
  ah (main_documents (U := Latin.data) lot_attest_aft) = None /\
  aft (main_documents (U := Latin.data) lot_attest_aft) <> None.
Proof. vm_compute. repeat split; discriminate. Qed.

(** C5, amended. A lone file whose lower-cased name holds "aft" and also
    "ah", or both "attestation" and "honneur", is bound to the honour
    statement and to the completion certificate at once. *)
Theorem single_file_both_roles {U : UnicodeData} (name content : str) :
  contains (lit "ah") (lower name)
  || (contains (lit "attestation") (lower name)
      && contains (lit "honneur") (lower name)) = true ->
  contains (lit "aft") (lower name) = true ->
  let docs := main_documents [(name, content)] in
  ah docs = Some (name, content, _normalize content) /\
  aft docs = Some (name, content, _normalize content).
Proof.
  intros Hah Haft. cbv zeta. unfold main_documents, ah, aft, or_else.
  unfold _find_doc_by_name, forallb. rewrite Haft. split; [| reflexivity].
  destruct (contains (lit "ah") (lower name)); [reflexivity |].
  destruct (contains (lit "attestation") (lower name)); [| discriminate].
  destruct (contains (lit "honneur") (lower name)); [| discriminate].
  reflexivity.
Qed.

Lemma single_file_both_roles_witness :
  let docs := main_documents (U := Latin.data) lot_ah_aft in
  ah docs = Some (lit "AH_AFT.pdf", lit "attestation", lit "attestation") /\
  aft docs = Some (lit "AH_AFT.pdf", lit "attestation", lit "attestation").
Proof.
  apply (single_file_both_roles (U := Latin.data) (lit "AH_AFT.pdf")
           (lit "attestation")); vm_compute; reflexivity.
Defined.

(** ** The subsidy amount of the frame against the form *)

Section Prime.
Context {U : UnicodeData}.

(** 3.a once both amounts are read: the finding depends on the binary64
    comparison [abs(cadre_val - prime_val) > 0.01] alone. *)
Lemma check_prime_compare (dossier : Dossier) (cadre_norm prime_str : str)
  (m : mstate) (prime_val cadre_val : float) :
  strip (match dict_get (lit "Prime CEE") (fields dossier) with
         | Some v => v
         | None => []
         end) = prime_str ->
  truthy prime_str = true ->
  py_float (replace (ch ",") [ch "."]
              (replace nbsp [] (replace (ch " ") [] prime_str)))
  = Ok prime_val ->
  search false re_prime cadre_norm = Some m ->
  py_float (replace (ch ",") [ch "."]
              (replace nbsp [] (replace (ch " ") [] (group 1 m))))
  = Ok cadre_val ->
  check_prime dossier cadre_norm
  = Ok (if PyNum.ltb f_0_01 (PyNum.abs (PyNum.sub cadre_val prime_val))
        then [CadreMontantDifferent (group 1 m) prime_str] else []).
Proof.
  intros Hs Ht Hp Hm Hc. unfold check_prime.
  rewrite Hs, Ht, Hp. unfold bind at 1. rewrite Hm, Hc. reflexivity.
Qed.

Lemma check_date_proposition_no_mismatch (cadre_norm : str)
  (dd : option date) :
  Forall (fun p => is_amount_mismatch p = false)
         (check_date_proposition cadre_norm dd).
Proof.
  unfold check_date_proposition. repeat break_match; repeat constructor.
Qed.

End Prime.

(** C3, as stated, fails: in scenario C the two amounts are one cent apart,
    which the comparison lets through; the verdict holds the six messages
    below and none is an amount mismatch. *)
Lemma scenario_c_reports_no_mismatch :
  dict_get (lit "Prime CEE") (fields (dossier_prime "2538,90"))
  = Some (lit "2538,90") /\
  In (lit "cadre.pdf", texte_prime_2538_91) lot_cadre_2538_91 /\
  contains (lit "une prime d un montant de 2538.91 euros")
    texte_prime_2538_91 = true /\
  analyze_homelior (U := Latin.data) (dossier_prime "2538,90")
    lot_cadre_2538_91
  = Ok (Verdict (lit "non_conforme")
          (map message [DevisAbsent; CadreDateAbsente; FactureAbsente;
                        BlAbsent; AhAbsente; AftAbsente])) /\
  existsb is_amount_mismatch
    (findings_of (findings (U := Latin.data) (dossier_prime "2538,90")
                    lot_cadre_2538_91)) = false.
Proof. vm_compute. repeat split; auto. Qed.

(** With "2538,90" on the form and "2538.91" read on the frame, no finding
    is an amount mismatch. *)
Lemma scenario_c_findings {U : UnicodeData}
  (dossier : Dossier) (pdf_texts : list (str * str)) (d : document)
  (m : mstate) (ps : list problem) :
  dict_get (lit "Prime CEE") (fields dossier) = Some (lit "2538,90") ->
  cadre (main_documents pdf_texts) = Some d ->
  search false re_prime (doc_norm d) = Some m ->
  group 1 m = lit "2538.91" ->
  findings dossier pdf_texts = Ok ps ->
  forall p, In p ps -> is_amount_mismatch p = false.
Proof.
  intros Hf Hc Hm Hg Hps p Hin.
  destruct (is_amount_mismatch p) eqn:Hk; [exfalso | reflexivity].
  destruct (findings_of_section _ _ _ Hps Hin) as [_ H3].
  destruct H3 as (p3 & Hr & Hin3); [now destruct p |].
  unfold rule_cadre in Hr. rewrite Hc in Hr.
  revert Hk. apply not_true_iff_false.
  eapply Forall_forall with (P := fun q => is_amount_mismatch q = false);
    [| exact Hin3].
  clear Hin Hin3 Hps.
  destruct (negb _).
  - unfold bind, ret in Hr. injection Hr as <-.
    constructor; [reflexivity |]. apply check_date_proposition_no_mismatch.
  - rewrite (@check_prime_compare U dossier (doc_norm d) (lit "2538,90") m
               (decimal_value false 253890 (-2))
               (decimal_value false 253891 (-2))) in Hr.
    + replace (PyNum.ltb _ _) with false in Hr by (vm_compute; reflexivity).
      unfold bind, ret in Hr. injection Hr as <-.
      apply check_date_proposition_no_mismatch.
    + rewrite Hf. vm_compute. reflexivity.
    + vm_compute. reflexivity.
    + vm_compute. reflexivity.
    + exact Hm.
    + rewrite Hg. vm_compute. reflexivity.
Qed.

(** C3, amended. When the form gives "2538,90" and the amount read after
    the phrase on the frame is "2538.91", the verdict holds no amount
    mismatch: the difference does not exceed 0.01. *)
Theorem scenario_c_within_tolerance {U : UnicodeData}
  (dossier : Dossier) (pdf_texts : list (str * str)) (d : document)
  (m : mstate) (v : verdict) :
  dict_get (lit "Prime CEE") (fields dossier) = Some (lit "2538,90") ->
  cadre (main_documents pdf_texts) = Some d ->
  search false re_prime (doc_norm d) = Some m ->
  group 1 m = lit "2538.91" ->
  analyze_homelior dossier pdf_texts = Ok v ->
  Forall (fun msg => ~ is_amount_mismatch_message msg) (problems v).
Proof.
  intros Hf Hc Hm Hg H. destruct (analyze_inv _ _ H) as (ps & Hfi & Hp & _).
  rewrite Hp. apply Forall_forall. intros msg Hin (a & b & ->).
  apply in_map_iff in Hin. destruct Hin as (p & Hmsg & Hin).
  apply message_amount_mismatch in Hmsg.
  pose proof (@scenario_c_findings U dossier pdf_texts d m ps Hf Hc Hm Hg Hfi
                p Hin) as F.
  congruence.
Qed.

Lemma scenario_c_within_tolerance_witness :
  Forall (fun msg => ~ is_amount_mismatch_message msg)
    (problems (verdict_of (analyze_homelior (U := Latin.data)
                             (dossier_prime "2538,90") lot_cadre_2538_91))).
Proof.
  apply (scenario_c_within_tolerance (U := Latin.data)
           (dossier_prime "2538,90") lot_cadre_2538_91
           (d := (lit "cadre.pdf", texte_prime_2538_91,
                  texte_prime_2538_91))
           (m := match_of (search (U := Latin.data) false re_prime
                             texte_prime_2538_91)));
    vm_compute; reflexivity.
Defined.

(** C2: the code at the boundary.  With 1.01 on the frame and "1.00" on
    the form the two amounts are exactly one cent apart, yet the binary64
    difference is above the binary64 value of 0.01 and the mismatch is
    reported; with 2538.91 and "2538,90", one cent apart as well, it is
    not. *)
Theorem one_cent_apart_flagged_or_not :
  PyNum.ltb f_0_01
    (PyNum.abs (PyNum.sub (decimal_value false 101 (-2))
                  (decimal_value false 100 (-2)))) = true /\
  analyze_homelior (U := Latin.data) (dossier_prime "1.00") lot_cadre_1_01
  = Ok (Verdict (lit "non_conforme")
          (map message
             [DevisAbsent; CadreMontantDifferent (lit "1.01") (lit "1.00");
              CadreDateAbsente; FactureAbsente; BlAbsent; AhAbsente;
              AftAbsente])) /\
  existsb is_amount_mismatch
    (findings_of (findings (U := Latin.data) (dossier_prime "2538,90")
                    lot_cadre_2538_91)) = false.
Proof. vm_compute. repeat split. Qed.

(** ** Normalisation *)

Section Normalize.
Context {U : UnicodeData}.

(** *** Where the characters of each step come from *)

Lemma in_insert_mark (c x : codepoint) (acc : str) :
  In x (insert_mark c acc) -> x = c \/ In x acc.
Proof.
  induction acc as [| p r IH]; simpl.
  - intros [-> | []]. now left.
  - destruct (combining c <? combining p)%N; simpl.
    + intros [-> | H]; [right; now left |].
      destruct (IH H) as [-> | Hr]; [now left | right; now right].
    + intros [-> | H]; [now left | now right].
Qed.

Lemma in_canonical_order (x : codepoint) (s : str) :
  In x (canonical_order s) -> In x s.
Proof.
  unfold canonical_order. rewrite <- in_rev.
  assert (G : forall acc,
             In x (fold_left
                     (fun acc c => if (combining c =? 0)%N then c :: acc
                                   else insert_mark c acc) s acc) ->
             In x s \/ In x acc).
  { induction s as [| c t IH]; simpl; intros acc H; [now right |].
    apply IH in H. destruct H as [H | H]; [left; now right |].
    destruct (combining c =? 0)%N.
    - destruct H as [-> | H]; [left; now left | now right].
    - apply in_insert_mark in H.
      destruct H as [-> | H]; [left; now left | now right]. }
  intros H. now destruct (G _ H).
Qed.

Lemma in_lower_from (y : codepoint) (before s : str) :
  In y (lower_from before s) ->
  (exists x, In x s /\ x <> capital_sigma /\ In y (lower_full x))
  \/ y = small_sigma \/ y = small_final_sigma.
Proof.
  revert before. induction s as [| c t IH]; simpl; intros before H; [easy |].
  apply in_app_or in H. destruct H as [H | H].
  - destruct (c =? capital_sigma)%N eqn:E.
    + right. destruct H as [<- | []]. unfold handle_capital_sigma.
      repeat break_match; auto.
    + left. exists c. apply N.eqb_neq in E. auto.
  - destruct (IH _ H) as [(x & Hx & Hn & Hy) | Hs]; [| now right].
    left. exists x. auto.
Qed.

Lemma in_replace (y old : codepoint) (new s : str) :
  In y (replace old new s) -> In y new \/ (In y s /\ y <> old).
Proof.
  unfold replace. rewrite in_flat_map. intros (c & Hc & Hy).
  destruct (c =? old)%N eqn:E; [now left |].
  destruct Hy as [<- | []]. apply N.eqb_neq in E. now right.
Qed.

Lemma in_sub_spaces_from (y : codepoint) (b : bool) (s : str) :
  In y (sub_spaces_from b s) ->
  y = ch " " \/ (In y s /\ isspace y = false).
Proof.
  revert b. induction s as [| c t IH]; simpl; intros b H; [easy |].
  destruct (isspace c) eqn:E.
  - destruct b.
    + destruct (IH _ H) as [-> | [Hy Hs]]; [now left | right; auto].
    + destruct H as [<- | H]; [now left |].
      destruct (IH _ H) as [-> | [Hy Hs]]; [now left | right; auto].
  - destruct H as [<- | H]; [right; auto |].
    destruct (IH _ H) as [-> | [Hy Hs]]; [now left | right; auto].
Qed.

Lemma lstrip_suffix (s : str) : exists p, s = p ++ lstrip s.
Proof.
  induction s as [| c t [p IH]]; simpl; [now exists [] |].
  destruct (isspace c).
  - exists (c :: p). simpl. now rewrite <- IH.
  - now exists [].
Qed.

Lemma rstrip_prefix (s : str) : exists t, s = rstrip s ++ t.
Proof.
  unfold rstrip. destruct (lstrip_suffix (rev s)) as [p Hp].
  exists (rev p). rewrite <- rev_app_distr, <- Hp. now rewrite rev_involutive.
Qed.

Lemma in_strip (y : codepoint) (s : str) : In y (strip s) -> In y s.
Proof.
  unfold strip. intros H.
  destruct (rstrip_prefix (lstrip s)) as [t Ht].
  destruct (lstrip_suffix s) as [p Hp].
  rewrite Hp, Ht. apply in_or_app. right. apply in_or_app. now left.
Qed.

(** *** Text the steps leave alone *)

Lemma flat_map_decomposition_stable (s : str) :
  Forall stable s -> flat_map decomposition s = s.
Proof.
  induction 1 as [| c t (Hd & _) _ IH]; simpl; [easy |].
  now rewrite Hd, IH.
Qed.

Lemma canonical_order_starters (s : str) :
  Forall (fun c => combining c = 0%N) s -> canonical_order s = s.
Proof.
  unfold canonical_order. intros H.
  assert (G : forall acc,
             fold_left
               (fun acc c => if (combining c =? 0)%N then c :: acc
                             else insert_mark c acc) s acc
             = rev s ++ acc).
  { induction H as [| c t Hc _ IH]; simpl; intros acc; [easy |].
    rewrite Hc. simpl. rewrite IH, <- app_assoc. reflexivity. }
  rewrite G, app_nil_r. apply rev_involutive.
Qed.

Lemma nfkd_stable (s : str) : Forall stable s -> nfkd s = s.
Proof.
  intros H. unfold nfkd. rewrite (flat_map_decomposition_stable H).
  apply canonical_order_starters.
  eapply Forall_impl; [| exact H]. now intros c (_ & Hc & _).
Qed.

Lemma filter_starters_stable (s : str) :
  Forall stable s -> filter (fun c => (combining c =? 0)%N) s = s.
Proof.
  induction 1 as [| c t (_ & Hc & _) _ IH]; simpl; [easy |].
  now rewrite Hc, IH.
Qed.

Lemma lower_stable_text (s : str) : Forall stable s -> lower s = s.
Proof.
  unfold lower. generalize (@nil codepoint) as before.
  induction s as [| c t IH]; simpl; intros before H; [easy |].
  inversion H as [| ? ? (_ & _ & Hl & Hs) Ht]; subst.
  apply N.eqb_neq in Hs. rewrite Hs, Hl. simpl. now rewrite IH.
Qed.

Lemma replace_absent (old : codepoint) (new s : str) :
  Forall (fun c => c <> old) s -> replace old new s = s.
Proof.
  unfold replace. induction 1 as [| c t Hc _ IH]; simpl; [easy |].
  apply N.eqb_neq in Hc. now rewrite Hc, IH.
Qed.

(** *** Collapsed whitespace *)

Lemma collapsed_any (b : bool) (s : str) :
  collapsed_from b s -> collapsed_from false s.
Proof.
  destruct s as [| c t]; simpl; [easy |].
  destruct (isspace c); [| easy]. intros (Hc & _ & Ht). auto.
Qed.

Lemma sub_spaces_from_collapsed (b : bool) (s : str) :
  collapsed_from b (sub_spaces_from b s).
Proof.
  revert b. induction s as [| c t IH]; simpl; intros b; [easy |].
  destruct (isspace c) eqn:E.
  - destruct b; [apply IH |].
    change (collapsed_from false (ch " " :: sub_spaces_from true t)).
    simpl. auto.
  - simpl. rewrite E. apply IH.
Qed.

Lemma sub_spaces_from_fixed (b : bool) (s : str) :
  collapsed_from b s -> sub_spaces_from b s = s.
Proof.
  revert b. induction s as [| c t IH]; simpl; intros b H; [easy |].
  destruct (isspace c) eqn:E.
  - destruct H as (-> & -> & Ht). now rewrite (IH _ Ht).
  - now rewrite (IH _ H).
Qed.

Lemma collapsed_prefix (b : bool) (s t : str) :
  collapsed_from b (s ++ t) -> collapsed_from b s.
Proof.
  revert b. induction s as [| c r IH]; simpl; intros b H; [easy |].
  destruct (isspace c).
  - destruct H as (Hc & Hb & Hr). eauto.
  - eauto.
Qed.

Lemma collapsed_suffix (b : bool) (s t : str) :
  collapsed_from b (s ++ t) -> collapsed_from false t.
Proof.
  revert b. induction s as [| c r IH]; simpl; intros b H.
  - now apply collapsed_any in H.
  - destruct (isspace c).
    + destruct H as (_ & _ & Hr). eauto.
    + eauto.
Qed.

Lemma strip_collapsed (s : str) :
  collapsed_from false s -> collapsed_from false (strip s).
Proof.
  intros H. unfold strip.
  destruct (lstrip_suffix s) as [p Hp].
  destruct (rstrip_prefix (lstrip s)) as [t Ht].
  rewrite Hp in H. apply collapsed_suffix in H.
  rewrite Ht in H. now apply collapsed_prefix in H.
Qed.

(** *** Stripping twice *)

Lemma lstrip_no_lead (s : str) :
  match s with c :: _ => isspace c = false | [] => True end ->
  lstrip s = s.
Proof. destruct s as [| c t]; simpl; [easy |]. now intros ->. Qed.

Lemma lstrip_head (s : str) :
  match lstrip s with c :: _ => isspace c = false | [] => True end.
Proof.
  induction s as [| c t IH]; simpl; [easy |].
  destruct (isspace c) eqn:E; [exact IH | exact E].
Qed.

Lemma lstrip_idem (s : str) : lstrip (lstrip s) = lstrip s.
Proof. apply lstrip_no_lead, lstrip_head. Qed.

Lemma rstrip_idem (s : str) : rstrip (rstrip s) = rstrip s.
Proof.
  unfold rstrip. now rewrite rev_involutive, lstrip_idem.
Qed.

(** Dropping trailing spaces keeps a first character that is no space. *)
Lemma rstrip_head (s : str) :
  match s with c :: _ => isspace c = false | [] => True end ->
  match rstrip s with c :: _ => isspace c = false | [] => True end.
Proof.
  destruct s as [| c t]; [easy |]. intros Hc.
  unfold rstrip. simpl rev.
  assert (G : forall r : str,
             exists q, lstrip (r ++ [c]) = q ++ [c]).
  { induction r as [| x r [q IH]]; simpl.
    - rewrite Hc. now exists [].
    - destruct (isspace x); [now exists q |].
      now exists (x :: r). }
  destruct (G (rev t)) as [q ->]. rewrite rev_app_distr. simpl. exact Hc.
Qed.

Lemma strip_idem (s : str) : strip (strip s) = strip s.
Proof.
  unfold strip at 1.
  assert (E : lstrip (strip s) = strip s).
  { apply lstrip_no_lead. unfold strip. apply rstrip_head, lstrip_head. }
  rewrite E. unfold strip. apply rstrip_idem.
Qed.

End Normalize.

Section Idempotence.
Context {U : UnicodeData} {L : UnicodeLaws}.

Lemma stable_space : stable (ch " ").
Proof. repeat split. discriminate. Qed.

(** The characters of a normalised text. *)
Lemma normalize_chars (x : str) (y : codepoint) :
  In y (_normalize x) -> stable y /\ y <> nbsp.
Proof.
  unfold _normalize. destruct (negb (truthy x)); [intros [] |].
  intros H. apply in_strip in H. apply in_sub_spaces_from in H.
  destruct H as [-> | [H _]]; [split; [apply stable_space | discriminate] |].
  apply in_replace in H.
  destruct H as [[<- | []] | [H Hn]];
    [split; [apply stable_space | discriminate] |].
  split; [| exact Hn].
  apply in_lower_from in H.
  destruct H as [(c & Hc & Hs & Hy) | [-> | ->]];
    [| apply sigma_stable | apply sigma_stable].
  apply filter_In in Hc. destruct Hc as [Hc Hz].
  apply N.eqb_eq in Hz.
  apply in_canonical_order in Hc. apply in_flat_map in Hc.
  destruct Hc as (z & _ & Hd).
  eapply lower_stable;
    [eapply decomposition_full; exact Hd | exact Hz | exact Hs | exact Hy].
Qed.

Lemma normalize_collapsed (x : str) : collapsed_from false (_normalize x).
Proof.
  unfold _normalize. destruct (negb (truthy x)); [exact I |].
  apply strip_collapsed. unfold sub_spaces.
  apply sub_spaces_from_collapsed.
Qed.

Lemma normalize_stripped (x : str) : strip (_normalize x) = _normalize x.
Proof.
  unfold _normalize. destruct (negb (truthy x)); [reflexivity |].
  apply strip_idem.
Qed.

(** A text with these four properties is left as it is. *)
Lemma normalize_fixed (c : str) :
  Forall stable c -> Forall (fun y => y <> nbsp) c ->
  collapsed_from false c -> strip c = c ->
  _normalize c = c.
Proof.
  intros Hs Hn Hc Ht. unfold _normalize.
  destruct c as [| a t]; [reflexivity |]. simpl truthy. cbv iota beta.
  change (negb true) with false. cbv iota.
  rewrite (nfkd_stable Hs), (filter_starters_stable Hs),
    (lower_stable_text Hs), (replace_absent _ Hn).
  unfold sub_spaces. rewrite (sub_spaces_from_fixed _ _ Hc). exact Ht.
Qed.

End Idempotence.

(** C8. Normalising twice gives what normalising once gives, on every
    string, over any Unicode database that has the stated properties:
    full decompositions decompose no further, and lower-casing a decomposed
    base character yields characters the first steps leave alone. *)
Theorem normalize_idempotent {U : UnicodeData} (L : UnicodeLaws)
  (x : str) :
  _normalize (_normalize x) = _normalize x.
Proof.
  apply normalize_fixed.
  - apply Forall_forall. intros y Hy. now apply normalize_chars in Hy.
  - apply Forall_forall. intros y Hy. now apply normalize_chars in Hy.
  - apply normalize_collapsed.
  - apply normalize_stripped.
Qed.

(** ** The database of [Latin] has the stated properties *)

Lemma str_eqb_eq (a b : str) : Str.eqb a b = true -> a = b.
Proof. unfold Str.eqb. now destruct (list_eq_dec N.eq_dec a b). Qed.

Lemma ascii_tolower_stable {U : UnicodeData} (c : codepoint) :
  is_ascii c = true -> stable (ascii_tolower c).
Proof.
  unfold stable, decomposition, combining, lower_full, ascii_tolower,
    ascii_upper, between, is_ascii, capital_sigma.
  intros Hc. apply N.ltb_lt in Hc.
  destruct ((65 <=? c)%N && (c <=? 90)%N) eqn:E.
  - apply andb_prop in E. destruct E as [E1 E2].
    apply N.leb_le in E1, E2.
    assert (A : (c + 32 <? 128)%N = true) by (apply N.ltb_lt; lia).
    assert (B : ((65 <=? c + 32)%N && (c + 32 <=? 90)%N) = false).
    { apply andb_false_iff. right. apply N.leb_gt. lia. }
    rewrite A, B. repeat split. lia.
  - assert (A : (c <? 128)%N = true) by (apply N.ltb_lt; lia).
    rewrite A, E. repeat split. lia.
Qed.

Module LatinLaws.
Import Latin LatinCheck.

Lemma find_in (c : codepoint) (e : entry) (t : list (codepoint * entry)) :
  find c t = Some e -> In (c, e) t.
Proof.
  induction t as [| [c' e'] r IH]; simpl; [discriminate |].
  destruct (c' =? c)%N eqn:E.
  - intros H. injection H as ->. apply N.eqb_eq in E. subst. now left.
  - intros H. right. auto.
Qed.

Lemma table_checked : forallb check_entry table = true.
Proof. vm_compute. reflexivity. Qed.

Lemma entry_checked (c : codepoint) (e : entry) :
  find c table = Some e -> check_entry (c, e) = true.
Proof.
  intros H. apply find_in in H.
  pose proof table_checked as T. rewrite forallb_forall in T. auto.
Qed.

Lemma stableb_stable (c : codepoint) :
  stableb c = true -> stable (U := data) c.
Proof.
  unfold stableb, stable. intros H.
  repeat (apply andb_prop in H; destruct H as [H ?]).
  repeat split; try now apply str_eqb_eq.
  - now apply N.eqb_eq.
  - intros ->. discriminate.
Qed.

Lemma laws : UnicodeLaws (U := data).
Proof.
  split.
  - (* decomposition_full *)
    intros c y. unfold decomposition at 1.
    destruct (is_ascii c) eqn:A.
    + intros [<- | []]. unfold decomposition. now rewrite A.
    + simpl. unfold entry_of. destruct (find c table) as [e |] eqn:F.
      * intros Hy. apply entry_checked in F. unfold check_entry in F.
        apply andb_prop in F. destruct F as [F _].
        apply andb_prop in F. destruct F as [F _].
        rewrite forallb_forall in F. now apply str_eqb_eq, F.
      * simpl. intros [<- | []]. unfold decomposition. rewrite A. simpl.
        unfold entry_of. now rewrite F.
  - (* lower_stable *)
    intros c y. unfold decomposition, combining, lower_full.
    destruct (is_ascii c) eqn:A.
    + intros _ _ _ [<- | []]. now apply ascii_tolower_stable.
    + simpl. unfold entry_of. destruct (find c table) as [e |] eqn:F.
      * intros Hd Hc Hs Hy. apply entry_checked in F.
        unfold check_entry in F.
        apply andb_prop in F. destruct F as [F _].
        apply andb_prop in F. destruct F as [_ F].
        rewrite Hd, Hc in F. unfold Str.eqb in F.
        destruct (list_eq_dec N.eq_dec [c] [c]); [| congruence].
        apply N.eqb_neq in Hs. rewrite Hs in F. simpl in F.
        rewrite forallb_forall in F. now apply stableb_stable, F.
      * simpl. intros _ _ Hs [<- | []].
        unfold stable, decomposition, combining, lower_full. rewrite A.
        simpl. unfold entry_of. rewrite F. simpl. auto.
  - (* sigma_stable *)
    split; apply stableb_stable; vm_compute; reflexivity.
  - (* decimal_below_ten *)
    intros c v. unfold decimal. destruct (is_ascii c) eqn:A.
    + unfold ascii_digit, between.
      destruct ((48 <=? c)%N && (c <=? 57)%N) eqn:E; [| discriminate].
      apply andb_prop in E. destruct E as [E1 E2].
      apply N.leb_le in E1, E2. intros H. injection H as <-. lia.
    + simpl. unfold entry_of. destruct (find c table) as [e |] eqn:F.
      * intros Hv. apply entry_checked in F. unfold check_entry in F.
        apply andb_prop in F. destruct F as [_ F]. rewrite Hv in F.
        now apply N.ltb_lt.
      * discriminate.
Qed.

End LatinLaws.

Lemma normalize_idempotent_witness :
  _normalize (U := Latin.data)
    (_normalize (U := Latin.data) (lit "  Déjà   VU ! "))
  = _normalize (U := Latin.data) (lit "  Déjà   VU ! ").
Proof.
  exact (normalize_idempotent LatinLaws.laws (lit "  Déjà   VU ! ")).
Defined.

(** ** The matcher reads words of the pattern *)

Section MatcherSound.
Context {U : UnicodeData}.
Variable ic : bool.


End MatcherSound.

Section Captures.
Context {U : UnicodeData}.
Variable ic : bool.

Lemma search_from_sound (r : regex) (s : str) :
  forall prev res,
    search_from ic r prev s = Some res ->
    exists prev' p s', s = p ++ s' /\ match_here ic r prev' s' = Some res.
Proof.
  induction s as [| x t IH]; intros prev res H; simpl in H.
  - destruct (match_here ic r prev []) eqn:M; [| discriminate].
    injection H as ->. now exists prev, [], [].
  - destruct (match_here ic r prev (x :: t)) eqn:M.
    + injection H as ->. now exists prev, [], (x :: t).
    + apply IH in H. destruct H as (prev' & p & s' & -> & H).
      now exists prev', (x :: p), s'.
Qed.

Lemma taken_exact (st st' : mstate) (w : str) :
  m_rest st = w ++ m_rest st' -> taken st st' = w.
Proof.
  unfold taken. intros ->. rewrite length_app, Nat.add_sub.
  rewrite firstn_app, firstn_all, Nat.sub_diag. simpl. apply app_nil_r.
Qed.




End Captures.

(** ** A captured amount is a number for [float] *)







Section Amounts.
Context {U : UnicodeData} {L : UnicodeLaws}.




End Amounts.

Section Readable.
Context {U : UnicodeData} {L : UnicodeLaws}.

Lemma collapsed_spaces (b : bool) (s : str) (x : codepoint) :
  collapsed_from b s -> In x s -> isspace x = true -> x = ch " ".
Proof.
  revert b. induction s as [| c t IH]; simpl; intros b H Hin Hx; [easy |].
  destruct Hin as [-> | Hin].
  - rewrite Hx in H. now destruct H.
  - destruct (isspace c); [destruct H as (_ & _ & H) |]; eauto.
Qed.











End Readable.

Section NeverUnreadable.
Context {U : UnicodeData} {L : UnicodeLaws}.






End NeverUnreadable.



(** * Further properties of [homelior_rules.py] *)

(** ** [_normalize] *)

Section NormalizeShape.
Context {U : UnicodeData}.

Lemma collapsed_no_double (b : bool) (p t : str) :
  ~ collapsed_from b (p ++ ch " " :: ch " " :: t).
Proof.
  intros H. apply collapsed_suffix in H. simpl in H.
  destruct H as (_ & _ & _ & H & _). discriminate H.
Qed.

Lemma normalize_lstripped (x : str) : lstrip (_normalize x) = _normalize x.
Proof.
  unfold _normalize. destruct (negb (truthy x)); [reflexivity |].
  apply lstrip_no_lead. unfold strip. apply rstrip_head, lstrip_head.
Qed.

Lemma normalize_rstripped (x : str) : rstrip (_normalize x) = _normalize x.
Proof.
  unfold _normalize. destruct (negb (truthy x)); [reflexivity |].
  unfold strip. apply rstrip_idem.
Qed.

(** The first steps of [_normalize] leave ASCII blanks alone. *)
Lemma ascii_blank_stable (c : codepoint) :
  is_ascii c = true -> isspace c = true -> stable c /\ c <> nbsp.
Proof.
  intros A S. unfold isspace in S. rewrite A in S.
  assert (B : (c <= 32)%N).
  { unfold between in S. apply orb_prop in S.
    destruct S as [S | S]; apply andb_prop in S; destruct S as [_ S];
      apply N.leb_le in S; lia. }
  assert (Up : ascii_upper c = false).
  { unfold ascii_upper, between. apply andb_false_iff. left.
    apply N.leb_gt. lia. }
  unfold stable, decomposition, combining, lower_full, ascii_tolower,
    capital_sigma, nbsp.
  rewrite A, Up. repeat split; lia.
Qed.

Lemma sub_spaces_blank (s : str) :
  Forall (fun c => isspace c = true) s -> sub_spaces_from true s = [].
Proof.
  induction 1 as [| c t Hc _ IH]; simpl; [reflexivity |]. now rewrite Hc.
Qed.

End NormalizeShape.

(** X1. In a normalised text every whitespace character is an ASCII
    space, no two spaces follow each other, and the text neither starts nor
    ends with one. *)
Theorem normalize_spacing {U : UnicodeData} (x : str) :
  (forall c, In c (_normalize x) -> isspace c = true -> c = ch " ") /\
  (forall p t, _normalize x <> p ++ ch " " :: ch " " :: t) /\
  lstrip (_normalize x) = _normalize x /\
  rstrip (_normalize x) = _normalize x.
Proof.
  repeat split.
  - intros c. apply collapsed_spaces with (b := false).
    apply normalize_collapsed.
  - intros p t E. apply (@collapsed_no_double U false p t).
    rewrite <- E. apply normalize_collapsed.
  - apply normalize_lstripped.
  - apply normalize_rstripped.
Qed.

(** X2. Over a Unicode database with the stated properties, a normalised
    text holds base characters only (combining class 0, no further
    decomposition), no no-break space, and lower-casing leaves it as it
    is. *)
Theorem normalize_base_characters {U : UnicodeData} (L : UnicodeLaws)
  (x : str) :
  Forall (fun c => combining c = 0%N /\ decomposition c = [c] /\ c <> nbsp)
         (_normalize x) /\
  lower (_normalize x) = _normalize x.
Proof.
  split.
  - apply Forall_forall. intros c Hc. apply normalize_chars in Hc.
    destruct Hc as [(Hd & Hz & _) Hn]. auto.
  - apply lower_stable_text. apply Forall_forall. intros c Hc.
    now apply normalize_chars in Hc.
Qed.

Lemma normalize_base_characters_witness :
  Forall (fun c => combining (U := Latin.data) c = 0%N
                   /\ decomposition (U := Latin.data) c = [c] /\ c <> nbsp)
         (_normalize (U := Latin.data) (lit "  Déjà   VU ! ")) /\
  lower (U := Latin.data) (_normalize (U := Latin.data) (lit "  Déjà   VU ! "))
  = _normalize (U := Latin.data) (lit "  Déjà   VU ! ").
Proof.
  exact (normalize_base_characters LatinLaws.laws (lit "  Déjà   VU ! ")).
Defined.

(** X3. A text made of ASCII blanks only (spaces, tabs, line ends), like
    the empty text, normalises to the empty string. *)
Theorem normalize_blank {U : UnicodeData} (x : str) :
  Forall (fun c => is_ascii c = true /\ isspace c = true) x ->
  _normalize x = [].
Proof.
  intros H. unfold _normalize. destruct x as [| a t]; [reflexivity |].
  simpl truthy. change (negb true) with false. cbv iota.
  assert (Hs : Forall stable (a :: t)).
  { eapply Forall_impl; [| exact H]. intros c [A S].
    now apply ascii_blank_stable. }
  assert (Hn : Forall (fun c => c <> nbsp) (a :: t)).
  { eapply Forall_impl; [| exact H]. intros c [A S].
    now apply ascii_blank_stable. }
  rewrite (nfkd_stable Hs), (filter_starters_stable Hs),
    (lower_stable_text Hs), (replace_absent _ Hn).
  inversion H as [| ? ? [_ Sa] Ht]; subst.
  unfold sub_spaces. simpl. rewrite Sa.
  rewrite sub_spaces_blank.
  - reflexivity.
  - eapply Forall_impl; [| exact Ht]. now intros c [_ S].
Qed.

Lemma normalize_blank_witness :
  _normalize (U := Latin.data) texte_blanc = [].
Proof.
  apply (@normalize_blank Latin.data texte_blanc).
  repeat constructor.
Defined.

(** ** [_parse_date] and the quote window *)

(** X4. [_parse_date] returns real calendar dates only: a year from 1 to
    9999, a month from 1 to 12 and a day that exists in that month. *)
Theorem parse_date_is_calendar_date {U : UnicodeData} (s : str) (d : date) :
  _parse_date s = Some d ->
  (1 <= year d <= 9999 /\ 1 <= month d <= 12
   /\ 1 <= day d <= days_in_month (year d) (month d))%Z.
Proof.
  unfold _parse_date, or_none, strptime_dmy.
  destruct (match_here true re_dmy None s) as [found |]; [| discriminate].
  destruct (m_rest found); [| discriminate].
  destruct (py_int (group 3 found)) as [y | e]; [| discriminate].
  destruct (py_int (group 2 found)) as [m | e]; [| discriminate].
  destruct (py_int (group 1 found)) as [dd | e]; [| discriminate].
  unfold bind, make_date.
  destruct ((1 <=? y) && (y <=? 9999) && (1 <=? m) && (m <=? 12)
            && (1 <=? dd) && (dd <=? days_in_month y m))%Z eqn:E;
    [| discriminate].
  intros H. injection H as <-. simpl.
  repeat (apply andb_prop in E; destruct E as [E ?]).
  repeat match goal with
         | H : (_ <=? _)%Z = true |- _ => apply Z.leb_le in H
         end.
  lia.
Qed.

Lemma parse_date_is_calendar_date_witness :
  (1 <= 2024 <= 9999 /\ 1 <= 2 <= 12 /\ 1 <= 29 <= days_in_month 2024 2)%Z.
Proof.
  apply (@parse_date_is_calendar_date Latin.data (lit "29/02/2024")
           (Date 2024 2 29)).
  vm_compute. reflexivity.
Defined.

(** X5. A resolved quote date raises no finding exactly when it lies in
    2024, in January or up to the 28th of February; any other date, the
    29th of February 2024 among them, is reported outside the window. *)
Theorem quote_window_bounds (d : date) :
  (1 <= month d)%Z -> (1 <= day d)%Z ->
  check_date_devis (Some d)
  = if in_quote_window d then [] else [DevisDateHorsFenetre d].
Proof.
  destruct d as [y m dd]. cbn [year month day]. intros Hm Hd.
  unfold check_date_devis, in_quote_window, PyDate.leb.
  cbn [year month day].
  destruct (Z.ltb_spec 2024 y), (Z.ltb_spec y 2024),
    (Z.eqb_spec 2024 y), (Z.eqb_spec y 2024),
    (Z.ltb_spec 1 m), (Z.ltb_spec m 2),
    (Z.eqb_spec 1 m), (Z.eqb_spec m 1),
    (Z.eqb_spec m 2), (Z.leb_spec 1 dd),
    (Z.leb_spec dd 28); cbn [negb andb orb]; try reflexivity; lia.
Qed.

Lemma quote_window_bounds_witness :
  check_date_devis (Some (Date 2024 2 29))
  = [DevisDateHorsFenetre (Date 2024 2 29)].
Proof.
  apply (quote_window_bounds (Date 2024 2 29)); simpl; lia.
Defined.

(** ** [_find_doc_by_name] *)

(** X6. [_find_doc_by_name] returns the first file, in the order of the
    bundle, whose lower-cased name holds every keyword, with its text and
    the normalised text; it returns [None] exactly when no file does. *)
Theorem find_doc_first_match {U : UnicodeData}
  (pdf_texts : list (str * str)) (keywords : list str) :
  let hit name := forallb (fun k => contains k (lower name)) keywords in
  match _find_doc_by_name pdf_texts keywords with
  | Some (name, content, norm) =>
    exists before after,
      pdf_texts = before ++ (name, content) :: after /\
      hit name = true /\
      norm = _normalize content /\
      Forall (fun nc => hit (fst nc) = false) before
  | None => Forall (fun nc => hit (fst nc) = false) pdf_texts
  end.
Proof.
  cbv zeta. induction pdf_texts as [| [n c] rest IH]; simpl; [constructor |].
  destruct (forallb (fun k => contains k (lower n)) keywords) eqn:E.
  - exists [], rest. auto.
  - destruct (_find_doc_by_name rest keywords) as [[[name content] norm] |].
    + destruct IH as (before & after & -> & Hh & Hn & Hb).
      exists ((n, c) :: before), after. repeat split; auto.
    + constructor; auto.
Qed.

(** ** The list of problems of [analyze_homelior] *)

Section Problems.
Context {U : UnicodeData}.

Lemma check_prix_length (devis_norm : str) (ps : list problem) :
  check_prix devis_norm = Ok ps -> (List.length ps <= 1)%nat.
Proof.
  unfold check_prix.
  destruct (contains _ devis_norm);
    [| intros H; injection H as <-; simpl; lia].
  destruct (search false re_prix devis_norm) as [m |];
    [| intros H; injection H as <-; simpl; lia].
  destruct (py_float _) as [v | []]; simpl.
  - destruct (negb _); intros H; injection H as <-; simpl; lia.
  - intros H; injection H as <-; simpl; lia.
Qed.

Lemma check_prime_length (dossier : Dossier) (cadre_norm : str)
  (ps : list problem) :
  check_prime dossier cadre_norm = Ok ps -> (List.length ps <= 1)%nat.
Proof.
  unfold check_prime.
  destruct (truthy _); [| intros H; injection H as <-; simpl; lia].
  destruct (py_float _) as [prime_val | []]; simpl;
    [| intros H; injection H as <-; simpl; lia].
  destruct (search false re_prime cadre_norm) as [m |]; simpl;
    [| intros H; injection H as <-; simpl; lia].
  destruct (py_float _) as [cadre_val | []]; simpl;
    [| intros H; injection H as <-; simpl; lia].
  destruct (PyNum.ltb _ _); intros H; injection H as <-; simpl; lia.
Qed.

Lemma rule_devis_length (docs : documents) (ds : dates) (ps : list problem) :
  rule_devis docs ds = Ok ps -> (List.length ps <= 5)%nat.
Proof.
  unfold rule_devis. destruct (devis docs) as [d |];
    [| intros H; injection H as <-; simpl; lia].
  destruct (check_prix (doc_norm d)) as [pc | e] eqn:Hc; [| discriminate].
  apply check_prix_length in Hc. unfold bind, ret.
  intros H. injection H as <-. rewrite !length_app.
  assert (A : forall (b : bool) (p : problem),
             (List.length (if b then [p] else []) <= 1)%nat)
    by (intros [] p; simpl; lia).
  pose proof (A (negb (found (search false re_entete_devis (doc_norm d))))
                DevisEnTete).
  pose proof (A (negb (has_eclairage_ambiance_global (doc_norm d)
                         (facture docs) (ah docs))) DevisTypeEclairage).
  pose proof (A (negb (has_reste_a_payer (doc_norm d))) DevisResteAPayer).
  assert (D : (List.length (check_date_devis (date_devis ds)) <= 1)%nat).
  { unfold check_date_devis. repeat break_match; simpl; lia. }
  lia.
Qed.

Lemma rule_cadre_length (dossier : Dossier) (docs : documents) (ds : dates)
  (ps : list problem) :
  rule_cadre dossier docs ds = Ok ps -> (List.length ps <= 2)%nat.
Proof.
  unfold rule_cadre. destruct (cadre docs) as [d |];
    [| intros H; injection H as <-; simpl; lia].
  assert (D : (List.length (check_date_proposition (doc_norm d)
                              (date_devis ds)) <= 1)%nat).
  { unfold check_date_proposition. repeat break_match; simpl; lia. }
  destruct (negb _).
  - unfold bind, ret. intros H. injection H as <-.
    cbn [List.length app]. lia.
  - destruct (check_prime dossier (doc_norm d)) as [pa | e] eqn:Hp;
      [| discriminate].
    apply check_prime_length in Hp. unfold bind, ret.
    intros H. injection H as <-. rewrite length_app. lia.
Qed.

Lemma rule_aft_length (docs : documents) (ds : dates) :
  (List.length (rule_aft docs ds) <= 2)%nat.
Proof.
  unfold rule_aft. repeat break_match; rewrite ?length_app; simpl; lia.
Qed.

(** Blocks of findings, each of one section, numbered upwards, make a list
    sorted by section. *)
Lemma sorted_block (k : nat) (a b : list problem) :
  Forall (fun p => section_of p = k) a ->
  Forall (fun p => (k <= section_of p)%nat) b ->
  StronglySorted (fun p q => (section_of p <= section_of q)%nat) b ->
  StronglySorted (fun p q => (section_of p <= section_of q)%nat) (a ++ b).
Proof.
  intros Ha Hb Sb. induction Ha as [| p t Hp Ht IH]; simpl; [exact Sb |].
  apply SSorted_cons; [exact IH |]. apply Forall_app_intro.
  - eapply Forall_impl; [| exact Ht]. simpl. intros q Hq. lia.
  - eapply Forall_impl; [| exact Hb]. simpl. intros q Hq. lia.
Qed.

Lemma section_at_least (k n : nat) (l : list problem) :
  (k <= n)%nat -> Forall (fun p => section_of p = n) l ->
  Forall (fun p => (k <= section_of p)%nat) l.
Proof.
  intros Hk H. eapply Forall_impl; [| exact H]. simpl. intros p Hp. lia.
Qed.

Ltac at_least :=
  repeat first
    [ solve [eapply section_at_least; [| eassumption]; lia]
    | apply Forall_app_intro ].

Lemma findings_sorted (dossier : Dossier) (pdf_texts : list (str * str))
  (ps : list problem) :
  findings dossier pdf_texts = Ok ps ->
  StronglySorted (fun p q => (section_of p <= section_of q)%nat) ps.
Proof.
  intros H. destruct (findings_inv _ _ H) as (p2 & p3 & H2 & H3 & ->).
  cbv zeta in H2, H3.
  pose proof (rule_devis_section _ _ H2) as S2.
  pose proof (rule_cadre_section _ _ _ H3) as S3.
  set (docs := main_documents pdf_texts) in *.
  set (ds := reference_dates docs) in *.
  pose proof (rule_facture_section docs) as S4.
  pose proof (rule_bl_section docs ds) as S5.
  pose proof (rule_ah_section docs) as S6.
  pose proof (rule_aft_section docs ds) as S7.
  apply (sorted_block S2);
    [at_least |].
  apply (sorted_block S3);
    [at_least |].
  apply (sorted_block S4);
    [at_least |].
  apply (sorted_block S5);
    [at_least |].
  apply (sorted_block S6); [at_least |].
  rewrite <- (app_nil_r (rule_aft docs ds)).
  apply (sorted_block S7); constructor.
Qed.

End Problems.


(** ** The verdict as a whole *)

Section Whole.
Context {U : UnicodeData}.

Lemma analyze_of_findings (dossier : Dossier) (pdf_texts : list (str * str)) :
  exists v ps,
    analyze_homelior dossier pdf_texts = Ok v /\
    findings dossier pdf_texts = Ok ps /\
    problems v = map message ps /\
    status v = match ps with
               | [] => lit "conforme"
               | _ :: _ => lit "non_conforme"
               end.
Proof.
  destruct (findings_ok dossier pdf_texts) as [ps Hps].
  unfold analyze_homelior. rewrite Hps. simpl.
  eexists. exists ps. split; [reflexivity |]. split; [reflexivity |].
  simpl. split; [reflexivity |]. now destruct ps.
Qed.

Lemma message_heading (p : problem) :
  startswith (heading (section_of p)) (message p) = true.
Proof. destruct p; vm_compute; reflexivity. Qed.

Lemma find_doc_named (pdf_texts : list (str * str)) (keywords : list str) :
  _find_doc_by_name pdf_texts keywords = None <->
  named keywords pdf_texts = false.
Proof.
  unfold named. induction pdf_texts as [| [name content] rest IH]; simpl.
  - split; reflexivity.
  - destruct (forallb _ keywords); simpl.
    + split; discriminate.
    + exact IH.
Qed.

Lemma or_else_named (pdf_texts : list (str * str)) (k1 k2 : list str) :
  or_else (_find_doc_by_name pdf_texts k1) (_find_doc_by_name pdf_texts k2)
  = None <->
  named k1 pdf_texts || named k2 pdf_texts = false.
Proof.
  rewrite orb_false_iff, <- !find_doc_named.
  destruct (_find_doc_by_name pdf_texts k1); simpl.
  - split; [discriminate | intros [H _]; discriminate].
  - tauto.
Qed.

End Whole.

(** X7. The problems of a verdict come document by document: every message
    begins with the heading of its document, and the headings follow the
    order quote, frame, invoice, delivery note, honour statement, completion
    certificate. *)
Theorem problems_grouped_by_document {U : UnicodeData}
  (dossier : Dossier) (pdf_texts : list (str * str)) :
  exists v ks,
    analyze_homelior dossier pdf_texts = Ok v /\
    Forall2 (fun k msg => startswith (heading k) msg = true)
            ks (problems v) /\
    StronglySorted le ks /\
    Forall (fun k => (2 <= k <= 7)%nat) ks.
Proof.
  destruct (analyze_of_findings dossier pdf_texts)
    as (v & ps & Hv & Hps & Hp & _).
  exists v, (map section_of ps). split; [exact Hv |].
  rewrite Hp. split; [| split].
  - clear. induction ps as [| p t IH]; simpl; constructor.
    + apply message_heading.
    + exact IH.
  - apply findings_sorted in Hps. clear - Hps.
    induction Hps as [| p t _ IH Hle]; simpl; constructor.
    + exact IH.
    + apply Forall_map. exact Hle.
  - clear. apply Forall_map, Forall_forall. intros p _.
    destruct p; simpl; lia.
Qed.

(** X8. A verdict lists at most twelve problems (five on the quote, two on
    the frame, one each on the invoice, the delivery note and the honour
    statement, two on the completion certificate), and a lot in which every
    check fails reaches twelve. *)
Theorem problems_at_most_twelve :
  (forall (U : UnicodeData) (dossier : Dossier)
          (pdf_texts : list (str * str)),
      exists v, analyze_homelior dossier pdf_texts = Ok v /\
                (List.length (problems v) <= 12)%nat) /\
  List.length
    (problems (verdict_of (analyze_homelior (U := Latin.data)
                             dossier_vide lot_douze))) = 12%nat.
Proof.
  split; [| vm_compute; reflexivity].
  intros U dossier pdf_texts.
  destruct (analyze_of_findings dossier pdf_texts)
    as (v & ps & Hv & Hps & Hp & _).
  exists v. split; [exact Hv |]. rewrite Hp, length_map.
  destruct (findings_inv _ _ Hps) as (p2 & p3 & H2 & H3 & ->).
  cbv zeta in H2, H3.
  apply rule_devis_length in H2. apply rule_cadre_length in H3.
  set (docs := main_documents pdf_texts) in *.
  set (ds := reference_dates docs) in *.
  pose proof (rule_aft_length docs ds) as H7.
  assert (H4 : (List.length (rule_facture docs) <= 1)%nat)
    by (unfold rule_facture; repeat break_match; simpl; lia).
  assert (H5 : (List.length (rule_bl docs ds) <= 1)%nat)
    by (unfold rule_bl; repeat break_match; simpl; lia).
  assert (H6 : (List.length (rule_ah docs) <= 1)%nat)
    by (unfold rule_ah; repeat break_match; simpl; lia).
  rewrite !length_app. lia.
Qed.

(** X9. A lot is found compliant only if a file name is there for each of
    the six documents; a document without a file has its "absent" message
    among the problems. *)
Theorem conforme_needs_six_documents {U : UnicodeData}
  (dossier : Dossier) (pdf_texts : list (str * str)) :
  let absent (present : bool) (p : problem) (v : verdict) :=
    present = false -> In (message p) (problems v) in
  exists v,
    analyze_homelior dossier pdf_texts = Ok v /\
    (status v = lit "conforme" ->
     named [lit "devis"] pdf_texts = true /\
     named [lit "cadre"] pdf_texts = true /\
     named [lit "facture"] pdf_texts = true /\
     named [lit "bon"; lit "livraison"] pdf_texts = true /\
     named [lit "ah"] pdf_texts
     || named [lit "attestation"; lit "honneur"] pdf_texts = true /\
     named [lit "aft"] pdf_texts
     || named [lit "fin"; lit "travaux"] pdf_texts = true) /\
    absent (named [lit "devis"] pdf_texts) DevisAbsent v /\
    absent (named [lit "cadre"] pdf_texts) CadreAbsent v /\
    absent (named [lit "facture"] pdf_texts) FactureAbsente v /\
    absent (named [lit "bon"; lit "livraison"] pdf_texts) BlAbsent v /\
    absent (named [lit "ah"] pdf_texts
            || named [lit "attestation"; lit "honneur"] pdf_texts)
           AhAbsente v /\
    absent (named [lit "aft"] pdf_texts
            || named [lit "fin"; lit "travaux"] pdf_texts)
           AftAbsente v.
Proof.
  cbv zeta.
  destruct (analyze_of_findings dossier pdf_texts)
    as (v & ps & Hv & Hps & Hp & Hs).
  exists v. split; [exact Hv |].
  destruct (findings_inv _ _ Hps) as (p2 & p3 & H2 & H3 & E).
  cbv zeta in H2, H3, E.
  set (docs := main_documents pdf_texts) in *.
  set (ds := reference_dates docs) in *.
  assert (A1 : named [lit "devis"] pdf_texts = false ->
               In DevisAbsent ps).
  { intros N. apply find_doc_named in N.
    unfold rule_devis in H2. change (devis docs)
      with (_find_doc_by_name pdf_texts [lit "devis"]) in H2.
    rewrite N in H2. injection H2 as <-. subst ps. simpl. auto. }
  assert (A2 : named [lit "cadre"] pdf_texts = false ->
               In CadreAbsent ps).
  { intros N. apply find_doc_named in N.
    unfold rule_cadre in H3. change (cadre docs)
      with (_find_doc_by_name pdf_texts [lit "cadre"]) in H3.
    rewrite N in H3. injection H3 as <-. subst ps.
    apply in_or_app. right. simpl. auto. }
  assert (A3 : named [lit "facture"] pdf_texts = false ->
               In FactureAbsente ps).
  { intros N. apply find_doc_named in N. subst ps.
    do 2 (apply in_or_app; right). apply in_or_app. left.
    unfold rule_facture. change (facture docs)
      with (_find_doc_by_name pdf_texts [lit "facture"]).
    rewrite N. simpl. auto. }
  assert (A4 : named [lit "bon"; lit "livraison"] pdf_texts = false ->
               In BlAbsent ps).
  { intros N. apply find_doc_named in N. subst ps.
    do 3 (apply in_or_app; right). apply in_or_app. left.
    unfold rule_bl. change (bl docs)
      with (_find_doc_by_name pdf_texts [lit "bon"; lit "livraison"]).
    rewrite N. simpl. auto. }
  assert (A5 : named [lit "ah"] pdf_texts
               || named [lit "attestation"; lit "honneur"] pdf_texts = false ->
               In AhAbsente ps).
  { intros N. apply or_else_named in N. subst ps.
    do 4 (apply in_or_app; right). apply in_or_app. left.
    unfold rule_ah. change (ah docs)
      with (or_else (_find_doc_by_name pdf_texts [lit "ah"])
              (_find_doc_by_name pdf_texts
                 [lit "attestation"; lit "honneur"])).
    rewrite N. simpl. auto. }
  assert (A6 : named [lit "aft"] pdf_texts
               || named [lit "fin"; lit "travaux"] pdf_texts = false ->
               In AftAbsente ps).
  { intros N. apply or_else_named in N. subst ps.
    do 5 (apply in_or_app; right).
    unfold rule_aft. change (aft docs)
      with (or_else (_find_doc_by_name pdf_texts [lit "aft"])
              (_find_doc_by_name pdf_texts [lit "fin"; lit "travaux"])).
    rewrite N. simpl. auto. }
  rewrite Hp.
  split; [| repeat split; intros N; apply in_map; auto].
  intros C. rewrite Hs in C.
  destruct ps as [| p t]; [| vm_compute in C; discriminate].
  repeat split; apply not_false_iff_true; intros N.
  - exact (A1 N).
  - exact (A2 N).
  - exact (A3 N).
  - exact (A4 N).
  - exact (A5 N).
  - exact (A6 N).
Qed.


(** ** The form value of the subsidy *)

Section FormValue.
Context {U : UnicodeData}.

Lemma check_prime_reads_prime (d1 d2 : Dossier) (cadre_norm : str) :
  prime_saisie d1 = prime_saisie d2 ->
  check_prime d1 cadre_norm = check_prime d2 cadre_norm.
Proof.
  unfold prime_saisie, check_prime. intros E. cbv zeta. now rewrite E.
Qed.

Lemma sub_nan (x : float) : PyNum.sub x S754_nan = S754_nan.
Proof. now destruct x as [| | | [] ? ?]. Qed.

(** Any spelling of [nan] is read as the float that compares with
    nothing. *)
Lemma py_float_nan (s : str) :
  map ascii_tolower s = lit "nan" ->
  truthy s = true /\
  py_float (replace (ch ",") [ch "."]
              (replace nbsp [] (replace (ch " ") [] s))) = Ok S754_nan.
Proof.
  intros H. destruct s as [| a [| b [| c [| ? ?]]]]; try discriminate.
  injection H as Ha Hb Hc.
  assert (L : forall x y : N,
             (y = 110 \/ y = 97)%N -> ascii_tolower x = y ->
             x = y \/ x = (y - 32)%N).
  { intros x y Hy. unfold ascii_tolower, ascii_upper, between.
    destruct (N.leb_spec 65 x), (N.leb_spec x 90); simpl; lia. }
  apply L in Ha; [| lia]. apply L in Hb; [| lia]. apply L in Hc; [| lia].
  destruct Ha as [-> | ->], Hb as [-> | ->], Hc as [-> | ->];
    split; reflexivity.
Qed.

Lemma check_prime_nan (dossier : Dossier) (cadre_norm : str)
  (ps : list problem) :
  map ascii_tolower (prime_saisie dossier) = lit "nan" ->
  check_prime dossier cadre_norm = Ok ps ->
  Forall (fun p => is_amount_mismatch p = false) ps.
Proof.
  intros H. apply py_float_nan in H. destruct H as [Ht Hf].
  unfold check_prime. cbv zeta.
  change (strip _) with (prime_saisie dossier).
  rewrite Ht, Hf. unfold bind at 1.
  destruct (search false re_prime cadre_norm) as [m |];
    [| intros E; injection E as <-; repeat constructor].
  unfold bind, ret, try_except.
  destruct (py_float (replace (ch ",") [ch "."]
                        (replace nbsp [] (replace (ch " ") [] (group 1 m)))))
    as [cadre_val | []].
  - rewrite sub_nan. intros E. injection E as <-. constructor.
  - intros E. injection E as <-. repeat constructor.
Qed.

Lemma section_no_mismatch (k : nat) (l : list problem) :
  k <> 3%nat -> Forall (fun p => section_of p = k) l ->
  Forall (fun p => is_amount_mismatch p = false) l.
Proof.
  intros Hk H. eapply Forall_impl; [| exact H]. simpl.
  intros p Hp. destruct p; simpl in *; congruence.
Qed.

End FormValue.

(** X10. Of the case file, the analysis reads the form field "Prime CEE"
    only, surrounding blanks apart: two case files that agree on it get the
    same verdict on the same lot. *)
Theorem only_prime_cee_field_read {U : UnicodeData} (d1 d2 : Dossier)
  (pdf_texts : list (str * str)) :
  prime_saisie d1 = prime_saisie d2 ->
  analyze_homelior d1 pdf_texts = analyze_homelior d2 pdf_texts.
Proof.
  intros E. unfold analyze_homelior, findings, rule_cadre. cbv zeta.
  destruct (cadre (main_documents pdf_texts)) as [d |]; [| reflexivity].
  now rewrite (@check_prime_reads_prime U d1 d2 (doc_norm d) E).
Qed.

Lemma only_prime_cee_field_read_witness :
  prime_saisie (U := Latin.data) (dossier_prime "1 000,00")
  = prime_saisie (U := Latin.data) dossier_rempli /\
  analyze_homelior (U := Latin.data) (dossier_prime "1 000,00") lot_complet
  = analyze_homelior (U := Latin.data) dossier_rempli lot_complet.
Proof.
  split; [vm_compute; reflexivity |].
  apply (@only_prime_cee_field_read Latin.data). vm_compute. reflexivity.
Defined.

(** X11. A form value spelled [nan], in any case, silences the comparison
    of amounts: [float] accepts it and no difference with it exceeds the
    tolerance, so no verdict reports a differing subsidy, whatever the frame
    states. *)
Theorem nan_prime_never_differs {U : UnicodeData} (dossier : Dossier)
  (pdf_texts : list (str * str)) :
  map ascii_tolower (prime_saisie dossier) = lit "nan" ->
  exists v,
    analyze_homelior dossier pdf_texts = Ok v /\
    Forall (fun msg => ~ is_amount_mismatch_message msg) (problems v).
Proof.
  intros N.
  destruct (analyze_of_findings dossier pdf_texts)
    as (v & ps & Hv & Hps & Hp & _).
  exists v. split; [exact Hv |]. rewrite Hp.
  assert (F : Forall (fun p => is_amount_mismatch p = false) ps).
  { destruct (findings_inv _ _ Hps) as (p2 & p3 & H2 & H3 & ->).
    cbv zeta in H2, H3.
    apply rule_devis_section in H2.
    repeat apply Forall_app_intro.
    - eapply section_no_mismatch; [| exact H2]. lia.
    - unfold rule_cadre in H3.
      destruct (cadre (main_documents pdf_texts)) as [d |].
      + destruct (negb _).
        * simpl in H3. injection H3 as <-. constructor; [reflexivity |].
          apply check_date_proposition_no_mismatch.
        * destruct (check_prime dossier (doc_norm d)) as [pa | e] eqn:Hc;
            [| discriminate].
          simpl in H3. injection H3 as <-. apply Forall_app_intro.
          -- exact (@check_prime_nan U dossier (doc_norm d) pa N Hc).
          -- apply check_date_proposition_no_mismatch.
      + injection H3 as <-. repeat constructor.
    - eapply section_no_mismatch; [| apply rule_facture_section]. lia.
    - eapply section_no_mismatch; [| apply rule_bl_section]. lia.
    - eapply section_no_mismatch; [| apply rule_ah_section]. lia.
    - eapply section_no_mismatch; [| apply rule_aft_section]. lia. }
  apply Forall_forall. intros msg Hin (a & b & E).
  apply in_map_iff in Hin. destruct Hin as (p & <- & Hin).
  apply message_amount_mismatch in E.
  rewrite Forall_forall in F. rewrite (F p Hin) in E. discriminate.
Qed.

Lemma nan_prime_never_differs_witness :
  map ascii_tolower (prime_saisie (U := Latin.data) (dossier_prime " NaN "))
  = lit "nan" /\
  exists v,
    analyze_homelior (U := Latin.data) (dossier_prime " NaN ") lot_complet
    = Ok v /\
    Forall (fun msg => ~ is_amount_mismatch_message msg) (problems v).
Proof.
  split; [vm_compute; reflexivity |].
  apply (@nan_prime_never_differs Latin.data). vm_compute. reflexivity.
Defined.


(** ** Counted repetitions of a class, and the dates they capture *)

Section Counted.
Context {U : UnicodeData}.
Variable ic : bool.

Lemma rmatch_seq (a b : regex) (st : mstate) (k : mstate -> option mstate) :
  rmatch ic (Seq a b) st k = rmatch ic a st (fun st1 => rmatch ic b st1 k).
Proof. reflexivity. Qed.

Lemma advanced_step (x : codepoint) (t : str) (st : mstate) :
  m_rest st = x :: t -> advanced st (advance x t st) = true.
Proof.
  intros E. unfold advanced, advance. simpl. rewrite E. simpl.
  apply Nat.ltb_lt. lia.
Qed.

(** A repetition of a class reads at least [lo] characters of the class,
    and at most [hi] when it has an upper bound. *)
Lemma rep_class_sound (g : bool) (lo : nat) (hi : option nat) (cs : cset)
  (k : mstate -> option mstate) (res : mstate) (st : mstate) :
  rmatch ic (Rep g lo hi (Cls cs)) st k = Some res ->
  exists st' w,
    k st' = Some res /\ m_rest st = w ++ m_rest st' /\
    (lo <= 0 + List.length w)%nat /\
    (List.length w <= match hi with
                      | Some h => h
                      | None => List.length (m_rest st)
                      end)%nat /\
    Forall (fun x => cset_mem cs x = true) w.
Proof.
  intros H. simpl in H. revert H.
  generalize (match hi with
              | Some h => h
              | None => List.length (m_rest st)
              end) as fuel.
  generalize 0%nat as cnt.
  intros cnt fuel. revert cnt st.
  induction fuel as [| fuel IH]; intros cnt st H.
  - destruct (lo <=? cnt)%nat eqn:L; [| discriminate].
    apply Nat.leb_le in L. exists st, []. simpl.
    repeat split; auto; lia.
  - assert (Stop : (if (lo <=? cnt)%nat then k st else None) = Some res ->
                   exists st' w,
                     k st' = Some res /\ m_rest st = w ++ m_rest st' /\
                     (lo <= cnt + List.length w)%nat /\
                     (List.length w <= S fuel)%nat /\
                     Forall (fun x => cset_mem cs x = true) w).
    { destruct (lo <=? cnt)%nat eqn:L; [| discriminate].
      apply Nat.leb_le in L. intros K. exists st, []. simpl.
      repeat split; auto; lia. }
    simpl in H. destruct (m_rest st) as [| x t] eqn:E.
    + destruct g; [exact (Stop H) |].
      destruct (if (lo <=? cnt)%nat then k st else None) eqn:K;
        [| discriminate].
      injection H as ->. exact (Stop eq_refl).
    + pose proof (advanced_step st E) as Adv.
      assert (More :
                forall r0,
                  (if cset_mem cs x
                   then (if advanced st (advance x t st)
                         then r0 else None)
                   else None) = Some res ->
                  (r0 = Some res ->
                   exists st' w,
                     k st' = Some res /\
                     m_rest (advance x t st) = w ++ m_rest st' /\
                     (lo <= S cnt + List.length w)%nat /\
                     (List.length w <= fuel)%nat /\
                     Forall (fun x => cset_mem cs x = true) w) ->
                  exists st' w,
                    k st' = Some res /\ x :: t = w ++ m_rest st' /\
                    (lo <= cnt + List.length w)%nat /\
                    (List.length w <= S fuel)%nat /\
                    Forall (fun x => cset_mem cs x = true) w).
      { intros r0 Hr Hk. destruct (cset_mem cs x) eqn:M; [| discriminate].
        rewrite Adv in Hr. destruct (Hk Hr) as (st' & w & K & R & L1 & L2 & F).
        exists st', (x :: w). simpl in R. rewrite R. simpl.
        repeat split; auto; lia. }
      destruct g.
      * match type of H with
        | match ?c with Some _ => _ | None => _ end = _ =>
          destruct c as [m |] eqn:C
        end.
        -- injection H as ->. eapply More; [exact C |]. apply IH.
        -- exact (Stop H).
      * destruct (if (lo <=? cnt)%nat then k st else None) eqn:K.
        -- injection H as ->. exact (Stop eq_refl).
        -- eapply More; [exact H |]. apply IH.
Qed.

Lemma chr_sound (c : codepoint) (st : mstate)
  (k : mstate -> option mstate) (res : mstate) :
  rmatch ic (Chr c) st k = Some res ->
  exists x t, m_rest st = x :: t /\ chr_match ic c x = true /\
              k (advance x t st) = Some res.
Proof.
  simpl. destruct (m_rest st) as [| x t]; [discriminate |].
  destruct (chr_match ic c x) eqn:M; [| discriminate].
  intros H. now exists x, t.
Qed.

End Counted.


Section DateShape.
Context {U : UnicodeData}.
Variable ic : bool.

Lemma slash_match (x : codepoint) :
  chr_match ic (ch "/") x = true -> x = ch "/".
Proof.
  unfold chr_match.
  replace (ic && iscased (ch "/")) with false by (now destruct ic).
  apply N.eqb_eq.
Qed.

Lemma counted_word (n : nat) (w : str) :
  (n <= 0 + List.length w)%nat -> (List.length w <= n)%nat ->
  List.length w = n.
Proof. lia. Qed.

Lemma date_sound (st : mstate) (k : mstate -> option mstate)
  (res : mstate) :
  rmatch ic re_date st k = Some res ->
  exists st' w,
    k st' = Some res /\ m_rest st = w ++ m_rest st' /\ date_shape w.
Proof.
  unfold re_date, times, digit.
  change (cat ?l) with (fold_right Seq Eps l). cbn [fold_right].
  rewrite rmatch_seq. intros H.
  apply rep_class_sound in H.
  destruct H as (st1 & w1 & H & R1 & L1 & U1 & F1).
  rewrite rmatch_seq in H. apply chr_sound in H.
  destruct H as (s1 & t1 & E1 & C1 & H). apply slash_match in C1. subst s1.
  rewrite rmatch_seq in H. apply rep_class_sound in H.
  destruct H as (st2 & w2 & H & R2 & L2 & U2 & F2).
  rewrite rmatch_seq in H. apply chr_sound in H.
  destruct H as (s2 & t2 & E2 & C2 & H). apply slash_match in C2. subst s2.
  rewrite rmatch_seq in H. apply rep_class_sound in H.
  destruct H as (st3 & w3 & H & R3 & L3 & U3 & F3).
  change (rmatch ic Eps st3 k) with (k st3) in H.
  pose proof (counted_word _ L1 U1) as N1.
  pose proof (counted_word _ L2 U2) as N2.
  pose proof (counted_word _ L3 U3) as N3.
  destruct w1 as [| d1 [| d2 [| ? ?]]]; try discriminate.
  destruct w2 as [| m1 [| m2 [| ? ?]]]; try discriminate.
  destruct w3 as [| y1 [| y2 [| y3 [| y4 [| ? ?]]]]]; try discriminate.
  exists st3, [d1; d2; ch "/"; m1; m2; ch "/"; y1; y2; y3; y4].
  split; [exact H |]. split.
  - rewrite R1, E1. simpl in R2. rewrite R2, E2. simpl in R3. rewrite R3.
    reflexivity.
  - exists d1, d2, m1, m2, y1, y2, y3, y4. split; [reflexivity |].
    inversion F1 as [| ? ? A1 F1']. inversion F1' as [| ? ? A2 _].
    inversion F2 as [| ? ? B1 F2']. inversion F2' as [| ? ? B2 _].
    inversion F3 as [| ? ? D1 F3']. inversion F3' as [| ? ? D2 F3''].
    inversion F3'' as [| ? ? D3 F3''']. inversion F3''' as [| ? ? D4 _].
    repeat constructor; assumption.
Qed.

End DateShape.

(** X12. What [_find_date_any] returns is a piece of the text made of two
    digits, a slash, two digits, a slash and four digits: ten characters, the
    digits being decimal digits of any script. *)
Theorem find_date_any_shape {U : UnicodeData} (text s : str) :
  _find_date_any text = Some s ->
  (exists p t, text = p ++ s ++ t) /\ date_shape s /\ List.length s = 10%nat.
Proof.
  unfold _find_date_any.
  destruct (search false re_date_any text) as [m |] eqn:S; [| discriminate].
  intros H. injection H as <-.
  unfold search in S. apply search_from_sound in S.
  destruct S as (prev & p & s' & -> & H).
  unfold match_here, re_date_any in H.
  change (cat ?l) with (fold_right Seq Eps l) in H. cbn [fold_right] in H.
  rewrite rmatch_seq in H.
  change (rmatch false WordB ?st ?k)
    with (if at_boundary st then k st else None) in H.
  destruct (at_boundary _); [| discriminate].
  rewrite rmatch_seq in H.
  change (rmatch false (Grp 1 re_date) ?st ?k)
    with (rmatch false re_date st
            (fun st1 => k (set_group 1 (taken st st1) st1))) in H.
  apply date_sound in H. destruct H as (st' & w & K & R & Sh).
  rewrite rmatch_seq in K.
  change (rmatch false WordB ?st ?k)
    with (if at_boundary st then k st else None) in K.
  destruct (at_boundary _); [| discriminate].
  change (rmatch false Eps ?st ?k) with (k st) in K.
  injection K as <-.
  rewrite (@taken_exact _ _ _ R).
  replace (group 1 (set_group 1 w st')) with w
    by (unfold group, set_group; reflexivity).
  simpl in R. split; [| split].
  - exists p, (m_rest st'). now rewrite R.
  - exact Sh.
  - destruct Sh as (d1 & d2 & m1 & m2 & y1 & y2 & y3 & y4 & -> & _).
    reflexivity.
Qed.

Lemma find_date_any_shape_witness :
  _find_date_any (U := Latin.data) (lit "livre le 20/03/2024 a paris")
  = Some (lit "20/03/2024") /\
  (exists p t, lit "livre le 20/03/2024 a paris" = p ++ lit "20/03/2024" ++ t)
  /\ date_shape (U := Latin.data) (lit "20/03/2024")
  /\ List.length (lit "20/03/2024") = 10%nat.
Proof.
  split; [vm_compute; reflexivity |].
  apply (@find_date_any_shape Latin.data). vm_compute. reflexivity.
Defined.


(** ** Dictionaries *)

Lemma str_eqb_refl (a : str) : Str.eqb a a = true.
Proof. unfold Str.eqb. now destruct (list_eq_dec N.eq_dec a a). Qed.

Lemma str_eqb_neq (a b : str) : a <> b -> Str.eqb a b = false.
Proof. unfold Str.eqb. now destruct (list_eq_dec N.eq_dec a b). Qed.

Lemma dset_fresh {A : Type} (k : str) (v : A) (d : list (str * A)) :
  ~ In k (map fst d) -> dset k v d = d ++ [(k, v)].
Proof.
  induction d as [| [k' v'] r IH]; simpl; intros N; [reflexivity |].
  rewrite str_eqb_neq by tauto. now rewrite IH by tauto.
Qed.

Lemma fold_dset_fresh {A B : Type} (key : B -> str) (val : B -> A)
  (items : list B) :
  forall acc,
    NoDup (map fst acc ++ map key items) ->
    fold_left (fun d it => dset (key it) (val it) d) items acc
    = acc ++ map (fun it => (key it, val it)) items.
Proof.
  induction items as [| it r IH]; intros acc N; simpl.
  - now rewrite app_nil_r.
  - simpl in N. rewrite dset_fresh.
    + rewrite IH.
      * now rewrite <- app_assoc.
      * rewrite map_app, <- app_assoc. exact N.
    + apply NoDup_remove_2 in N. intros I. apply N, in_or_app. now left.
Qed.

(** ** [validate_fields] *)

Lemma filter_nil_iff {A : Type} (p : A -> bool) (l : list A) :
  filter p l = [] <-> Forall (fun x => p x = false) l.
Proof.
  induction l as [| x t IH]; simpl.
  - split; constructor.
  - destruct (p x) eqn:P.
    + split; [discriminate |]. intros F. inversion F. congruence.
    + rewrite IH. split; [now constructor | intros F; now inversion F].
Qed.

Lemma field_absent_false (dossier : Dossier) (f : str) :
  field_absent dossier f = false <->
  exists v, dict_get f (fields dossier) = Some v /\ v <> [].
Proof.
  unfold field_absent. destruct (dict_get f (fields dossier)) as [v |].
  - destruct v as [| c t]; simpl.
    + split; [discriminate | intros (v & E & N); injection E as <-; tauto].
    + split; [| reflexivity]. intros _. now exists (c :: t).
  - split; [discriminate | intros (v & E & _); discriminate].
Qed.

Lemma non_conforme_is_not_conforme : lit "non_conforme" <> lit "conforme".
Proof. vm_compute. discriminate. Qed.

(** X13. [validate_fields] answers "conforme" exactly when every required
    field of the delegataire has a non-empty value in the form and every
    required document has a non-empty [DOC::] flag; a field entered as the
    empty string counts as missing.  Otherwise it answers
    "non_conforme". *)
Theorem validate_fields_conforme_iff (dossier : Dossier)
  (rules_cfg : list (str * rules)) :
  let r := rules_get (delegataire dossier) rules_cfg in
  let filled f :=
    exists v, dict_get f (fields dossier) = Some v /\ v <> [] in
  let res := validate_fields dossier rules_cfg in
  (fr_status res = lit "conforme" <->
   Forall filled (get_list (r_required_fields r)) /\
   Forall (fun d => filled (lit "DOC::" ++ d))
          (get_list (r_required_documents r))) /\
  (fr_status res = lit "conforme" \/ fr_status res = lit "non_conforme").
Proof.
  cbv zeta. unfold validate_fields. cbv zeta. cbn [fr_status].
  set (mf := filter _ (get_list (r_required_fields _))).
  set (md := filter (fun d => field_absent dossier (lit "DOC::" ++ d))
               (get_list (r_required_documents _))).
  assert (Ef : mf = [] <->
               Forall (fun f => exists v,
                         dict_get f (fields dossier) = Some v /\ v <> [])
                      (get_list (r_required_fields
                         (rules_get (delegataire dossier) rules_cfg)))).
  { unfold mf. rewrite filter_nil_iff. split; intros F;
      (eapply Forall_impl; [| exact F]); intros f; apply field_absent_false. }
  assert (Ed : md = [] <->
               Forall (fun d => exists v,
                         dict_get (lit "DOC::" ++ d) (fields dossier) = Some v
                         /\ v <> [])
                      (get_list (r_required_documents
                         (rules_get (delegataire dossier) rules_cfg)))).
  { unfold md. rewrite filter_nil_iff. split; intros F;
      (eapply Forall_impl; [| exact F]); intros f; apply field_absent_false. }
  rewrite <- Ef, <- Ed. clear Ef Ed.
  destruct mf as [| f mf'], md as [| d md']; cbn [nonempty negb andb].
  - split; [| now left]. split; [now split | reflexivity].
  - split; [| now right]. split.
    + intros E. now apply non_conforme_is_not_conforme in E.
    + intros [_ E]. discriminate.
  - split; [| now right]. split.
    + intros E. now apply non_conforme_is_not_conforme in E.
    + intros [E _]. discriminate.
  - split; [| now right]. split.
    + intros E. now apply non_conforme_is_not_conforme in E.
    + intros [E _]. discriminate.
Qed.

(** ** [_build_docs_summary] *)

(** X15. For a bundle whose file names are distinct, as the keys of a
    dictionary are, the summary keeps the names in their order and cuts
    each text after its first 1500 characters: a shorter text is kept
    whole. *)
Theorem build_docs_summary_cuts (pdf_texts : list (str * str)) :
  NoDup (map fst pdf_texts) ->
  Forall2
    (fun item cut =>
       fst cut = fst item /\
       List.length (snd cut) = Nat.min 1500 (List.length (snd item)) /\
       (exists rest, snd item = snd cut ++ rest) /\
       ((List.length (snd item) <= 1500)%nat -> snd cut = snd item))
    pdf_texts (_build_docs_summary pdf_texts).
Proof.
  intros N.
  assert (E : _build_docs_summary pdf_texts
              = map (fun it => (fst it, firstn 1500 (snd it))) pdf_texts)
    by exact (@fold_dset_fresh str (str * str) fst
                (fun it => firstn 1500 (snd it)) pdf_texts [] N).
  rewrite E. clear N E.
  induction pdf_texts as [| [name text] r IH]; cbn [map]; constructor.
  - cbn [fst snd]. repeat split.
    + apply length_firstn.
    + exists (skipn 1500 text). symmetry. apply firstn_skipn.
    + intros L. now apply firstn_all2.
  - exact IH.
Qed.

Lemma build_docs_summary_cuts_witness :
  NoDup (map fst lot_long) /\
  Forall2
    (fun item cut =>
       fst cut = fst item /\
       List.length (snd cut) = Nat.min 1500 (List.length (snd item)) /\
       (exists rest, snd item = snd cut ++ rest) /\
       ((List.length (snd item) <= 1500)%nat -> snd cut = snd item))
    lot_long (_build_docs_summary lot_long).
Proof.
  assert (N : NoDup (map fst lot_long)).
  { constructor.
    - intros [H | []]. vm_compute in H. discriminate.
    - constructor; [intros [] | constructor]. }
  split; [exact N | exact (build_docs_summary_cuts lot_long N)].
Defined.


(** ** [validate_dossier] *)

Lemma conforme_eqb : Str.eqb (lit "conforme") (lit "conforme") = true.
Proof. apply str_eqb_refl. Qed.

Lemma non_conforme_eqb : Str.eqb (lit "non_conforme") (lit "conforme") = false.
Proof. apply str_eqb_neq, non_conforme_is_not_conforme. Qed.

(** The four tests of step 6, taken together. *)
Lemma aggregate_spec (repr_list : list str -> str) (fr : field_result)
  (tech up : list str) (pdf : verdict) :
  let bad_a := negb (Str.eqb (fr_status fr) (lit "conforme")) in
  let bad_p := negb (Str.eqb (status pdf) (lit "conforme")) in
  let all :=
    (if bad_a
     then [lit "Champs manquants: " ++ repr_list (fr_missing_fields fr);
           lit "Documents manquants (d'après CRM): "
           ++ repr_list (fr_missing_documents fr)]
     else [])
    ++ tech ++ up ++ (if bad_p then problems pdf else []) in
  aggregate repr_list fr tech up pdf
  = if bad_a || nonempty tech || nonempty up || bad_p
    then (lit "non_conforme", all,
          if nonempty all then firstn 5 all else [msg_sans_detail])
    else (lit "conforme", [], [msg_dossier_conforme]).
Proof.
  cbv zeta. unfold aggregate. cbv zeta.
  destruct (negb (Str.eqb (fr_status fr) (lit "conforme")));
    destruct tech as [| t1 tech]; destruct up as [| u1 up];
    destruct (negb (Str.eqb (status pdf) (lit "conforme")));
    cbn [fst snd nonempty orb app];
    rewrite ?conforme_eqb, ?non_conforme_eqb;
    rewrite <- ?app_assoc; cbn [fst snd nonempty orb app];
    rewrite ?app_nil_r; reflexivity.
Qed.

Lemma triple_inv {A B C : Type} (a x : A) (b y : B) (c z : C) :
  (a, b, c) = (x, y, z) -> a = x /\ b = y /\ c = z.
Proof. intros H. now inversion H. Qed.

Lemma find_some_of {A : Type} (p : A -> bool) (l : list A) (x : A) :
  In x l -> p x = true -> exists y, find p l = Some y /\ p y = true.
Proof.
  induction l as [| a t IH]; simpl; [tauto |].
  intros [-> | I] P.
  - rewrite P. now exists x.
  - destruct (p a) eqn:Pa; [now exists a | auto].
Qed.

Section ValidatorProps.
Context {U : UnicodeData}.
Variable upper : str -> str.
Variable path_name : str -> str.
Variable path_exists : str -> bool.
Variable st_size : str -> Z.
Variable read_pdf : str -> str.
Variable repr_list : list str -> str.
Variable check_pdfs_with_ai :
  Dossier -> rules -> list (str * str) -> result verdict.

Local Abbreviation run :=
  (validate_dossier upper path_name path_exists st_size read_pdf repr_list
                    check_pdfs_with_ai).

Lemma validate_dossier_inv (rules_cfg : list (str * rules))
  (dossier : Dossier) (r : report) :
  run rules_cfg dossier = Ok r ->
  let deleg_rules := rules_get (delegataire dossier) rules_cfg in
  exists pdf,
    pdf_analysis upper check_pdfs_with_ai dossier deleg_rules
      (pdf_texts_of path_name read_pdf dossier) = Ok pdf /\
    rp_field_result r = validate_fields dossier rules_cfg /\
    rp_pdf_result r = pdf /\
    rp_document_presence r = document_presence_of path_name deleg_rules dossier /\
    (rp_status r, rp_problems r, rp_main_reasons r)
    = aggregate repr_list (validate_fields dossier rules_cfg)
        (tech_problems_of path_name path_exists st_size read_pdf dossier)
        (uploaded_missing_docs_of path_name deleg_rules dossier) pdf.
Proof.
  unfold validate_dossier. cbv zeta.
  destruct (pdf_analysis _ _ _ _ _) as [pdf | e]; [| discriminate].
  unfold bind, ret.
  destruct (aggregate _ _ _ _ _) as [[gs ap] sr] eqn:E.
  intros H. injection H as <-. exists pdf. repeat split.
  exact (eq_sym E).
Qed.

(** The HOMELIOR branch returns, and a verdict of it that is not
    "conforme" names a problem. *)
Lemma pdf_analysis_homelior (dossier : Dossier) (deleg_rules : rules)
  (pdf_texts : list (str * str)) :
  upper (delegataire dossier) = lit "HOMELIOR" ->
  exists v,
    pdf_analysis upper check_pdfs_with_ai dossier deleg_rules pdf_texts
    = Ok v /\
    (Str.eqb (status v) (lit "conforme") = false -> problems v <> []) /\
    (pdf_texts <> [] -> analyze_homelior dossier pdf_texts = Ok v).
Proof.
  intros Hd. unfold pdf_analysis. rewrite Hd, str_eqb_refl.
  destruct pdf_texts as [| it rest]; cbn [nonempty].
  - eexists. split; [reflexivity |]. split; [discriminate | congruence].
  - destruct (analyze_of_findings dossier (it :: rest))
      as (v & ps & Hv & _ & Hp & Hs).
    exists v. split; [exact Hv |]. split; [| intros _; exact Hv].
    rewrite Hp, Hs. destruct ps; [| discriminate].
    now rewrite conforme_eqb.
Qed.

End ValidatorProps.


Section ValidatorReport.
Context {U : UnicodeData}.
Variable upper : str -> str.
Variable path_name : str -> str.
Variable path_exists : str -> bool.
Variable st_size : str -> Z.
Variable read_pdf : str -> str.
Variable repr_list : list str -> str.
Variable check_pdfs_with_ai :
  Dossier -> rules -> list (str * str) -> result verdict.

Local Abbreviation run :=
  (validate_dossier upper path_name path_exists st_size read_pdf repr_list
                    check_pdfs_with_ai).

(** X16. A report is "conforme" or "non_conforme"; a "conforme" report
    lists no problem, carries the one summary line "Dossier conforme",
    and both the form check and the analysis of the files were "conforme",
    with no empty or scanned file among them. *)
Theorem validate_dossier_conforme_clean (rules_cfg : list (str * rules))
  (dossier : Dossier) (r : report) :
  run rules_cfg dossier = Ok r ->
  (rp_status r = lit "conforme" \/ rp_status r = lit "non_conforme") /\
  (rp_status r = lit "conforme" ->
   rp_problems r = [] /\
   rp_main_reasons r = [msg_dossier_conforme] /\
   fr_status (rp_field_result r) = lit "conforme" /\
   status (rp_pdf_result r) = lit "conforme" /\
   tech_problems_of path_name path_exists st_size read_pdf dossier = []).
Proof.
  intros H. apply validate_dossier_inv in H. cbv zeta in H.
  destruct H as (pdf & _ & Hf & Hr & _ & Hagg).
  rewrite aggregate_spec in Hagg. cbv zeta in Hagg.
  rewrite Hf, Hr.
  destruct (negb (Str.eqb (fr_status (validate_fields dossier rules_cfg))
                    (lit "conforme"))) eqn:Ba;
    [injection Hagg as -> _ _; split; [now right |];
     intros E; now apply non_conforme_is_not_conforme in E |].
  destruct (tech_problems_of path_name path_exists st_size read_pdf dossier)
    as [| t1 tech];
    [| injection Hagg as -> _ _; split; [now right |];
       intros E; now apply non_conforme_is_not_conforme in E].
  destruct (uploaded_missing_docs_of path_name
              (rules_get (delegataire dossier) rules_cfg) dossier)
    as [| u1 up];
    [| injection Hagg as -> _ _; split; [now right |];
       intros E; now apply non_conforme_is_not_conforme in E].
  destruct (negb (Str.eqb (status pdf) (lit "conforme"))) eqn:Bp;
    [injection Hagg as -> _ _; split; [now right |];
     intros E; now apply non_conforme_is_not_conforme in E |].
  cbn [orb nonempty] in Hagg. injection Hagg as -> -> ->.
  split; [now left |]. intros _.
  apply negb_false_iff, str_eqb_eq in Ba, Bp. auto.
Qed.

(** X19. The summary of a report holds between one and five lines, each
    one a problem of the report or one of the two fixed sentences; when the
    report lists problems, the summary is its first five. *)
Theorem summary_at_most_five (rules_cfg : list (str * rules))
  (dossier : Dossier) (r : report) :
  run rules_cfg dossier = Ok r ->
  (1 <= List.length (rp_main_reasons r) <= 5)%nat /\
  Forall (fun m => In m (rp_problems r) \/ m = msg_dossier_conforme
                   \/ m = msg_sans_detail) (rp_main_reasons r) /\
  (rp_problems r <> [] -> rp_main_reasons r = firstn 5 (rp_problems r)).
Proof.
  intros H. apply validate_dossier_inv in H. cbv zeta in H.
  destruct H as (pdf & _ & _ & _ & _ & Hagg).
  rewrite aggregate_spec in Hagg. cbv zeta in Hagg.
  match type of Hagg with
  | _ = (if ?c then (_, ?all, _) else _) =>
    set (l := all) in Hagg |- *; clearbody l; destruct c
  end.
  - apply triple_inv in Hagg. destruct Hagg as (_ & -> & ->).
    destruct (nonempty l) eqn:Ne.
    + assert (Hl : (1 <= List.length l)%nat)
        by (destruct l; [discriminate | cbn [List.length]; lia]).
      split; [rewrite length_firstn; lia |]. split; [| reflexivity].
      apply Forall_forall. intros m Hm. left.
      rewrite <- (firstn_skipn 5 l). apply in_or_app. now left.
    + assert (El : l = []) by (destruct l; [reflexivity | discriminate]).
      subst l. cbn [List.length]. split; [lia |]. split; [| tauto].
      constructor; [right; right; reflexivity | constructor].
  - injection Hagg as _ -> ->. cbn [List.length].
    split; [lia |]. split; [| tauto].
    constructor; [right; left; reflexivity | constructor].
Qed.

Lemma detect_nil (doc_type : str) :
  fst (detect_document doc_type []) = None.
Proof.
  unfold detect_document. cbv zeta.
  repeat match goal with
         | |- context [if Str.eqb ?a ?b then _ else _] =>
           destruct (Str.eqb a b)
         end; reflexivity.
Qed.

(** X17. A case without any file is never "conforme": the analysis is
    replaced by the verdict "Aucun PDF fourni pour ce dossier.", which is
    among the problems of the report, and every required document is shown
    absent.  Neither the language model nor the HOMELIOR rules are
    consulted. *)
Theorem no_pdf_never_conforme (rules_cfg : list (str * rules))
  (dossier : Dossier) :
  pdf_files dossier = [] ->
  exists r,
    run rules_cfg dossier = Ok r /\
    rp_status r = lit "non_conforme" /\
    rp_pdf_result r = Verdict (lit "non_conforme") [msg_aucun_pdf] /\
    In msg_aucun_pdf (rp_problems r) /\
    Forall (fun p => p_present p = false) (rp_document_presence r).
Proof.
  intros Hn.
  assert (Ht : pdf_texts_of path_name read_pdf dossier = [])
    by (unfold pdf_texts_of; now rewrite Hn).
  unfold validate_dossier. cbv zeta. rewrite Ht.
  unfold pdf_analysis. cbn [nonempty]. unfold bind, ret.
  rewrite aggregate_spec. cbv zeta. cbn [status problems].
  rewrite non_conforme_eqb. cbn [negb]. rewrite !orb_true_r.
  eexists. split; [reflexivity |].
  cbn [rp_status rp_pdf_result rp_problems rp_document_presence].
  split; [reflexivity |]. split; [reflexivity |]. split.
  - do 3 (apply in_or_app; right). now left.
  - unfold document_presence_of, lower_names_of. rewrite Hn. cbn [map].
    apply Forall_map, Forall_forall. intros t _. cbv zeta.
    cbn [p_present]. now rewrite detect_nil.
Qed.

(** X18. A case whose delegataire reads HOMELIOR in upper case never
    reaches the language model: the report is the same whatever the model
    would have answered, it is always returned, and when files were read its
    analysis is the verdict of [analyze_homelior] on their texts. *)
Theorem homelior_never_calls_ai
  (other_ai : Dossier -> rules -> list (str * str) -> result verdict)
  (rules_cfg : list (str * rules)) (dossier : Dossier) :
  upper (delegataire dossier) = lit "HOMELIOR" ->
  run rules_cfg dossier
  = validate_dossier upper path_name path_exists st_size read_pdf repr_list
      other_ai rules_cfg dossier /\
  exists r,
    run rules_cfg dossier = Ok r /\
    (pdf_texts_of path_name read_pdf dossier <> [] ->
     analyze_homelior dossier (pdf_texts_of path_name read_pdf dossier)
     = Ok (rp_pdf_result r)).
Proof.
  intros Hd. split.
  - unfold validate_dossier, pdf_analysis. cbv zeta.
    rewrite Hd, str_eqb_refl. reflexivity.
  - destruct (pdf_analysis_homelior upper check_pdfs_with_ai dossier
                (rules_get (delegataire dossier) rules_cfg)
                (pdf_texts_of path_name read_pdf dossier) Hd)
      as (v & Hv & _ & Ha).
    unfold validate_dossier. cbv zeta. rewrite Hv. unfold bind, ret.
    destruct (aggregate _ _ _ _ _) as [[gs ap] sr].
    eexists. split; [reflexivity |]. exact Ha.
Qed.

(** X20. For a HOMELIOR case the report is "conforme" exactly when it
    lists no problem, and a "non_conforme" report always names its reasons:
    the summary is the first five problems, never the sentence that stands
    for a refusal without detail. *)
Theorem homelior_status_iff_problems (rules_cfg : list (str * rules))
  (dossier : Dossier) :
  upper (delegataire dossier) = lit "HOMELIOR" ->
  exists r,
    run rules_cfg dossier = Ok r /\
    (rp_status r = lit "conforme" <-> rp_problems r = []) /\
    (rp_status r = lit "non_conforme" ->
     rp_problems r <> [] /\
     rp_main_reasons r = firstn 5 (rp_problems r)).
Proof.
  intros Hd.
  destruct (pdf_analysis_homelior upper check_pdfs_with_ai dossier
              (rules_get (delegataire dossier) rules_cfg)
              (pdf_texts_of path_name read_pdf dossier) Hd)
    as (v & Hv & Hnz & _).
  unfold validate_dossier. cbv zeta. rewrite Hv. unfold bind, ret.
  rewrite aggregate_spec. cbv zeta.
  set (fr := validate_fields dossier rules_cfg).
  set (tech := tech_problems_of path_name path_exists st_size read_pdf dossier).
  set (up := uploaded_missing_docs_of path_name _ dossier).
  set (a1 := lit "Champs manquants: " ++ _).
  set (a2 := lit "Documents manquants (d'après CRM): " ++ _).
  assert (All :
            negb (Str.eqb (fr_status fr) (lit "conforme")) || nonempty tech
            || nonempty up || negb (Str.eqb (status v) (lit "conforme"))
            = true ->
            exists p t,
              (if negb (Str.eqb (fr_status fr) (lit "conforme"))
               then [a1; a2] else [])
              ++ tech ++ up
              ++ (if negb (Str.eqb (status v) (lit "conforme"))
                  then problems v else []) = p :: t).
  { destruct (negb (Str.eqb (fr_status fr) (lit "conforme")));
      [intros _; cbn [app]; eauto |].
    destruct tech as [| t1 tech']; [| intros _; cbn [app]; eauto].
    destruct up as [| u1 up']; [| intros _; cbn [app]; eauto].
    destruct (Str.eqb (status v) (lit "conforme")) eqn:E;
      [discriminate |].
    intros _. cbn [negb app orb nonempty].
    destruct (problems v) as [| p t] eqn:P; [now destruct (Hnz eq_refl) |].
    eauto. }
  destruct (negb (Str.eqb (fr_status fr) (lit "conforme")) || nonempty tech
            || nonempty up || negb (Str.eqb (status v) (lit "conforme"))).
  - destruct (All eq_refl) as (p & t & ->). cbn [nonempty].
    eexists. split; [reflexivity |]. cbn [rp_status rp_problems rp_main_reasons].
    split; [split; intros E |].
    + now apply non_conforme_is_not_conforme in E.
    + discriminate.
    + intros _. split; [discriminate | reflexivity].
  - eexists. split; [reflexivity |]. cbn [rp_status rp_problems rp_main_reasons].
    split; [tauto |]. intros E. symmetry in E.
    now apply non_conforme_is_not_conforme in E.
Qed.

(** X14. A delegataire without an entry in the configuration (the look-up
    is by the exact name) is checked for nothing: the form check is
    "conforme" with nothing missing, no document is required, and the only
    problems a report can list are empty or scanned files and those of the
    analysis. *)
Theorem unknown_delegataire_unchecked (rules_cfg : list (str * rules))
  (dossier : Dossier) (r : report) :
  dget (delegataire dossier) rules_cfg = None ->
  run rules_cfg dossier = Ok r ->
  rp_field_result r = FieldResult (lit "conforme") [] [] /\
  rp_document_presence r = [] /\
  rp_problems r
  = tech_problems_of path_name path_exists st_size read_pdf dossier
    ++ (if Str.eqb (status (rp_pdf_result r)) (lit "conforme")
        then [] else problems (rp_pdf_result r)).
Proof.
  intros Hn H. apply validate_dossier_inv in H. cbv zeta in H.
  destruct H as (pdf & _ & Hf & Hr & Hd & Hagg).
  assert (Er : rules_get (delegataire dossier) rules_cfg = Rules None None)
    by (unfold rules_get; now rewrite Hn).
  assert (Ef : validate_fields dossier rules_cfg
               = FieldResult (lit "conforme") [] [])
    by (unfold validate_fields; rewrite Er; reflexivity).
  rewrite Hf, Hd, Hr, Ef, Er. split; [reflexivity |].
  split; [reflexivity |].
  rewrite aggregate_spec in Hagg. cbv zeta in Hagg.
  rewrite Ef, Er in Hagg. cbn [fr_status] in Hagg.
  rewrite conforme_eqb in Hagg.
  unfold uploaded_missing_docs_of in Hagg.
  cbn [negb orb app r_required_documents get_list flat_map nonempty] in Hagg.
  destruct (tech_problems_of path_name path_exists st_size read_pdf dossier)
    as [| t1 tech]; cbn [nonempty orb app] in Hagg.
  - destruct (Str.eqb (status pdf) (lit "conforme")); cbn [negb] in Hagg;
      now injection Hagg as _ -> _.
  - destruct (Str.eqb (status pdf) (lit "conforme")); cbn [negb] in Hagg;
      now injection Hagg as _ -> _.
Qed.

End ValidatorReport.

(** X21. One file whose name contains "aft" answers for two required
    documents at once: it is detected both as the honour statement and as
    the completion certificate, and neither is reported missing. *)
Theorem aft_name_counts_for_both_attestations (lower_names : list str)
  (n : str) :
  In n lower_names -> contains (lit "aft") n = true ->
  let honneur := detect_document (lit "attestation_sur_honneur") lower_names in
  let travaux := detect_document (lit "attestation_fin_travaux") lower_names in
  detected (fst honneur) = true /\ snd honneur = [] /\
  detected (fst travaux) = true /\ snd travaux = [].
Proof.
  intros Hin Hc. cbv zeta.
  assert (T : forall (p : str -> bool) (l : list str),
             (forall x, p x = true -> x <> []) ->
             In n l -> p n = true -> detected (find p l) = true).
  { intros p l Hp I P.
    destruct (find_some_of p l n I P) as (y & -> & Py).
    apply Hp in Py. now destruct y. }
  assert (D1 : detected
                 (find (fun n => contains (lit "attest") n
                                 || contains (lit "aft") n
                                 || contains (lit "attestation sur l'honneur") n)
                       lower_names) = true).
  { apply T; [| exact Hin | now rewrite Hc, orb_true_r].
    intros x Hx ->. vm_compute in Hx. discriminate. }
  assert (D2 : detected
                 (find (fun n => contains (lit "fin de travaux") n
                                 || contains (lit "aft") n)
                       lower_names) = true).
  { apply T; [| exact Hin | now rewrite Hc, orb_true_r].
    intros x Hx ->. vm_compute in Hx. discriminate. }
  unfold detect_document. cbv zeta.
  replace (Str.eqb (lit "attestation_sur_honneur") (lit "devis"))
    with false by (vm_compute; reflexivity).
  replace (Str.eqb (lit "attestation_sur_honneur") (lit "facture"))
    with false by (vm_compute; reflexivity).
  replace (Str.eqb (lit "attestation_fin_travaux") (lit "devis"))
    with false by (vm_compute; reflexivity).
  replace (Str.eqb (lit "attestation_fin_travaux") (lit "facture"))
    with false by (vm_compute; reflexivity).
  replace (Str.eqb (lit "attestation_fin_travaux")
             (lit "attestation_sur_honneur"))
    with false by (vm_compute; reflexivity).
  rewrite !str_eqb_refl. cbn [fst snd]. rewrite D1, D2. cbn [negb].
  auto.
Qed.


(** ** The reports of the example cases *)

Lemma validate_dossier_conforme_clean_witness :
  let r := report_of cas_conforme in
  (rp_status r = lit "conforme" \/ rp_status r = lit "non_conforme") /\
  (rp_status r = lit "conforme" ->
   rp_problems r = [] /\
   rp_main_reasons r = [msg_dossier_conforme] /\
   fr_status (rp_field_result r) = lit "conforme" /\
   status (rp_pdf_result r) = lit "conforme" /\
   tech_problems_of (fun p => p) (fun _ => true) (fun _ => 1%Z)
     (lire lot_complet) (dossier_homelior (map fst lot_complet)) = []).
Proof.
  intro r.
  apply (@validate_dossier_conforme_clean Latin.data upper_ascii
           (fun p => p) (fun _ => true) (fun _ => 1%Z) (lire lot_complet)
           repr_simple ia_en_panne regles_homelior
           (dossier_homelior (map fst lot_complet)) r).
  vm_compute. reflexivity.
Defined.

Lemma summary_at_most_five_witness :
  let r := report_of cas_scan in
  (1 <= List.length (rp_main_reasons r) <= 5)%nat /\
  Forall (fun m => In m (rp_problems r) \/ m = msg_dossier_conforme
                   \/ m = msg_sans_detail) (rp_main_reasons r) /\
  (rp_problems r <> [] -> rp_main_reasons r = firstn 5 (rp_problems r)).
Proof.
  intro r.
  apply (@summary_at_most_five Latin.data upper_ascii
           (fun p => p) (fun _ => true) (fun _ => 1%Z)
           (lire [(lit "devis.pdf", lit "bonjour"); (lit "aft.pdf", [])])
           repr_simple ia_en_panne regles_homelior
           (dossier_homelior [lit "devis.pdf"; lit "aft.pdf"]) r).
  vm_compute. reflexivity.
Defined.

Lemma no_pdf_never_conforme_witness :
  exists r,
    cas_sans_pdf = Ok r /\
    rp_status r = lit "non_conforme" /\
    rp_pdf_result r = Verdict (lit "non_conforme") [msg_aucun_pdf] /\
    In msg_aucun_pdf (rp_problems r) /\
    Forall (fun p => p_present p = false) (rp_document_presence r).
Proof.
  exact (@no_pdf_never_conforme Latin.data upper_ascii
           (fun p => p) (fun _ => true) (fun _ => 1%Z) (lire [])
           repr_simple ia_en_panne regles_homelior (dossier_homelior [])
           eq_refl).
Defined.

Lemma homelior_never_calls_ai_witness :
  cas_conforme
  = valider ia_conforme lot_complet regles_homelior
            (dossier_homelior (map fst lot_complet)) /\
  exists r,
    cas_conforme = Ok r /\
    (pdf_texts_of (fun p => p) (lire lot_complet)
       (dossier_homelior (map fst lot_complet)) <> [] ->
     analyze_homelior (U := Latin.data)
       (dossier_homelior (map fst lot_complet))
       (pdf_texts_of (fun p => p) (lire lot_complet)
          (dossier_homelior (map fst lot_complet)))
     = Ok (rp_pdf_result r)).
Proof.
  apply (@homelior_never_calls_ai Latin.data upper_ascii
           (fun p => p) (fun _ => true) (fun _ => 1%Z) (lire lot_complet)
           repr_simple ia_en_panne ia_conforme regles_homelior
           (dossier_homelior (map fst lot_complet))).
  vm_compute. reflexivity.
Defined.

Lemma homelior_status_iff_problems_witness :
  exists r,
    cas_scan = Ok r /\
    (rp_status r = lit "conforme" <-> rp_problems r = []) /\
    (rp_status r = lit "non_conforme" ->
     rp_problems r <> [] /\
     rp_main_reasons r = firstn 5 (rp_problems r)).
Proof.
  apply (@homelior_status_iff_problems Latin.data upper_ascii
           (fun p => p) (fun _ => true) (fun _ => 1%Z)
           (lire [(lit "devis.pdf", lit "bonjour"); (lit "aft.pdf", [])])
           repr_simple ia_en_panne regles_homelior
           (dossier_homelior [lit "devis.pdf"; lit "aft.pdf"])).
  vm_compute. reflexivity.
Defined.

Lemma unknown_delegataire_unchecked_witness :
  let r := report_of cas_autre in
  rp_field_result r = FieldResult (lit "conforme") [] [] /\
  rp_document_presence r = [] /\
  rp_problems r
  = tech_problems_of (fun p => p) (fun _ => true) (fun _ => 1%Z)
      (lire [(lit "devis.pdf", lit "bonjour")]) dossier_autre
    ++ (if Str.eqb (status (rp_pdf_result r)) (lit "conforme")
        then [] else problems (rp_pdf_result r)).
Proof.
  intro r.
  apply (@unknown_delegataire_unchecked Latin.data upper_ascii
           (fun p => p) (fun _ => true) (fun _ => 1%Z)
           (lire [(lit "devis.pdf", lit "bonjour")])
           repr_simple ia_conforme regles_homelior dossier_autre r).
  - vm_compute. reflexivity.
  - vm_compute. reflexivity.
Defined.

Lemma aft_name_counts_for_both_attestations_witness :
  let honneur :=
    detect_document (lit "attestation_sur_honneur")
                    [lit "devis.pdf"; lit "aft.pdf"] in
  let travaux :=
    detect_document (lit "attestation_fin_travaux")
                    [lit "devis.pdf"; lit "aft.pdf"] in
  detected (fst honneur) = true /\ snd honneur = [] /\
  detected (fst travaux) = true /\ snd travaux = [].
Proof.
  apply (@aft_name_counts_for_both_attestations
           [lit "devis.pdf"; lit "aft.pdf"] (lit "aft.pdf")).
  - right. left. reflexivity.
  - vm_compute. reflexivity.
Defined.


(** ** [_nettoie_ien] *)

Section CaseNumber.
Context {U : UnicodeData}.

Lemma chr_exact (c x : codepoint) : chr_match false c x = true -> x = c.
Proof. unfold chr_match. cbn [andb]. apply N.eqb_eq. Qed.

Lemma strip_piece (s : str) : exists p t, s = p ++ strip s ++ t.
Proof.
  unfold strip. destruct (lstrip_suffix s) as [p Hp].
  destruct (rstrip_prefix (lstrip s)) as [t Ht].
  exists p, t. now rewrite <- Ht.
Qed.

Lemma strip_stripped (s : str) :
  lstrip (strip s) = strip s /\ rstrip (strip s) = strip s.
Proof.
  split.
  - apply lstrip_no_lead. unfold strip. apply rstrip_head, lstrip_head.
  - unfold strip. apply rstrip_idem.
Qed.

Lemma ien_sound (txt : str) (m : mstate) :
  search false re_ien txt = Some m ->
  (exists p t, txt = p ++ group 0 m ++ t) /\ ien_shape (group 0 m).
Proof.
  unfold search. intros H. apply search_from_sound in H.
  destruct H as (prev & p & s' & -> & H).
  unfold match_here, re_ien in H.
  change (rmatch false (Grp 0 ?a) ?st ?k)
    with (rmatch false a st
            (fun st1 => k (set_group 0 (taken st st1) st1))) in H.
  change (cat ?l) with (fold_right Seq Eps l) in H. cbn [fold_right] in H.
  change (text "IEN-")
    with (Seq (Chr 73%N) (Seq (Chr 69%N) (Seq (Chr 78%N)
            (Seq (Chr 45%N) Eps)))) in H.
  unfold times, plus, digit in H.
  set (st0 := {| m_prev := prev; m_rest := s'; m_groups := [] |}) in H.
  rewrite rmatch_seq in H. rewrite rmatch_seq in H.
  apply chr_sound in H. destruct H as (c1 & t1 & E1 & C1 & H).
  apply chr_exact in C1. subst c1.
  rewrite rmatch_seq in H.
  apply chr_sound in H. destruct H as (c2 & t2 & E2 & C2 & H).
  apply chr_exact in C2. subst c2.
  rewrite rmatch_seq in H.
  apply chr_sound in H. destruct H as (c3 & t3 & E3 & C3 & H).
  apply chr_exact in C3. subst c3.
  rewrite rmatch_seq in H.
  apply chr_sound in H. destruct H as (c4 & t4 & E4 & C4 & H).
  apply chr_exact in C4. subst c4.
  change (rmatch false Eps ?st ?k) with (k st) in H. cbv beta in H.
  rewrite rmatch_seq in H. apply rep_class_sound in H.
  destruct H as (st1 & w1 & H & R1 & L1 & U1 & F1).
  rewrite rmatch_seq in H. apply chr_sound in H.
  destruct H as (c5 & t5 & E5 & C5 & H). apply chr_exact in C5. subst c5.
  rewrite rmatch_seq in H. apply rep_class_sound in H.
  destruct H as (st2 & w2 & H & R2 & L2 & _ & F2).
  change (rmatch false Eps ?st ?k) with (k st) in H.
  injection H as <-.
  pose proof (counted_word _ L1 U1) as N1.
  destruct w1 as [| y1 [| y2 [| y3 [| y4 [| ? ?]]]]]; try discriminate.
  destruct w2 as [| d ds]; [cbn in L2; lia |].
  cbn [advance m_rest] in E2, E3, E4, R1, R2.
  assert (R : m_rest st0
              = (lit "IEN-" ++ [y1; y2; y3; y4] ++ ch "-" :: d :: ds)
                ++ m_rest st2).
  { rewrite E1, E2, E3, E4, R1, E5. cbn [advance m_rest] in R2 |- *.
    rewrite R2. reflexivity. }
  rewrite (@taken_exact _ _ _ R).
  replace (group 0 (set_group 0 (lit "IEN-" ++ [y1; y2; y3; y4]
                                  ++ ch "-" :: d :: ds) st2))
    with (lit "IEN-" ++ [y1; y2; y3; y4] ++ ch "-" :: d :: ds)
    by (unfold group, set_group; reflexivity).
  split.
  - exists p, (m_rest st2). cbn [m_rest st0] in R. subst st0.
    cbn [m_rest] in R. now rewrite R.
  - exists y1, y2, y3, y4, d, ds. split; [reflexivity |].
    inversion F1 as [| ? ? A1 F1']. inversion F1' as [| ? ? A2 F1''].
    inversion F1'' as [| ? ? A3 F1''']. inversion F1''' as [| ? ? A4 _].
    repeat (constructor; [assumption |]). exact F2.
Qed.

End CaseNumber.

(** X22. What [_nettoie_ien] returns is always a contiguous piece of what
    it was given, and it is either a case number (IEN-, four digits, a
    dash, one or more digits) cut out of the surrounding text, or a text
    without blanks at either end. *)
Theorem nettoie_ien_result {U : UnicodeData} (ien : str) :
  let r := _nettoie_ien ien in
  (exists p t, ien = p ++ r ++ t) /\
  (ien_shape r \/ (lstrip r = r /\ rstrip r = r)).
Proof.
  cbv zeta. unfold _nettoie_ien. cbv zeta.
  set (txt := if startswith (lit "n°") (lower (strip ien))
                 || startswith (lit "nº") (lower (strip ien))
              then strip (skipn 2 (strip ien)) else strip ien).
  assert (P : exists p t, ien = p ++ txt ++ t).
  { destruct (strip_piece ien) as (p & t & E). unfold txt.
    destruct (_ || _); [| now exists p, t].
    destruct (strip_piece (skipn 2 (strip ien))) as (p' & t' & E').
    exists (p ++ firstn 2 (strip ien) ++ p'), (t' ++ t).
    rewrite E at 1. rewrite <- (firstn_skipn 2 (strip ien)) at 1.
    rewrite E' at 1. now rewrite <- !app_assoc. }
  assert (S : lstrip txt = txt /\ rstrip txt = txt)
    by (unfold txt; destruct (_ || _); apply strip_stripped).
  destruct (search false re_ien txt) as [m |] eqn:Hm.
  - apply ien_sound in Hm. destruct Hm as [(p' & t' & E') Sh].
    split; [| now left].
    destruct P as (p & t & E). exists (p ++ p'), (t' ++ t).
    rewrite E at 1. rewrite E' at 1. now rewrite <- !app_assoc.
  - split; [exact P | now right].
Qed.
